(** * Message / status reconciliation of the WhatsApp clone backend

    Shallow embedding of
      - backend/scripts/payload_processor.py  (normalize_webhook_payload,
        process_path: the batch importer),
      - backend/app/main.py  (VALID_STATUS_TRANSITIONS, db_insert_message,
        db_update_message_status, process_webhook_payload: the webhook;
        create_message, update_message_status_endpoint,
        db_get_messages_by_wa_id, serialize, the CORS origins), and
      - backend/app/models.py  (MessageModel.update_message_status),
    followed by the properties of the reconciliation engine.

    Conventions of the model
      - a Python value that came out of [json.load] is a [json]; Python's
        [None] is [JNull]; JSON numbers are integers (no float occurs in the
        payloads of the provider); a [str] is given by its UTF-8 encoding;
      - a Python exception is a value of [pyexn]; code that can raise returns
        an [outcome];
      - a MongoDB collection is the list of its documents in insertion
        order; [find_one], [update_one] and [delete_one] act on the first
        document that matches the filter; the [_id] field that the server
        adds is not represented (so a document that was found is always
        truthy, as it is in Python);
      - equality of BSON values (filter matching, the no-op test of [$set])
        is structural equality of [json], and a filter value also matches an
        array that holds it; the operator expressions of the query language
        are not modelled, and neither is what the store refuses apart from
        a duplicate key: the properties that depend on either are stated
        for identifiers that are strings and for stored fields that are
        scalars of BSON;
      - what [sio.emit] does with a room that is a list or a dict depends
        on the version of python-socketio and on who is connected: it is a
        parameter of the model;
      - [print] appends a [line] to the standard output of the run. *)

From Stdlib Require Import List String Ascii ZArith Bool Lia.
Import ListNotations.
Local Open Scope string_scope.
Local Open Scope list_scope.

(* ================================================================== *)
(** ** Python values *)

Module Py.

Unset Elimination Schemes.
Inductive json : Type :=
| JNull
| JBool (b : bool)
| JNum (n : Z)
| JStr (s : string)
| JArr (items : list json)
| JObj (fields : list (string * json)).
Set Elimination Schemes.

(** A Python [dict] with string keys, in key order. *)
Definition dict := list (string * json).

(** Induction over [json] that reaches inside arrays and objects. *)
Fixpoint json_nested_ind (P : json -> Prop)
    (Hnull : P JNull)
    (Hbool : forall b, P (JBool b))
    (Hnum : forall n, P (JNum n))
    (Hstr : forall s, P (JStr s))
    (Harr : forall items, Forall P items -> P (JArr items))
    (Hobj : forall fields, Forall (fun kv => P (snd kv)) fields -> P (JObj fields))
    (j : json) {struct j} : P j :=
  let rec := json_nested_ind P Hnull Hbool Hnum Hstr Harr Hobj in
  match j with
  | JNull => Hnull
  | JBool b => Hbool b
  | JNum n => Hnum n
  | JStr s => Hstr s
  | JArr items =>
      Harr items
        ((fix all (l : list json) : Forall P l :=
            match l with
            | [] => Forall_nil P
            | x :: l' => Forall_cons x (rec x) (all l')
            end) items)
  | JObj fields =>
      Hobj fields
        ((fix all (l : list (string * json)) : Forall (fun kv => P (snd kv)) l :=
            match l with
            | [] => Forall_nil _
            | kv :: l' => Forall_cons kv (rec (snd kv)) (all l')
            end) fields)
  end.

(** Structural equality, the model of BSON value equality. *)
Fixpoint json_eqb (a b : json) {struct a} : bool :=
  match a, b with
  | JNull, JNull => true
  | JBool x, JBool y => Bool.eqb x y
  | JNum x, JNum y => Z.eqb x y
  | JStr x, JStr y => String.eqb x y
  | JArr xs, JArr ys =>
      (fix go (l : list json) (r : list json) {struct l} : bool :=
         match l, r with
         | [], [] => true
         | x :: l', y :: r' => json_eqb x y && go l' r'
         | _, _ => false
         end) xs ys
  | JObj xs, JObj ys =>
      (fix go (l : list (string * json)) (r : list (string * json)) {struct l} : bool :=
         match l, r with
         | [], [] => true
         | (k, x) :: l', (k', y) :: r' => String.eqb k k' && json_eqb x y && go l' r'
         | _, _ => false
         end) xs ys
  | _, _ => false
  end.

(** Python truthiness: [bool(v)]. *)
Definition truthy (v : json) : bool :=
  match v with
  | JNull => false
  | JBool b => b
  | JNum n => negb (Z.eqb n 0)
  | JStr s => negb (String.eqb s "")
  | JArr items => match items with [] => false | _ => true end
  | JObj fields => match fields with [] => false | _ => true end
  end.

(** [a or b]. *)
Definition py_or (a b : json) : json := if truthy a then a else b.

(** [v == "literal"]: only a string equals a string literal. *)
Definition is_str (lit : string) (v : json) : bool :=
  match v with
  | JStr s => String.eqb s lit
  | _ => false
  end.

(** [v in (lit1, lit2, ...)] and [v in [lit1, ...]] for string literals. *)
Definition in_strs (v : json) (lits : list string) : bool :=
  existsb (fun lit => is_str lit v) lits.

(** [isinstance(v, dict)]. *)
Definition isinstance_dict (v : json) : bool :=
  match v with
  | JObj _ => true
  | _ => false
  end.

(** The exceptions that the modelled code can meet.  All of them are
    subclasses of [Exception]; [HTTPException], [MessageNotFound] and
    [InvalidStatusTransition] are the ones of main.py (the last two are
    subclasses of [HTTPException], with status codes 404 and 400). *)
Inductive pyexn : Type :=
| KeyError (key : string)
| IndexError
| AttributeError
| TypeError
| DuplicateKeyError
| HTTPException (status_code : Z) (detail : string)
| MessageNotFound
| InvalidStatusTransition (current new : json).

Inductive outcome (A : Type) : Type :=
| Ret (a : A)
| Raise (e : pyexn).
Arguments Ret {A} a.
Arguments Raise {A} e.

Definition bind {A B} (m : outcome A) (k : A -> outcome B) : outcome B :=
  match m with
  | Ret a => k a
  | Raise e => Raise e
  end.

Notation "x <- m ;; k" := (bind m (fun x => k))
  (at level 61, m at next level, right associativity).

(** Key lookup in a dict: the first binding of the key. *)
Fixpoint lookup (k : string) (d : dict) : option json :=
  match d with
  | [] => None
  | (k', v) :: d' => if String.eqb k' k then Some v else lookup k d'
  end.

(** [d.get(k)] and [d.get(k, default)] on a value known to be a dict. *)
Definition dict_get (k : string) (d : dict) : json :=
  match lookup k d with
  | Some v => v
  | None => JNull
  end.

Definition dict_get_default (k : string) (default : json) (d : dict) : json :=
  match lookup k d with
  | Some v => v
  | None => default
  end.

(** [d[k]] on a dict. *)
Definition dict_getitem (k : string) (d : dict) : outcome json :=
  match lookup k d with
  | Some v => Ret v
  | None => Raise (KeyError k)
  end.

(** [v.get(k)], [v.get(k, default)]: only a dict has a [get] method. *)
Definition py_get (k : string) (v : json) : outcome json :=
  match v with
  | JObj d => Ret (dict_get k d)
  | _ => Raise AttributeError
  end.

Definition py_get_default (k : string) (default : json) (v : json) : outcome json :=
  match v with
  | JObj d => Ret (dict_get_default k default d)
  | _ => Raise AttributeError
  end.

(** [v["k"]] with a string key. *)
Definition py_getitem (k : string) (v : json) : outcome json :=
  match v with
  | JObj d => dict_getitem k d
  | _ => Raise TypeError
  end.

(** [v[0]]: first element of a list, first character of a string; a dict
    loaded from JSON has no integer key; the other values are not
    subscriptable. *)
Definition py_index0 (v : json) : outcome json :=
  match v with
  | JArr (x :: _) => Ret x
  | JArr [] => Raise IndexError
  | JStr (String c _) => Ret (JStr (String c EmptyString))
  | JStr EmptyString => Raise IndexError
  | JObj _ => Raise (KeyError "0")
  | _ => Raise TypeError
  end.

(** [d[k] = v] on a dict: replaces the binding in place or appends it. *)
Fixpoint dict_set (k : string) (v : json) (d : dict) : dict :=
  match d with
  | [] => [(k, v)]
  | (k', v') :: d' =>
      if String.eqb k' k then (k, v) :: d' else (k', v') :: dict_set k v d'
  end.

(** [s.lower()] and [s.strip()].  A [str] is given by its UTF-8 encoding.
    [lower] is modelled on the ASCII letters: no other character is lowered
    to an ASCII letter of the words that the result is compared with.
    [strip] removes the white space of Python: the ASCII blanks 9-13 and
    28-32, and the code points U+0085, U+00A0, U+1680, U+2000-U+200A,
    U+2028, U+2029, U+202F, U+205F and U+3000. *)
Definition lower_ascii (c : ascii) : ascii :=
  let n := nat_of_ascii c in
  if (Nat.leb 65 n && Nat.leb n 90)%bool then ascii_of_nat (n + 32) else c.

Fixpoint str_lower (s : string) : string :=
  match s with
  | EmptyString => EmptyString
  | String c s' => String (lower_ascii c) (str_lower s')
  end.

Definition is_space (c : ascii) : bool :=
  let n := nat_of_ascii c in
  ((Nat.leb 9 n && Nat.leb n 13) || (Nat.leb 28 n && Nat.leb n 32))%bool.

(** U+0085 and U+00A0 in UTF-8. *)
Definition is_space2 (a b : ascii) : bool :=
  let x := nat_of_ascii a in
  let y := nat_of_ascii b in
  (Nat.eqb x 194 && (Nat.eqb y 133 || Nat.eqb y 160))%bool.

(** U+1680, U+2000-U+200A, U+2028, U+2029, U+202F, U+205F and U+3000 in
    UTF-8. *)
Definition is_space3 (a b c : ascii) : bool :=
  let x := nat_of_ascii a in
  let y := nat_of_ascii b in
  let z := nat_of_ascii c in
  ((Nat.eqb x 225 && Nat.eqb y 154 && Nat.eqb z 128) ||
   (Nat.eqb x 226 && Nat.eqb y 128 &&
    ((Nat.leb 128 z && Nat.leb z 138) ||
     Nat.eqb z 168 || Nat.eqb z 169 || Nat.eqb z 175)) ||
   (Nat.eqb x 226 && Nat.eqb y 129 && Nat.eqb z 159) ||
   (Nat.eqb x 227 && Nat.eqb y 128 && Nat.eqb z 128))%bool.

Fixpoint lstrip (s : string) : string :=
  match s with
  | EmptyString => EmptyString
  | String a s1 =>
      if is_space a then lstrip s1
      else
        match s1 with
        | String b s2 =>
            if is_space2 a b then lstrip s2
            else
              match s2 with
              | String c s3 => if is_space3 a b c then lstrip s3 else s
              | EmptyString => s
              end
        | EmptyString => s
        end
  end.

Fixpoint rstrip (s : string) : string :=
  match s with
  | EmptyString => EmptyString
  | String a s' =>
      match rstrip s' with
      | EmptyString => if is_space a then EmptyString else String a EmptyString
      | String b EmptyString =>
          if is_space2 a b then EmptyString else String a (String b EmptyString)
      | String b (String c EmptyString) =>
          if is_space3 a b c then EmptyString
          else String a (String b (String c EmptyString))
      | t => String a t
      end
  end.

Definition str_strip (s : string) : string := rstrip (lstrip s).

End Py.

(* ================================================================== *)
(** ** The MongoDB collections, as far as the code uses them *)

Module Mongo.
Import Py.

Definition collection := list dict.

(** The filter [{key: v}] for a value [v] that is no operator expression:
    the field equals [v], or the field is an array and one of its elements
    equals [v]; a document without the field matches only [null].  A dict
    whose keys start with a dollar sign is an operator expression for the
    server; that language is not modelled, and the properties below are
    about identifiers that are strings. *)
Definition matches (key : string) (v : json) (d : dict) : bool :=
  match lookup key d with
  | Some (JArr items) =>
      json_eqb (JArr items) v || existsb (fun x => json_eqb x v) items
  | Some x => json_eqb x v
  | None => json_eqb JNull v
  end.

(** [col.find_one({key: v})]. *)
Definition find_one (key : string) (v : json) (c : collection) : option dict :=
  find (matches key v) c.

(** The update document [{"$set": sets}] applied to one document. *)
Definition apply_set (sets : dict) (d : dict) : dict :=
  fold_left (fun acc kv => dict_set (fst kv) (snd kv) acc) sets d.

Record UpdateResult : Type := mkUpdateResult {
  matched_count : nat;
  modified_count : nat
}.

(** [col.update_one({key: v}, {"$set": sets})]: the first matching document
    is rewritten; [modified_count] is 1 only when the rewrite changes it. *)
Fixpoint update_one (key : string) (v : json) (sets : dict) (c : collection)
  : collection * UpdateResult :=
  match c with
  | [] => ([], mkUpdateResult 0 0)
  | d :: c' =>
      if matches key v d then
        let d' := apply_set sets d in
        if json_eqb (JObj d') (JObj d)
        then (d :: c', mkUpdateResult 1 0)
        else (d' :: c', mkUpdateResult 1 1)
      else
        let (c'', res) := update_one key v sets c' in
        (d :: c'', res)
  end.

(** [col.insert_one(doc)] on a collection without a unique index. *)
Definition insert_one (d : dict) (c : collection) : collection := c ++ [d].

(** [col.update_one({key: v}, {"$set": sets}, upsert=True)] for a value [v]
    that is no operator expression: when nothing matches, the document made
    of the filter and the [$set] fields is inserted. *)
Definition update_one_upsert (key : string) (v : json) (sets : dict) (c : collection)
  : collection * UpdateResult :=
  let (c', res) := update_one key v sets c in
  match matched_count res with
  | O => (insert_one (apply_set sets [(key, v)]) c, res)
  | S _ => (c', res)
  end.

(** [col.delete_one({key: v})]. *)
Fixpoint delete_one (key : string) (v : json) (c : collection) : collection :=
  match c with
  | [] => []
  | d :: c' => if matches key v d then c' else d :: delete_one key v c'
  end.

(** [col.insert_one(doc)] on a collection with [create_index(key, unique=True)]
    for a document whose [key] is no array: a document whose index key is
    already present, as the field of a document or as an element of a field
    that is an array, is refused. *)
Definition insert_one_unique (key : string) (d : dict) (c : collection)
  : outcome collection :=
  if existsb (matches key (dict_get key d)) c
  then Raise DuplicateKeyError
  else Ret (c ++ [d]).

(** Number of documents that match [{key: v}]. *)
Definition count_documents (key : string) (v : json) (c : collection) : nat :=
  List.length (filter (matches key v) c).

End Mongo.

(* ================================================================== *)
(** ** backend/scripts/payload_processor.py *)

Module Processor.
Import Py Mongo.

(** What the script prints, one constructor per [print] of the source;
    [ErrorCantRead] carries the path of the file, the other lines its base
    name. *)
Inductive line : Type :=
| WarnParseError (e : pyexn)
| ErrorCantRead (file : string)
| SkipUnknownStructure (file : string)
| SkipMessageMissingId (file : string)
| SkipDuplicate (mid : json)
| AppliedPending (new_status mid : json)
| Inserted (mid : json)
| SkipStatusMissingId (file : string)
| Updated (mid status : json)
| PendingStored (status mid : json)
| SkipUnknownType (file : string)
| ErrorProcessing (file : string) (e : pyexn)
| Summary (n_processed n_skipped n_errors : nat).

Section Normalizer.

(** [datetime.fromtimestamp(int(ts), tz=timezone.utc).isoformat()], [None]
    when the conversion raises (the source catches every [Exception] of it
    on the spot). *)
Variable fromtimestamp_iso : json -> option string.

(** Lines 51-56 and 74-79: the ISO instant of a truthy [ts], else [None]. *)
Definition timestamp_of (ts : json) : json :=
  if truthy ts then
    match fromtimestamp_iso ts with
    | Some iso => JStr iso
    | None => JNull
    end
  else JNull.

(** Lines 36-66, the branch of a truthy [value.get("messages")]. *)
Definition inbound_message (now : string) (value : json) : outcome json :=
  messages <- py_getitem "messages" value ;;
  msg <- py_index0 messages ;;
  contacts <- py_get_default "contacts" (JArr []) value ;;
  wa_id <- (if truthy contacts then
              c0 <- py_index0 contacts ;;
              a <- py_get "wa_id" c0 ;;
              if truthy a then Ret a else py_get "waId" c0
            else Ret JNull) ;;
  t <- py_get "text" msg ;;
  text <- (if isinstance_dict t then
             t' <- py_getitem "text" msg ;;
             py_get_default "body" (JStr "") t'
           else
             m <- py_get "message" msg ;;
             if isinstance_dict m then
               m' <- py_getitem "message" msg ;;
               py_get_default "body" (JStr "") m'
             else Ret (JStr "")) ;;
  i <- py_get "id" msg ;;
  meta_msg_id <- (if truthy i then Ret i else py_get "mid" msg) ;;
  t1 <- py_get "timestamp" msg ;;
  ts <- (if truthy t1 then Ret t1 else py_get "ts" msg) ;;
  let timestamp_iso := timestamp_of ts in
  Ret (JObj [("type", JStr "message");
             ("wa_id", wa_id);
             ("meta_msg_id", meta_msg_id);
             ("text", text);
             ("timestamp", py_or timestamp_iso (JStr now));
             ("direction", JStr "inbound");
             ("status", JStr "delivered")]).

(** Lines 70-86, the branch of a truthy [value.get("statuses")]. *)
Definition status_update (now : string) (value : json) : outcome json :=
  statuses <- py_getitem "statuses" value ;;
  st <- py_index0 statuses ;;
  meta_msg_id <- py_get "id" st ;;
  status <- py_get "status" st ;;
  ts <- py_get "timestamp" st ;;
  let timestamp_iso := timestamp_of ts in
  Ret (JObj [("type", JStr "status");
             ("meta_msg_id", meta_msg_id);
             ("status", status);
             ("timestamp", py_or timestamp_iso (JStr now))]).

(** Lines 30-86, the body of the [try]: [Ret (Some ev)] is [return ev],
    [Ret None] is leaving the [try] without a [return]. *)
Definition parse_envelope (now : string) (meta : json) : outcome (option json) :=
  entries <- py_get_default "entry" (JArr []) meta ;;
  entry <- py_index0 entries ;;
  changes <- py_get_default "changes" (JArr []) entry ;;
  change <- py_index0 changes ;;
  value <- py_get_default "value" (JObj []) change ;;
  messages <- py_get "messages" value ;;
  if truthy messages then
    ev <- inbound_message now value ;; Ret (Some ev)
  else
    statuses <- py_get "statuses" value ;;
    if truthy statuses then
      ev <- status_update now value ;; Ret (Some ev)
    else Ret None.

(** Line 27: [raw.get("metaData") or raw.get("meta_data") or {}]. *)
Definition envelope_of (raw : json) : outcome json :=
  a <- py_get "metaData" raw ;;
  if truthy a then Ret a
  else
    b <- py_get "meta_data" raw ;;
    Ret (py_or b (JObj [])).

(** [normalize_webhook_payload(raw)]: the value returned (or the exception
    that escapes) and what was printed. *)
Definition normalize_webhook_payload (now : string) (raw : json)
  : outcome json * list line :=
  if negb (isinstance_dict raw) then (Ret JNull, [])
  else
    match py_get "type" raw with
    | Raise e => (Raise e, [])
    | Ret ty =>
        if in_strs ty ["message"; "status"] then (Ret raw, [])
        else
          match envelope_of raw with
          | Raise e => (Raise e, [])
          | Ret meta =>
              if truthy meta then
                match parse_envelope now meta with
                | Ret (Some ev) => (Ret ev, [])
                | Ret None => (Ret JNull, [])
                | Raise e => (Ret JNull, [WarnParseError e])
                end
              else (Ret JNull, [])
          end
    end.

End Normalizer.

(** The state of one run of [process_path]: the two collections, the three
    counters and the output. *)
Record run : Type := mkRun {
  messages_col : collection;
  pending_col : collection;
  processed : nat;
  skipped : nat;
  errors : nat;
  stdout : list line
}.

Definition with_messages (c : collection) (r : run) : run :=
  mkRun c (pending_col r) (processed r) (skipped r) (errors r) (stdout r).

Definition with_pending (c : collection) (r : run) : run :=
  mkRun (messages_col r) c (processed r) (skipped r) (errors r) (stdout r).

Definition incr_processed (r : run) : run :=
  mkRun (messages_col r) (pending_col r) (S (processed r)) (skipped r) (errors r) (stdout r).

Definition incr_skipped (r : run) : run :=
  mkRun (messages_col r) (pending_col r) (processed r) (S (skipped r)) (errors r) (stdout r).

Definition incr_errors (r : run) : run :=
  mkRun (messages_col r) (pending_col r) (processed r) (skipped r) (S (errors r)) (stdout r).

Definition print (l : line) (r : run) : run :=
  mkRun (messages_col r) (pending_col r) (processed r) (skipped r) (errors r)
        (stdout r ++ [l]).

(** Lines 149-153 and 170-174 (the same five lines twice): "apply pending
    status if any".  The second component is the exception that leaves the
    block, if any. *)
Definition apply_pending (mid : json) (r : run) : run * option pyexn :=
  match find_one "meta_msg_id" mid (pending_col r) with
  | None => (r, None)
  | Some pending =>
      match dict_getitem "new_status" pending with
      | Raise e => (r, Some e)
      | Ret new_status =>
          let r1 := with_messages
                      (fst (update_one "meta_msg_id" mid [("status", new_status)]
                                       (messages_col r))) r in
          let r2 := with_pending (delete_one "meta_msg_id" mid (pending_col r1)) r1 in
          (print (AppliedPending new_status mid) r2, None)
      end
  end.

(** Lines 156-163: the document built from a message payload. *)
Definition message_doc (now : string) (payload : dict) (mid : json) : dict :=
  [("wa_id", dict_get "wa_id" payload);
   ("text", dict_get "text" payload);
   ("meta_msg_id", mid);
   ("direction", dict_get_default "direction" (JStr "inbound") payload);
   ("status", dict_get_default "status" (JStr "delivered") payload);
   ("timestamp", py_or (dict_get "timestamp" payload) (JStr now))].

(** Lines 138-174, the branch [payload["type"] == "message"].  The
    collection carries the unique index on [meta_msg_id] that main.py
    creates. *)
Definition process_message (file now : string) (payload : dict) (r : run)
  : run * option pyexn :=
  let mid := dict_get "meta_msg_id" payload in
  if negb (truthy mid) then
    (incr_skipped (print (SkipMessageMissingId file) r), None)
  else
    match find_one "meta_msg_id" mid (messages_col r) with
    | Some existing =>
        apply_pending mid (incr_skipped (print (SkipDuplicate mid) r))
    | None =>
        match insert_one_unique "meta_msg_id" (message_doc now payload mid)
                                (messages_col r) with
        | Raise e => (r, Some e)
        | Ret msgs =>
            apply_pending mid
              (incr_processed (print (Inserted mid) (with_messages msgs r)))
        end
    end.

(** Lines 177-195, the branch [payload["type"] == "status"]. *)
Definition process_status (file now : string) (payload : dict) (r : run)
  : run * option pyexn :=
  let mid := dict_get "meta_msg_id" payload in
  if negb (truthy mid) then
    (incr_skipped (print (SkipStatusMissingId file) r), None)
  else
    let (msgs, result) :=
      update_one "meta_msg_id" mid [("status", dict_get "status" payload)]
                 (messages_col r) in
    let r1 := with_messages msgs r in
    if Nat.ltb 0 (modified_count result) then
      (incr_processed (print (Updated mid (dict_get "status" payload)) r1), None)
    else
      let pend :=
        fst (update_one_upsert "meta_msg_id" mid
               [("new_status", dict_get "status" payload);
                ("received_at", JStr now)]
               (pending_col r1)) in
      (incr_processed
         (print (PendingStored (dict_get "status" payload) mid)
                (with_pending pend r1)), None).

(** Lines 137-198, the body of the [try] of the loop. *)
Definition process_payload (file now : string) (payload : json) (r : run)
  : run * option pyexn :=
  match py_getitem "type" payload with
  | Raise e => (r, Some e)
  | Ret ty =>
      match payload with
      | JObj p =>
          if is_str "message" ty then process_message file now p r
          else if is_str "status" ty then process_status file now p r
          else (incr_skipped (print (SkipUnknownType file) r), None)
      | _ => (r, Some TypeError)
      end
  end.

(** Lines 136-202: the [try] with its [except Exception]: one canonical
    event is reconciled with the store. *)
Definition ingest (file now : string) (payload : json) (r : run) : run :=
  match process_payload file now payload r with
  | (r', None) => r'
  | (r', Some e) => incr_errors (print (ErrorProcessing file e) r')
  end.

(** One JSON file of the batch: its path, what [json.load] gave (nothing
    when the [open] or the [json.load] raised) and the time of the clock
    while it is processed. *)
Record file : Type := mkFile {
  filepath : string;
  loaded : option json;
  clock : string
}.

(** [os.path.basename(path)]: what follows the last slash. *)
Fixpoint basename_from (name path : string) : string :=
  match path with
  | EmptyString => name
  | String c rest =>
      if Ascii.eqb c "/" then basename_from EmptyString rest
      else basename_from (name ++ String c EmptyString) rest
  end.

Definition basename (f : file) : string := basename_from EmptyString (filepath f).

Section Batch.

Variable fromtimestamp_iso : json -> option string.

(** Lines 122-202: one turn of the loop.  An exception of
    [normalize_webhook_payload] would leave [process_path]. *)
Definition process_file (f : file) (r : run) : outcome run :=
  match loaded f with
  | None => Ret (incr_errors (print (ErrorCantRead (filepath f)) r))
  | Some raw =>
      let (res, warnings) := normalize_webhook_payload fromtimestamp_iso (clock f) raw in
      let r0 := fold_left (fun acc l => print l acc) warnings r in
      match res with
      | Raise e => Raise e
      | Ret payload =>
          if negb (truthy payload) then
            Ret (incr_skipped (print (SkipUnknownStructure (basename f)) r0))
          else Ret (ingest (basename f) (clock f) payload r0)
      end
  end.

(** Lines 121-202: the loop over the files, already in sorted order. *)
Fixpoint process_files (files : list file) (r : run) : outcome run :=
  match files with
  | [] => Ret r
  | f :: rest =>
      r' <- process_file f r ;;
      process_files rest r'
  end.

(** [process_path] from line 103 on, for the files found under the path. *)
Definition process_path (messages pending : collection) (files : list file)
  : outcome run :=
  r <- process_files files (mkRun messages pending 0 0 0 []) ;;
  Ret (print (Summary (processed r) (skipped r) (errors r)) r).

End Batch.

End Processor.

(* ================================================================== *)
(** ** backend/app/main.py *)

Module App.
Import Py Mongo.

Definition VALID_STATUS_TRANSITIONS : list (string * list string) :=
  [("sent", ["delivered"; "read"]);
   ("delivered", ["read"]);
   ("read", [])].

Fixpoint transitions_of (table : list (string * list string)) (s : string)
  : option (list string) :=
  match table with
  | [] => None
  | (k, next) :: table' => if String.eqb k s then Some next else transitions_of table' s
  end.

(** [VALID_STATUS_TRANSITIONS.get(current_status, [])]: a list or a dict is
    not hashable and makes the lookup raise; a key that is not in the table
    gives the default. *)
Definition transitions_get (current_status : json) : outcome (list string) :=
  match current_status with
  | JStr s =>
      Ret (match transitions_of VALID_STATUS_TRANSITIONS s with
           | Some next => next
           | None => []
           end)
  | JArr _ | JObj _ => Raise TypeError
  | _ => Ret []
  end.

(** [except HTTPException]: the exceptions of that class. *)
Definition is_http_exception (e : pyexn) : bool :=
  match e with
  | HTTPException _ _ | MessageNotFound | InvalidStatusTransition _ _ => true
  | _ => false
  end.

(** [db_insert_message(message_data)]; [now] is [datetime.utcnow()]. *)
Definition db_insert_message (now : json) (message_data : dict) (msgs : collection)
  : collection * outcome json :=
  let doc := dict_set "timestamp" now message_data in
  match insert_one_unique "meta_msg_id" doc msgs with
  | Raise e => (msgs, Raise (HTTPException 500 "Database insert error"))
  | Ret msgs' =>
      match dict_getitem "meta_msg_id" doc with
      | Raise e => (msgs', Raise (HTTPException 500 "Database insert error"))
      | Ret mid =>
          (msgs', Ret (match find_one "meta_msg_id" mid msgs' with
                       | Some saved => JObj saved
                       | None => JNull
                       end))
      end
  end.

(** [db_update_message_status(meta_msg_id, new_status)]. *)
Definition db_update_message_status (meta_msg_id new_status : json) (msgs : collection)
  : collection * outcome nat :=
  match find_one "meta_msg_id" meta_msg_id msgs with
  | None => (msgs, Ret 0)
  | Some current =>
      let current_status := dict_get_default "status" (JStr "sent") current in
      match transitions_get current_status with
      | Raise e => (msgs, Raise e)
      | Ret next =>
          if negb (in_strs new_status next) then
            (msgs, Raise (InvalidStatusTransition current_status new_status))
          else
            let (msgs', result) :=
              update_one "meta_msg_id" meta_msg_id [("status", new_status)] msgs in
            (msgs', Ret (modified_count result))
      end
  end.

(** One [sio.emit(event, data, room=room)]; of the data of [new_message]
    the server-made [id] and [timestamp] are left out. *)
Record emit : Type := mkEmit {
  event : string;
  data : json;
  room : json
}.

Record server : Type := mkServer {
  processed_messages : collection;
  emitted : list emit
}.

Section Socket.

(** Whether [sio.emit] raises for a room that is a list or a dict: the
    manager looks the room up among the rooms of the namespace, which
    raises or not with the version of python-socketio and with the clients
    that are connected. *)
Variable emit_fails : json -> bool.

(** [await sio.emit(event, data, room=room, namespace="/")]: a room that is
    a string, a number, a boolean or [None] is looked up (or stands for
    every client) and the event goes out. *)
Definition sio_emit (e : emit) (sent : list emit) : outcome (list emit) :=
  match room e with
  | JArr _ | JObj _ =>
      if emit_fails (room e) then Raise TypeError else Ret (sent ++ [e])
  | _ => Ret (sent ++ [e])
  end.

(** [payload.get("type", "").lower().strip()]. *)
Definition event_type_of (payload : dict) : outcome string :=
  match dict_get_default "type" (JStr "") payload with
  | JStr s => Ret (str_strip (str_lower s))
  | _ => Raise AttributeError
  end.

(** Lines 246-271, the branch of a new message: the insert comes before
    the emit, so that a failed emit leaves the message stored. *)
Definition webhook_message (now : json) (payload : dict) (s : server)
  : server * outcome json :=
  match (wa_id <- dict_getitem "wa_id" payload ;;
         text <- dict_getitem "text" payload ;;
         meta_msg_id <- dict_getitem "meta_msg_id" payload ;;
         Ret [("wa_id", wa_id);
              ("text", text);
              ("meta_msg_id", meta_msg_id);
              ("direction", JStr "inbound");
              ("status", dict_get_default "status" (JStr "delivered") payload)]) with
  | Raise e => (s, Raise e)
  | Ret message_data =>
      let (msgs, res) := db_insert_message now message_data (processed_messages s) in
      let s1 := mkServer msgs (emitted s) in
      match res with
      | Raise e => (s1, Raise e)
      | Ret saved =>
          match (wa_id <- py_getitem "wa_id" saved ;;
                 text <- py_getitem "text" saved ;;
                 status <- py_getitem "status" saved ;;
                 direction <- py_getitem "direction" saved ;;
                 Ret (mkEmit "new_message"
                        (JObj [("wa_id", wa_id);
                               ("message", JObj [("text", text);
                                                 ("status", status);
                                                 ("direction", direction)])])
                        wa_id)) with
          | Raise e => (s1, Raise e)
          | Ret e =>
              match sio_emit e (emitted s) with
              | Raise x => (s1, Raise x)
              | Ret sent =>
                  (mkServer msgs sent,
                   Ret (JObj [("status", JStr "success");
                              ("event", JStr "message_received")]))
              end
          end
      end
  end.

(** Lines 274-291, the branch of a status update: the status is written
    before the emit, so that a failed emit leaves it written. *)
Definition webhook_status (payload : dict) (s : server) : server * outcome json :=
  match (meta_msg_id <- dict_getitem "meta_msg_id" payload ;;
         new_status <- dict_getitem "status" payload ;;
         Ret (meta_msg_id, new_status)) with
  | Raise e => (s, Raise e)
  | Ret (meta_msg_id, new_status) =>
      let (msgs, res) :=
        db_update_message_status meta_msg_id new_status (processed_messages s) in
      let s1 := mkServer msgs (emitted s) in
      match res with
      | Raise e => (s1, Raise e)
      | Ret modified_count =>
          match modified_count with
          | S _ =>
              match sio_emit
                      (mkEmit "status_update"
                         (JObj [("meta_msg_id", meta_msg_id);
                                ("new_status", new_status)])
                         (dict_get_default "wa_id" (JStr "global") payload))
                      (emitted s) with
              | Raise x => (s1, Raise x)
              | Ret sent =>
                  (mkServer msgs sent,
                   Ret (JObj [("status", JStr "success");
                              ("event", JStr "status_updated")]))
              end
          | O => (s1, Raise MessageNotFound)
          end
      end
  end.

(** Lines 241-294, the body of the [try] of the endpoint. *)
Definition webhook_body (now : json) (payload : dict) (s : server)
  : server * outcome json :=
  match event_type_of payload with
  | Raise e => (s, Raise e)
  | Ret event_type =>
      if String.eqb event_type "message" then webhook_message now payload s
      else if String.eqb event_type "status" then webhook_status payload s
      else (s, Raise (HTTPException 400 "Invalid event type"))
  end.

(** [process_webhook_payload(payload)]: an [HTTPException] is re-raised,
    any other exception becomes the 500 answer. *)
Definition process_webhook_payload (now : json) (payload : dict) (s : server)
  : server * outcome json :=
  match webhook_body now payload s with
  | (s', Ret response) => (s', Ret response)
  | (s', Raise e) =>
      if is_http_exception e then (s', Raise e)
      else (s', Raise (HTTPException 500 "Internal server error"))
  end.

End Socket.

End App.

(* ================================================================== *)
(** ** What a caller can observe of the store *)

Module Observe.
Import Py Mongo.

(** The stored status of the message with identifier [mid], if there is
    such a message. *)
Definition status_of (mid : json) (msgs : collection) : option json :=
  match find_one "meta_msg_id" mid msgs with
  | Some d => lookup "status" d
  | None => None
  end.

(** The status that waits for the message [mid] in the pending buffer. *)
Definition pending_of (mid : json) (pending : collection) : option json :=
  match find_one "meta_msg_id" mid pending with
  | Some d => lookup "new_status" d
  | None => None
  end.

(** The Status Rules as main.py consults them:
    [new in VALID_STATUS_TRANSITIONS.get(current, [])]. *)
Definition legal_transition (current new : json) : bool :=
  match App.transitions_get current with
  | Ret next => in_strs new next
  | Raise _ => false
  end.

(** The canonical events, as the batch importer reads them off a payload:
    a [MessageEvent] for the identifier [mid] and a [StatusEvent] that asks
    for [status] on [mid].  The identifier is required, hence truthy. *)
Definition is_message_event (mid : json) (p : dict) : Prop :=
  lookup "type" p = Some (JStr "message") /\
  dict_get "meta_msg_id" p = mid /\
  truthy mid = true.

Definition is_status_event (mid status : json) (p : dict) : Prop :=
  lookup "type" p = Some (JStr "status") /\
  dict_get "meta_msg_id" p = mid /\
  truthy mid = true /\
  dict_get "status" p = status.

(** An identifier as the data model has it: a string. *)
Definition is_string (v : json) : bool :=
  match v with
  | JStr _ => true
  | _ => false
  end.

(** An event whose identifier, when it is truthy, is a string. *)
Definition string_identified (payload : json) : bool :=
  match payload with
  | JObj p =>
      negb (truthy (dict_get "meta_msg_id" p)) ||
      is_string (dict_get "meta_msg_id" p)
  | _ => true
  end.

(** A value that the driver encodes and the server stores as it is,
    whatever their versions: [None], a boolean, a string, or an integer of
    at most 64 bits. *)
Definition storable (v : json) : bool :=
  match v with
  | JNum n => Z.leb (- 2 ^ 63) n && Z.ltb n (2 ^ 63)
  | JArr _ | JObj _ => false
  | _ => true
  end.

(** An event whose fields that reach the store or name a room are
    storable. *)
Definition plain (p : dict) : bool :=
  forallb (fun k => storable (dict_get k p))
    ["wa_id"; "text"; "meta_msg_id"; "direction"; "status"; "timestamp"].

(** A [$set] that leaves the field [key] of every document alone. *)
Definition keeps (key : string) (sets : dict) : Prop :=
  forall d, lookup key (apply_set sets d) = lookup key d.

End Observe.

(* ================================================================== *)
(** ** Concrete payloads and stores used in the examples *)

Module Samples.
Import Py Mongo Processor.

(** A clock conversion that reads every timestamp as the epoch. *)
Definition epoch_iso (ts : json) : option string :=
  Some "1970-01-01T00:00:00+00:00".

Definition stored_message (mid status : string) : dict :=
  [("wa_id", JStr "c1"); ("text", JStr "hello"); ("meta_msg_id", JStr mid);
   ("direction", JStr "inbound"); ("status", JStr status);
   ("timestamp", JStr "2025-01-01T00:00:00+00:00")].

Definition pending_entry (mid status : string) : dict :=
  [("meta_msg_id", JStr mid); ("new_status", JStr status);
   ("received_at", JStr "2025-01-01T00:00:00+00:00")].

(** The canonical wire shapes: [MessageEvent] and [StatusEvent]. *)
Definition message_event (mid status : string) : dict :=
  [("type", JStr "message"); ("wa_id", JStr "c1"); ("meta_msg_id", JStr mid);
   ("text", JStr "hello"); ("status", JStr status)].

Definition status_event (mid status : string) : dict :=
  [("type", JStr "status"); ("meta_msg_id", JStr mid); ("status", JStr status)].

Definition run_of (messages pending : collection) : run :=
  mkRun messages pending 0 0 0 [].

(** A provider envelope [metaData.entry[0].changes[0].value] around one
    [value]. *)
Definition envelope (value : json) : json :=
  JObj [("metaData",
         JObj [("entry",
                JArr [JObj [("changes",
                             JArr [JObj [("value", value)]])]])])].

(** An inbound message of the provider that says it is already read. *)
Definition read_message_value : json :=
  JObj [("messages",
         JArr [JObj [("id", JStr "m9"); ("status", JStr "read");
                     ("timestamp", JStr "1700000000");
                     ("text", JObj [("body", JStr "hello")])]]);
        ("contacts", JArr [JObj [("wa_id", JStr "c9")]])].

(** Stores of the examples: [m1] stored as read; [m1] stored as delivered;
    nothing stored and [sent] waiting for [m1]; [m1] stored as read and
    [delivered] waiting for it. *)
Definition read_run : run := run_of [stored_message "m1" "read"] [].

Definition delivered_run : run := run_of [stored_message "m1" "delivered"] [].

Definition sent_waiting_run : run := run_of [] [pending_entry "m1" "sent"].

Definition read_with_delivered_waiting_run : run :=
  run_of [stored_message "m1" "read"] [pending_entry "m1" "delivered"].

Definition empty_run : run := run_of [] [].

(** The state of the server of main.py with the given messages. *)
Definition server_of (messages : collection) : App.server :=
  App.mkServer messages [].

(** A socket server that raises for every room that is a list or a dict,
    and one that never raises. *)
Definition strict_socket (room : json) : bool := true.

Definition lenient_socket (room : json) : bool := false.

Definition t1 : string := "2025-01-02T00:00:00+00:00".
Definition t2 : string := "2025-01-03T00:00:00+00:00".
Definition t3 : string := "2025-01-04T00:00:00+00:00".

(** An envelope whose [entry] array is empty. *)
Definition empty_entry_envelope : json :=
  JObj [("metaData", JObj [("entry", JArr [])])].

End Samples.

(* ================================================================== *)
(** ** backend/app/main.py: the other endpoints and helpers *)

Module Endpoints.
Import Py Mongo App.

(** The body of POST /messages after pydantic has validated it:
    [MessageCreate], every field a [str], [status] defaulting to 'sent'. *)
Record MessageCreate : Type := mkMessageCreate {
  mc_wa_id : string;
  mc_text : string;
  mc_direction : string;
  mc_status : string;
  mc_meta_msg_id : string
}.

(** [message.dict()], the fields of [MessageBase] and then of
    [MessageCreate]. *)
Definition message_dict (m : MessageCreate) : dict :=
  [("wa_id", JStr (mc_wa_id m));
   ("text", JStr (mc_text m));
   ("direction", JStr (mc_direction m));
   ("status", JStr (mc_status m));
   ("meta_msg_id", JStr (mc_meta_msg_id m))].

Section Socket.

Variable emit_fails : json -> bool.

(** Lines 307-328, the body of the [try] of [create_message]; of the answer
    the [message_id], made of the [_id] of the server, is left out, as the
    [id] is of the emitted data. *)
Definition create_message_body (now : json) (message : MessageCreate) (s : server)
  : server * outcome json :=
  let md := dict_set "status" (JStr "sent")
              (dict_set "direction" (JStr "outbound") (message_dict message)) in
  let (msgs, res) := db_insert_message now md (processed_messages s) in
  let s1 := mkServer msgs (emitted s) in
  match res with
  | Raise e => (s1, Raise e)
  | Ret saved =>
      match (wa_id <- py_getitem "wa_id" saved ;;
             text <- py_getitem "text" saved ;;
             status <- py_getitem "status" saved ;;
             direction <- py_getitem "direction" saved ;;
             Ret (mkEmit "new_message"
                    (JObj [("wa_id", wa_id);
                           ("message", JObj [("text", text);
                                             ("status", status);
                                             ("direction", direction)])])
                    wa_id)) with
      | Raise e => (s1, Raise e)
      | Ret e =>
          match sio_emit emit_fails e (emitted s) with
          | Raise x => (s1, Raise x)
          | Ret sent => (mkServer msgs sent, Ret (JObj [("status", JStr "success")]))
          end
      end
  end.

(** [create_message(message)]. *)
Definition create_message (now : json) (message : MessageCreate) (s : server)
  : server * outcome json :=
  match create_message_body now message s with
  | (s', Ret response) => (s', Ret response)
  | (s', Raise e) =>
      if is_http_exception e then (s', Raise e)
      else (s', Raise (HTTPException 500 "Internal server error"))
  end.

(** The body of PUT /messages/status: [MessageStatusUpdate]. *)
Record MessageStatusUpdate : Type := mkMessageStatusUpdate {
  su_meta_msg_id : string;
  su_new_status : string
}.

(** Lines 341-362, the body of the [try] of
    [update_message_status_endpoint]. *)
Definition update_message_status_body (update : MessageStatusUpdate) (s : server)
  : server * outcome json :=
  let (msgs, res) :=
    db_update_message_status (JStr (su_meta_msg_id update))
      (JStr (su_new_status update)) (processed_messages s) in
  let s1 := mkServer msgs (emitted s) in
  match res with
  | Raise e => (s1, Raise e)
  | Ret O => (s1, Raise MessageNotFound)
  | Ret (S _) =>
      let message :=
        match find_one "meta_msg_id" (JStr (su_meta_msg_id update)) msgs with
        | Some m => JObj m
        | None => JNull
        end in
      match py_getitem "wa_id" message with
      | Raise e => (s1, Raise e)
      | Ret wa_id =>
          match sio_emit emit_fails
                  (mkEmit "status_update"
                     (JObj [("meta_msg_id", JStr (su_meta_msg_id update));
                            ("new_status", JStr (su_new_status update))])
                     wa_id)
                  (emitted s) with
          | Raise x => (s1, Raise x)
          | Ret sent => (mkServer msgs sent, Ret (JObj [("status", JStr "success")]))
          end
      end
  end.

(** [update_message_status_endpoint(update)]. *)
Definition update_message_status_endpoint (update : MessageStatusUpdate) (s : server)
  : server * outcome json :=
  match update_message_status_body update s with
  | (s', Ret response) => (s', Ret response)
  | (s', Raise e) =>
      if is_http_exception e then (s', Raise e)
      else (s', Raise (HTTPException 500 "Internal server error"))
  end.

End Socket.

(** [s.split(",")]. *)
Fixpoint split_comma (s : string) : list string :=
  match s with
  | EmptyString => [EmptyString]
  | String c s' =>
      if Ascii.eqb c "," then EmptyString :: split_comma s'
      else
        match split_comma s' with
        | piece :: pieces => String c piece :: pieces
        | [] => [String c EmptyString]
        end
  end.

(** [",".join(pieces)]. *)
Fixpoint join_comma (pieces : list string) : string :=
  match pieces with
  | [] => EmptyString
  | [piece] => piece
  | piece :: rest => (piece ++ String "," (join_comma rest))%string
  end.

(** Lines 27-29: the origins of the CORS middleware, from the value of the
    environment variable CORS_ORIGINS ([None] when it is not set). *)
Definition cors_origins (env : option string) : list string :=
  let origins := split_comma (match env with Some v => v | None => "" end) in
  match origins with
  | [] => ["http://localhost:3000"; "http://127.0.0.1:3000"]
  | [EmptyString] => ["http://localhost:3000"; "http://127.0.0.1:3000"]
  | _ => origins
  end.

(** The values that [serialize] meets: what MongoDB returns, JSON values
    together with [ObjectId]s and [datetime]s.  An [ObjectId] is given by
    its [str(...)], a [datetime] by its [isoformat()]. *)
Unset Elimination Schemes.
Inductive bson : Type :=
| BNull
| BBool (b : bool)
| BNum (n : Z)
| BStr (s : string)
| BObjectId (hex : string)
| BDatetime (isoformat : string)
| BArr (items : list bson)
| BObj (fields : list (string * bson)).
Set Elimination Schemes.

(** [serialize(value)]. *)
Fixpoint serialize (value : bson) : bson :=
  match value with
  | BObjectId hex => BStr hex
  | BDatetime isoformat => BStr (isoformat ++ "Z")%string
  | BObj fields =>
      BObj ((fix over (l : list (string * bson)) : list (string * bson) :=
               match l with
               | [] => []
               | (k, v) :: l' => (k, serialize v) :: over l'
               end) fields)
  | BArr items =>
      BArr ((fix over (l : list bson) : list bson :=
               match l with
               | [] => []
               | v :: l' => serialize v :: over l'
               end) items)
  | other => other
  end.

(** A value that [json.dumps] accepts: no [ObjectId] and no [datetime] at
    any depth. *)
Fixpoint json_safe (value : bson) : bool :=
  match value with
  | BObjectId _ | BDatetime _ => false
  | BObj fields =>
      (fix all (l : list (string * bson)) : bool :=
         match l with
         | [] => true
         | (_, v) :: l' => json_safe v && all l'
         end) fields
  | BArr items =>
      (fix all (l : list bson) : bool :=
         match l with
         | [] => true
         | v :: l' => json_safe v && all l'
         end) items
  | _ => true
  end.

(** Induction over [bson] that reaches inside arrays and objects. *)
Fixpoint bson_nested_ind (P : bson -> Prop)
    (Hnull : P BNull)
    (Hbool : forall b, P (BBool b))
    (Hnum : forall n, P (BNum n))
    (Hstr : forall s, P (BStr s))
    (Hoid : forall h, P (BObjectId h))
    (Hdate : forall i, P (BDatetime i))
    (Harr : forall items, Forall P items -> P (BArr items))
    (Hobj : forall fields, Forall (fun kv => P (snd kv)) fields -> P (BObj fields))
    (v : bson) {struct v} : P v :=
  let rec := bson_nested_ind P Hnull Hbool Hnum Hstr Hoid Hdate Harr Hobj in
  match v with
  | BNull => Hnull
  | BBool b => Hbool b
  | BNum n => Hnum n
  | BStr s => Hstr s
  | BObjectId h => Hoid h
  | BDatetime i => Hdate i
  | BArr items =>
      Harr items
        ((fix all (l : list bson) : Forall P l :=
            match l with
            | [] => Forall_nil P
            | x :: l' => Forall_cons x (rec x) (all l')
            end) items)
  | BObj fields =>
      Hobj fields
        ((fix all (l : list (string * bson)) : Forall (fun kv => P (snd kv)) l :=
            match l with
            | [] => Forall_nil _
            | kv :: l' => Forall_cons kv (rec (snd kv)) (all l')
            end) fields)
  end.

(** A document as MongoDB returns it. *)
Definition bdoc := list (string * bson).

Fixpoint blookup (k : string) (d : bdoc) : option bson :=
  match d with
  | [] => None
  | (k', v) :: d' => if String.eqb k' k then Some v else blookup k d'
  end.

(** The filter [{'wa_id': wa_id}] for the [str] of the path: the field is
    that string or, as MongoDB matches arrays, an array that holds it. *)
Definition wa_id_is (wa_id : string) (d : bdoc) : bool :=
  match blookup "wa_id" d with
  | Some (BStr s) => String.eqb s wa_id
  | Some (BArr items) =>
      existsb (fun v => match v with
                        | BStr s => String.eqb s wa_id
                        | _ => false
                        end) items
  | _ => false
  end.

Section Reads.

(** [cursor.sort('timestamp', -1)], the order that MongoDB gives to the
    documents of the query. *)
Variable sort_timestamp_desc : list bdoc -> list bdoc.

(** [db_get_messages_by_wa_id(wa_id, page, limit)], as [get_messages]
    calls it: [page] and [limit] have passed [Query(1, ge=1)] and
    [Query(50, ge=1, le=100)]. *)
Definition db_get_messages_by_wa_id (wa_id : string) (page limit : nat)
    (docs : list bdoc) : list bson :=
  let skip := (page - 1) * limit in
  map (fun d => serialize (BObj d))
      (firstn limit
         (skipn skip (sort_timestamp_desc (filter (wa_id_is wa_id) docs)))).

End Reads.

End Endpoints.

(* ================================================================== *)
(** ** backend/app/models.py *)

Module Models.
Import Py Mongo.


End Models.

(* ================================================================== *)
(** ** Invariants of the two collections *)

Module Invariants.
Import Py Mongo Processor Observe.

(** At most one document per identifier, the invariant that the unique
    index on [meta_msg_id] stands for. *)
Definition unique_ids (c : collection) : Prop :=
  forall v, count_documents "meta_msg_id" v c <= 1.

(** Every pending entry names the status that it holds. *)
Definition pending_well_formed (c : collection) : Prop :=
  Forall (fun d => lookup "new_status" d <> None) c.

(** The place of a status in sent < delivered < read; a message without
    status counts as sent, as [current.get("status", "sent")] has it, and
    any other value as a final one. *)
Definition rank (status : json) : nat :=
  match status with
  | JStr s =>
      if String.eqb s "sent" then 0
      else if String.eqb s "delivered" then 1
      else 2
  | _ => 2
  end.

(** The stored status as [db_update_message_status] reads it. *)
Definition current_status (mid : json) (msgs : collection) : option json :=
  match find_one "meta_msg_id" mid msgs with
  | Some d => Some (dict_get_default "status" (JStr "sent") d)
  | None => None
  end.

(** What a file of the batch is about: the identifier of the message event
    that it normalizes to, if it normalizes to one that is not skipped. *)
Definition message_id_of (fromtimestamp_iso : json -> option string) (f : file)
  : option json :=
  match loaded f with
  | None => None
  | Some raw =>
      match fst (normalize_webhook_payload fromtimestamp_iso (clock f) raw) with
      | Ret (JObj p) =>
          if is_str "message" (dict_get "type" p) && truthy (dict_get "meta_msg_id" p)
          then Some (dict_get "meta_msg_id" p)
          else None
      | _ => None
      end
  end.

(** A file whose event, if it has one, names its message by a string. *)
Definition names_strings (fromtimestamp_iso : json -> option string) (f : file)
  : bool :=
  match loaded f with
  | None => true
  | Some raw =>
      match fst (normalize_webhook_payload fromtimestamp_iso (clock f) raw) with
      | Ret v => string_identified v
      | Raise _ => true
      end
  end.

(** A file whose event, if it has one, names its message by a string and
    holds scalars in the fields that reach the store. *)
Definition plain_file (fromtimestamp_iso : json -> option string) (f : file)
  : bool :=
  match loaded f with
  | None => true
  | Some raw =>
      match fst (normalize_webhook_payload fromtimestamp_iso (clock f) raw) with
      | Ret (JObj p) => string_identified (JObj p) && plain p
      | _ => true
      end
  end.

(** What two normalized values have in common when only the clock
    differs: both are [None], or both are events of the same type for the
    same identifier. *)
Definition same_event (a b : outcome json) : Prop :=
  match a, b with
  | Ret (JObj x), Ret (JObj y) =>
      dict_get "type" x = dict_get "type" y /\
      dict_get "meta_msg_id" x = dict_get "meta_msg_id" y
  | Ret JNull, Ret JNull => True
  | _, _ => False
  end.

(** A sequence of status requests, each one handled by
    [db_update_message_status] on the collection that the one before left:
    the final collection and, in order, the identifier and the answer of
    each request. *)
Fixpoint update_all (requests : list (json * json)) (msgs : collection)
  : collection * list (json * outcome nat) :=
  match requests with
  | [] => (msgs, [])
  | (mid, new) :: rest =>
      let (msgs1, answer) := App.db_update_message_status mid new msgs in
      let (msgs2, answers) := update_all rest msgs1 in
      (msgs2, (mid, answer) :: answers)
  end.

(** The number of requests for [mid] that reported a modification. *)
Definition modifications (mid : json) (answers : list (json * outcome nat)) : nat :=
  List.length
    (filter (fun a => json_eqb (fst a) mid &&
                      match snd a with
                      | Ret (S _) => true
                      | _ => false
                      end) answers).

End Invariants.

(* ================================================================== *)
(** ** Facts about Python values *)

Module PyFacts.
Import Py.

Lemma json_eqb_refl (a : json) : json_eqb a a = true.
Proof.
  induction a using json_nested_ind; simpl.
  - reflexivity.
  - destruct b; reflexivity.
  - apply Z.eqb_refl.
  - apply String.eqb_refl.
  - induction H as [|x l Hx _ IH]; [reflexivity|].
    rewrite Hx. exact IH.
  - induction H as [|[k x] l Hx _ IH]; [reflexivity|].
    simpl in Hx. rewrite String.eqb_refl, Hx. exact IH.
Qed.

Lemma json_eqb_eq (a b : json) : json_eqb a b = true -> a = b.
Proof.
  revert b.
  induction a using json_nested_ind; intros [] E; simpl in E;
    try discriminate E.
  - reflexivity.
  - apply Bool.eqb_prop in E. now subst.
  - apply Z.eqb_eq in E. now subst.
  - apply String.eqb_eq in E. now subst.
  - f_equal. revert items0 E.
    induction H as [|x l Hx _ IH]; intros [|y r] E; try discriminate E.
    + reflexivity.
    + apply andb_prop in E as [E1 E2].
      f_equal; [now apply Hx | now apply IH].
  - f_equal. revert fields0 E.
    induction H as [|[k x] l Hx _ IH]; intros [|[k' y] r] E; try discriminate E.
    + reflexivity.
    + apply andb_prop in E as [E12 E3].
      apply andb_prop in E12 as [E1 E2].
      apply String.eqb_eq in E1. simpl in Hx. apply Hx in E2.
      subst. f_equal. now apply IH.
Qed.

Lemma json_eqb_neq (a b : json) : a <> b -> json_eqb a b = false.
Proof.
  intros N. destruct (json_eqb a b) eqn:E; [|reflexivity].
  now apply json_eqb_eq in E.
Qed.

Lemma lookup_dict_set_same (k : string) (v : json) (d : dict) :
  lookup k (dict_set k v d) = Some v.
Proof.
  induction d as [|[k' v'] d IH]; simpl.
  - now rewrite String.eqb_refl.
  - destruct (String.eqb k' k) eqn:E; simpl.
    + now rewrite String.eqb_refl.
    + now rewrite E.
Qed.

Lemma lookup_dict_set_other (k k' : string) (v : json) (d : dict) :
  k <> k' -> lookup k' (dict_set k v d) = lookup k' d.
Proof.
  intros N.
  induction d as [|[k0 v0] d IH]; simpl.
  - apply String.eqb_neq in N. now rewrite N.
  - destruct (String.eqb k0 k) eqn:E; simpl.
    + apply String.eqb_eq in E. subst k0.
      apply String.eqb_neq in N. now rewrite N.
    + now rewrite IH.
Qed.

Lemma dict_set_idem (k : string) (v : json) (d : dict) :
  lookup k d = Some v -> dict_set k v d = d.
Proof.
  induction d as [|[k' v'] d IH]; simpl; [discriminate|].
  destruct (String.eqb k' k) eqn:E.
  - intros [= ->]. apply String.eqb_eq in E. now subst.
  - intros H. now rewrite IH.
Qed.

End PyFacts.

(* ================================================================== *)
(** ** Facts about the collections *)

Module MongoFacts.
Import Py Mongo Observe PyFacts.

#[local] Arguments json_eqb : simpl never.

Lemma find_one_app (key : string) (v : json) (c : collection) (d : dict) :
  find_one key v (c ++ [d]) =
  match find_one key v c with
  | Some x => Some x
  | None => if matches key v d then Some d else None
  end.
Proof.
  unfold find_one.
  induction c as [|x c IH]; simpl.
  - reflexivity.
  - destruct (matches key v x); [reflexivity | exact IH].
Qed.

Lemma find_one_matches (key : string) (v : json) (c : collection) (d : dict) :
  find_one key v c = Some d -> matches key v d = true.
Proof.
  unfold find_one. intros H. apply find_some in H. tauto.
Qed.

Lemma find_one_none_existsb (key : string) (v : json) (c : collection) :
  find_one key v c = None -> existsb (matches key v) c = false.
Proof.
  unfold find_one.
  induction c as [|x c IH]; simpl; [reflexivity|].
  destruct (matches key v x); [discriminate | exact IH].
Qed.

Lemma count_zero_find (key : string) (v : json) (c : collection) :
  count_documents key v c = 0 <-> find_one key v c = None.
Proof.
  unfold count_documents, find_one.
  induction c as [|x c IH]; simpl; [tauto|].
  destruct (matches key v x); simpl; [split; discriminate | exact IH].
Qed.

Lemma count_existsb (key : string) (v : json) (c : collection) :
  existsb (matches key v) c = true -> 1 <= count_documents key v c.
Proof.
  unfold count_documents.
  induction c as [|x c IH]; simpl; [discriminate|].
  destruct (matches key v x); simpl; [lia | exact IH].
Qed.

Lemma count_app (key : string) (v : json) (c : collection) (d : dict) :
  count_documents key v (c ++ [d]) =
  count_documents key v c + (if matches key v d then 1 else 0).
Proof.
  unfold count_documents. rewrite filter_app, length_app. simpl.
  destruct (matches key v d); reflexivity.
Qed.

Lemma matches_apply_set (key : string) (v : json) (sets d : dict) :
  keeps key sets -> matches key v (apply_set sets d) = matches key v d.
Proof. intros K. unfold matches. now rewrite K. Qed.

Lemma keeps_status (s : json) : keeps "meta_msg_id" [("status", s)].
Proof. intros d. simpl. now apply lookup_dict_set_other. Qed.

Lemma keeps_pending (s t : json) :
  keeps "meta_msg_id" [("new_status", s); ("received_at", t)].
Proof.
  intros d. simpl.
  rewrite lookup_dict_set_other by discriminate.
  now apply lookup_dict_set_other.
Qed.

Lemma update_one_none (key : string) (v : json) (sets : dict) (c : collection) :
  find_one key v c = None ->
  update_one key v sets c = (c, mkUpdateResult 0 0).
Proof.
  unfold find_one.
  induction c as [|x c IH]; simpl; [reflexivity|].
  destruct (matches key v x); [discriminate|].
  intros H. now rewrite IH.
Qed.

Lemma update_one_find (key : string) (v : json) (sets : dict) (c : collection) :
  keeps key sets ->
  find_one key v (fst (update_one key v sets c)) =
  option_map (apply_set sets) (find_one key v c).
Proof.
  intros K. unfold find_one.
  induction c as [|x c IH]; simpl; [reflexivity|].
  destruct (matches key v x) eqn:M.
  - destruct (json_eqb (JObj (apply_set sets x)) (JObj x)) eqn:E; simpl.
    + apply json_eqb_eq in E. injection E as E. now rewrite M, E.
    + now rewrite (matches_apply_set key v sets x K), M.
  - destruct (update_one key v sets c) as [c' res]. simpl in *.
    now rewrite M.
Qed.

Lemma update_one_count (key key' : string) (v v' : json) (sets : dict)
    (c : collection) :
  keeps key' sets ->
  count_documents key' v' (fst (update_one key v sets c)) =
  count_documents key' v' c.
Proof.
  intros K. unfold count_documents.
  induction c as [|x c IH]; simpl; [reflexivity|].
  destruct (matches key v x).
  - destruct (json_eqb (JObj (apply_set sets x)) (JObj x)); simpl;
      [reflexivity|].
    rewrite (matches_apply_set key' v' sets x K).
    now destruct (matches key' v' x).
  - destruct (update_one key v sets c) as [c' res]. simpl in *.
    destruct (matches key' v' x); simpl; now rewrite IH.
Qed.

Lemma update_one_modified (key : string) (v : json) (sets : dict) (c : collection) :
  modified_count (snd (update_one key v sets c)) =
  match find_one key v c with
  | Some d => if json_eqb (JObj (apply_set sets d)) (JObj d) then 0 else 1
  | None => 0
  end.
Proof.
  unfold find_one.
  induction c as [|x c IH]; simpl; [reflexivity|].
  destruct (matches key v x).
  - now destruct (json_eqb (JObj (apply_set sets x)) (JObj x)).
  - now destruct (update_one key v sets c).
Qed.

Lemma update_one_matched (key : string) (v : json) (sets : dict) (c : collection) :
  matched_count (snd (update_one key v sets c)) =
  match find_one key v c with
  | Some _ => 1
  | None => 0
  end.
Proof.
  unfold find_one.
  induction c as [|x c IH]; simpl; [reflexivity|].
  destruct (matches key v x).
  - now destruct (json_eqb (JObj (apply_set sets x)) (JObj x)).
  - now destruct (update_one key v sets c).
Qed.

Lemma update_one_unmodified (key : string) (v : json) (sets : dict) (c : collection) :
  modified_count (snd (update_one key v sets c)) = 0 ->
  fst (update_one key v sets c) = c.
Proof.
  induction c as [|x c IH]; simpl; [reflexivity|].
  destruct (matches key v x).
  - now destruct (json_eqb (JObj (apply_set sets x)) (JObj x)).
  - destruct (update_one key v sets c) as [c' res]. simpl in *.
    intros H. now rewrite IH.
Qed.

Lemma delete_one_count (key : string) (v : json) (c : collection) :
  count_documents key v (delete_one key v c) = pred (count_documents key v c).
Proof.
  unfold count_documents.
  induction c as [|x c IH]; simpl; [reflexivity|].
  destruct (matches key v x) eqn:M; simpl; [reflexivity|].
  now rewrite M.
Qed.

Lemma delete_one_none (key : string) (v : json) (c : collection) :
  find_one key v c = None -> delete_one key v c = c.
Proof.
  unfold find_one.
  induction c as [|x c IH]; simpl; [reflexivity|].
  destruct (matches key v x); [discriminate|].
  intros H. now rewrite IH.
Qed.

Lemma delete_one_find (key : string) (v : json) (c : collection) :
  count_documents key v c <= 1 ->
  find_one key v (delete_one key v c) = None.
Proof.
  intros H. apply count_zero_find. rewrite delete_one_count. lia.
Qed.

(** A document matches the value of its own field; a field that holds a
    string matches that string only. *)
Lemma matches_field (key : string) (v : json) (d : dict) :
  lookup key d = Some v -> matches key v d = true.
Proof.
  unfold matches. intros ->.
  destruct v; try apply json_eqb_refl.
  now rewrite json_eqb_refl.
Qed.

Lemma matches_string_field (key s : string) (v : json) (d : dict) :
  lookup key d = Some (JStr s) -> matches key v d = json_eqb (JStr s) v.
Proof. unfold matches. now intros ->. Qed.

Lemma lookup_head (key : string) (v : json) (d : dict) :
  lookup key ((key, v) :: d) = Some v.
Proof. cbn [lookup]. now rewrite String.eqb_refl. Qed.

Lemma upsert_find (key : string) (v : json) (sets : dict) (c : collection) :
  keeps key sets ->
  find_one key v (fst (update_one_upsert key v sets c)) =
  Some (apply_set sets (match find_one key v c with
                        | Some d => d
                        | None => [(key, v)]
                        end)).
Proof.
  intros K. unfold update_one_upsert.
  pose proof (update_one_matched key v sets c) as Hm.
  pose proof (update_one_find key v sets c K) as Hf.
  destruct (update_one key v sets c) as [c' res]. simpl in *.
  destruct (find_one key v c) as [d|] eqn:F; rewrite Hm; simpl.
  - exact Hf.
  - unfold insert_one. rewrite find_one_app, F.
    rewrite (matches_apply_set key v sets _ K).
    now rewrite (matches_field key v _ (lookup_head key v [])).
Qed.

Lemma upsert_count (key : string) (v : json) (sets : dict) (c : collection) :
  keeps key sets ->
  count_documents key v (fst (update_one_upsert key v sets c)) =
  Nat.max 1 (count_documents key v c).
Proof.
  intros K. unfold update_one_upsert.
  pose proof (update_one_matched key v sets c) as Hm.
  pose proof (update_one_count key key v v sets c K) as Hc.
  destruct (update_one key v sets c) as [c' res].
  cbn [fst snd] in Hm, Hc.
  destruct (find_one key v c) as [d|] eqn:F; rewrite Hm; cbn [fst].
  - rewrite Hc.
    assert (count_documents key v c <> 0) as N.
    { intros E. apply count_zero_find in E. congruence. }
    lia.
  - apply count_zero_find in F.
    unfold insert_one. rewrite count_app, F.
    rewrite (matches_apply_set key v sets _ K).
    now rewrite (matches_field key v _ (lookup_head key v [])).
Qed.

Lemma insert_one_unique_fresh (key : string) (d : dict) (c : collection) :
  find_one key (dict_get key d) c = None ->
  insert_one_unique key d c = Ret (c ++ [d]).
Proof.
  intros F. unfold insert_one_unique.
  now rewrite (find_one_none_existsb _ _ _ F).
Qed.

Lemma matches_self (key : string) (d : dict) :
  matches key (dict_get key d) d = true.
Proof.
  unfold dict_get.
  destruct (lookup key d) as [v|] eqn:L; [now apply matches_field|].
  unfold matches. now rewrite L.
Qed.

Lemma delete_one_count_le (key : string) (v v' : json) (c : collection) :
  count_documents key v (delete_one key v' c) <= count_documents key v c.
Proof.
  unfold count_documents.
  induction c as [|x c IH]; simpl; [lia|].
  destruct (matches key v' x); simpl.
  - destruct (matches key v x); simpl; lia.
  - destruct (matches key v x); simpl; lia.
Qed.

(** An upsert for a string never makes a second entry for a key. *)
Lemma upsert_count_le (key : string) (v v' : json) (sets : dict) (c : collection) :
  keeps key sets ->
  is_string v' = true ->
  count_documents key v c <= 1 ->
  count_documents key v (fst (update_one_upsert key v' sets c)) <= 1.
Proof.
  intros K Sv C. unfold update_one_upsert.
  destruct v' as [| | |s'| |]; try discriminate Sv.
  pose proof (update_one_matched key (JStr s') sets c) as Hm.
  pose proof (update_one_count key key (JStr s') v sets c K) as Hc.
  destruct (update_one key (JStr s') sets c) as [c' res].
  cbn [fst snd] in Hm, Hc.
  destruct (find_one key (JStr s') c) as [d|] eqn:F; rewrite Hm; cbn [fst].
  - lia.
  - unfold insert_one. rewrite count_app.
    rewrite (matches_apply_set key v sets _ K).
    rewrite (matches_string_field key s' v _ (lookup_head key (JStr s') [])).
    destruct (json_eqb (JStr s') v) eqn:E; [|lia].
    apply json_eqb_eq in E. subst v.
    apply count_zero_find in F. lia.
Qed.

(** What a plain event holds in the fields that reach the store. *)
Lemma plain_fields (p : dict) :
  plain p = true ->
  storable (dict_get "wa_id" p) = true /\
  storable (dict_get "text" p) = true /\
  storable (dict_get "meta_msg_id" p) = true /\
  storable (dict_get "direction" p) = true /\
  storable (dict_get "status" p) = true /\
  storable (dict_get "timestamp" p) = true.
Proof.
  unfold plain. cbn [forallb]. intros H.
  repeat (apply andb_prop in H as [? H]). tauto.
Qed.

Lemma plain_default (k : string) (default : json) (p : dict) :
  storable (dict_get k p) = true ->
  storable default = true ->
  storable (dict_get_default k default p) = true.
Proof.
  unfold dict_get, dict_get_default. now destruct (lookup k p).
Qed.

End MongoFacts.

(* ================================================================== *)
(** ** Facts about the batch importer *)

Module ProcessorFacts.
Import Py Mongo Processor Observe PyFacts MongoFacts.

#[local] Arguments json_eqb : simpl never.

Lemma with_messages_same (r : run) : with_messages (messages_col r) r = r.
Proof. now destruct r. Qed.

Lemma with_pending_same (r : run) : with_pending (pending_col r) r = r.
Proof. now destruct r. Qed.

(** [$set status] is a no-op exactly on a document that has that status. *)
Lemma set_status_noop (st : json) (d : dict) :
  json_eqb (JObj (apply_set [("status", st)] d)) (JObj d) = true <->
  lookup "status" d = Some st.
Proof.
  simpl. split.
  - intros E. apply json_eqb_eq in E. injection E as E.
    rewrite <- E. apply lookup_dict_set_same.
  - intros L. rewrite (dict_set_idem _ _ _ L). apply json_eqb_refl.
Qed.

Lemma status_modified_zero (mid st : json) (c : collection) :
  modified_count (snd (update_one "meta_msg_id" mid [("status", st)] c)) = 0 <->
  status_of mid c = Some st \/ find_one "meta_msg_id" mid c = None.
Proof.
  rewrite update_one_modified. unfold status_of.
  destruct (find_one "meta_msg_id" mid c) as [d|]; [|tauto].
  destruct (json_eqb _ _) eqn:E.
  - apply set_status_noop in E. tauto.
  - split; [discriminate|]. intros [L|L]; [|discriminate].
    apply set_status_noop in L. congruence.
Qed.

(** After [$set status] the message, if there is one, has that status. *)
Lemma status_of_update (mid st : json) (c : collection) :
  status_of mid (fst (update_one "meta_msg_id" mid [("status", st)] c)) =
  match find_one "meta_msg_id" mid c with
  | Some _ => Some st
  | None => None
  end.
Proof.
  unfold status_of. rewrite update_one_find by apply keeps_status.
  destruct (find_one "meta_msg_id" mid c); simpl; [|reflexivity].
  apply lookup_dict_set_same.
Qed.

Lemma process_payload_status (f now : string) (p : dict) (r : run) (mid st : json) :
  is_status_event mid st p ->
  process_payload f now (JObj p) r = process_status f now p r.
Proof.
  intros (T & _). unfold process_payload. simpl. unfold dict_getitem.
  now rewrite T.
Qed.

Lemma process_payload_message (f now : string) (p : dict) (r : run) (mid : json) :
  is_message_event mid p ->
  process_payload f now (JObj p) r = process_message f now p r.
Proof.
  intros (T & _). unfold process_payload. simpl. unfold dict_getitem.
  now rewrite T.
Qed.

(** The status branch when [modified_count] is 0: the status is buffered. *)
Lemma process_status_buffered (f now : string) (p : dict) (r : run) (mid st : json) :
  is_status_event mid st p ->
  modified_count
    (snd (update_one "meta_msg_id" mid [("status", st)] (messages_col r))) = 0 ->
  process_status f now p r =
  (incr_processed
     (print (PendingStored st mid)
        (with_pending
           (fst (update_one_upsert "meta_msg_id" mid
                   [("new_status", st); ("received_at", JStr now)]
                   (pending_col r))) r)), None).
Proof.
  intros (_ & I & T & S) M. unfold process_status.
  rewrite I, S, T. cbn [negb].
  pose proof (update_one_unmodified _ _ _ _ M) as U.
  destruct (update_one _ _ _ _) as [msgs result]. cbn [fst snd] in M, U.
  subst msgs. rewrite M. cbn [Nat.ltb Nat.leb].
  now rewrite with_messages_same.
Qed.

(** The status branch when [modified_count] is positive. *)
Lemma process_status_updated (f now : string) (p : dict) (r : run) (mid st : json) :
  is_status_event mid st p ->
  modified_count
    (snd (update_one "meta_msg_id" mid [("status", st)] (messages_col r))) <> 0 ->
  process_status f now p r =
  (incr_processed
     (print (Updated mid st)
        (with_messages
           (fst (update_one "meta_msg_id" mid [("status", st)] (messages_col r)))
           r)), None).
Proof.
  intros (_ & I & T & S) M. unfold process_status.
  rewrite I, S, T. cbn [negb].
  destruct (update_one _ _ _ _) as [msgs result]. cbn [fst snd] in M |- *.
  destruct (modified_count result); [congruence | reflexivity].
Qed.

(** The three ways in which the drain of the pending buffer ends. *)
Lemma apply_pending_none (mid : json) (r : run) :
  find_one "meta_msg_id" mid (pending_col r) = None ->
  apply_pending mid r = (r, None).
Proof. intros F. unfold apply_pending. now rewrite F. Qed.

Lemma apply_pending_some (mid st : json) (pd : dict) (r : run) :
  find_one "meta_msg_id" mid (pending_col r) = Some pd ->
  lookup "new_status" pd = Some st ->
  apply_pending mid r =
  (print (AppliedPending st mid)
     (with_pending (delete_one "meta_msg_id" mid (pending_col r))
        (with_messages
           (fst (update_one "meta_msg_id" mid [("status", st)] (messages_col r)))
           r)), None).
Proof.
  intros F L. unfold apply_pending, dict_getitem. now rewrite F, L.
Qed.

Lemma apply_pending_keyerror (mid : json) (pd : dict) (r : run) :
  find_one "meta_msg_id" mid (pending_col r) = Some pd ->
  lookup "new_status" pd = None ->
  apply_pending mid r = (r, Some (KeyError "new_status")).
Proof.
  intros F L. unfold apply_pending, dict_getitem. now rewrite F, L.
Qed.

(** The drain never removes or adds a message. *)
Lemma apply_pending_count (mid v : json) (r : run) :
  count_documents "meta_msg_id" v (messages_col (fst (apply_pending mid r))) =
  count_documents "meta_msg_id" v (messages_col r).
Proof.
  unfold apply_pending.
  destruct (find_one "meta_msg_id" mid (pending_col r)); [|reflexivity].
  destruct (dict_getitem "new_status" d); [|reflexivity].
  cbn [fst print with_pending with_messages messages_col].
  apply update_one_count, keeps_status.
Qed.

Lemma apply_pending_found (mid : json) (r : run) :
  find_one "meta_msg_id" mid (messages_col r) <> None ->
  find_one "meta_msg_id" mid (messages_col (fst (apply_pending mid r))) <> None.
Proof.
  intros F E. apply F. apply count_zero_find. apply count_zero_find in E.
  now rewrite apply_pending_count in E.
Qed.

(** The message branch on an identifier that is already stored. *)
Lemma process_message_duplicate (f now : string) (p d : dict) (r : run) (mid : json) :
  is_message_event mid p ->
  find_one "meta_msg_id" mid (messages_col r) = Some d ->
  process_message f now p r =
  apply_pending mid (incr_skipped (print (SkipDuplicate mid) r)).
Proof.
  intros (_ & I & T) F. unfold process_message. now rewrite I, T, F.
Qed.

(** The message branch on a new identifier: the insert meets no uniqueness
    violation. *)
Lemma process_message_new (f now : string) (p : dict) (r : run) (mid : json) :
  is_message_event mid p ->
  find_one "meta_msg_id" mid (messages_col r) = None ->
  process_message f now p r =
  apply_pending mid
    (incr_processed
       (print (Inserted mid)
          (with_messages (messages_col r ++ [message_doc now p mid]) r))).
Proof.
  intros (_ & I & T) F. unfold process_message. rewrite I, T, F. cbn [negb].
  now rewrite insert_one_unique_fresh.
Qed.

(** What one [StatusEvent] does to the run, by the value of [modified_count]. *)
Lemma ingest_status_buffered (f now : string) (p : dict) (r : run) (mid st : json) :
  is_status_event mid st p ->
  status_of mid (messages_col r) = Some st \/
  find_one "meta_msg_id" mid (messages_col r) = None ->
  ingest f now (JObj p) r =
  incr_processed
    (print (PendingStored st mid)
       (with_pending
          (fst (update_one_upsert "meta_msg_id" mid
                  [("new_status", st); ("received_at", JStr now)]
                  (pending_col r))) r)).
Proof.
  intros E H. apply status_modified_zero in H. unfold ingest.
  rewrite (process_payload_status _ _ _ _ _ _ E).
  now rewrite (process_status_buffered _ _ _ _ _ _ E H).
Qed.

Lemma ingest_status_updated (f now : string) (p : dict) (r : run) (mid st : json) :
  is_status_event mid st p ->
  find_one "meta_msg_id" mid (messages_col r) <> None ->
  status_of mid (messages_col r) <> Some st ->
  ingest f now (JObj p) r =
  incr_processed
    (print (Updated mid st)
       (with_messages
          (fst (update_one "meta_msg_id" mid [("status", st)] (messages_col r)))
          r)).
Proof.
  intros E F N. unfold ingest.
  rewrite (process_payload_status _ _ _ _ _ _ E).
  rewrite (process_status_updated _ _ _ _ _ _ E); [reflexivity|].
  intros M. apply status_modified_zero in M. tauto.
Qed.

(** Whatever [modified_count] says, the messages after a [StatusEvent] are
    those of the unconditional [$set]. *)
Lemma ingest_status_messages (f now : string) (p : dict) (r : run) (mid st : json) :
  is_status_event mid st p ->
  messages_col (ingest f now (JObj p) r) =
  fst (update_one "meta_msg_id" mid [("status", st)] (messages_col r)).
Proof.
  intros E. unfold ingest.
  rewrite (process_payload_status _ _ _ _ _ _ E).
  destruct (Nat.eq_dec
              (modified_count
                 (snd (update_one "meta_msg_id" mid [("status", st)]
                         (messages_col r)))) 0) as [M|M].
  - rewrite (process_status_buffered _ _ _ _ _ _ E M).
    symmetry. now apply update_one_unmodified.
  - now rewrite (process_status_updated _ _ _ _ _ _ E M).
Qed.

Lemma ingest_status_sets (f now : string) (p : dict) (r : run) (mid st : json) :
  is_status_event mid st p ->
  find_one "meta_msg_id" mid (messages_col r) <> None ->
  status_of mid (messages_col (ingest f now (JObj p) r)) = Some st.
Proof.
  intros E F. rewrite (ingest_status_messages _ _ _ _ _ _ E).
  rewrite status_of_update.
  now destruct (find_one "meta_msg_id" mid (messages_col r)).
Qed.

Lemma pending_of_upsert (mid st t : json) (c : collection) :
  pending_of mid
    (fst (update_one_upsert "meta_msg_id" mid
            [("new_status", st); ("received_at", t)] c)) = Some st.
Proof.
  unfold pending_of. rewrite upsert_find by apply keeps_pending.
  simpl. rewrite lookup_dict_set_other by discriminate.
  apply lookup_dict_set_same.
Qed.

Lemma find_one_inserted (now : string) (p : dict) (mid : json) (c : collection) :
  find_one "meta_msg_id" mid (c ++ [message_doc now p mid]) <> None.
Proof.
  rewrite find_one_app.
  destruct (find_one "meta_msg_id" mid c); [discriminate|].
  now rewrite (matches_field "meta_msg_id" mid (message_doc now p mid) eq_refl).
Qed.

Lemma status_of_found (mid st : json) (c : collection) :
  status_of mid c = Some st -> find_one "meta_msg_id" mid c <> None.
Proof.
  unfold status_of. now destruct (find_one "meta_msg_id" mid c).
Qed.

(** After a [MessageEvent] the message is stored, once more than before
    only if it was not stored before. *)
Lemma ingest_message_count (f now : string) (p : dict) (r : run) (mid : json) :
  is_message_event mid p ->
  count_documents "meta_msg_id" mid (messages_col (ingest f now (JObj p) r)) =
  Nat.max 1 (count_documents "meta_msg_id" mid (messages_col r)).
Proof.
  intros E. unfold ingest.
  rewrite (process_payload_message _ _ _ _ _ E).
  destruct (find_one "meta_msg_id" mid (messages_col r)) as [d|] eqn:F.
  - rewrite (process_message_duplicate _ _ _ _ _ _ E F).
    assert (count_documents "meta_msg_id" mid (messages_col r) <> 0) as N.
    { intros Z0. apply count_zero_find in Z0. congruence. }
    pose proof (apply_pending_count mid mid
                  (incr_skipped (print (SkipDuplicate mid) r))) as C.
    destruct (apply_pending mid _) as [r' [e|]];
      cbn [fst incr_errors print messages_col incr_skipped] in *; lia.
  - rewrite (process_message_new _ _ _ _ _ E F).
    pose proof (apply_pending_count mid mid
                  (incr_processed
                     (print (Inserted mid)
                        (with_messages
                           (messages_col r ++ [message_doc now p mid]) r)))) as C.
    cbn [messages_col incr_processed print with_messages] in C.
    rewrite count_app in C.
    apply count_zero_find in F. rewrite F in C.
    replace (matches "meta_msg_id" mid (message_doc now p mid)) with true in C
      by (symmetry; now apply matches_field).
    destruct (apply_pending mid _) as [r' [e|]];
      cbn [fst incr_errors print messages_col] in *; lia.
Qed.

Lemma ingest_message_found (f now : string) (p : dict) (r : run) (mid : json) :
  is_message_event mid p ->
  find_one "meta_msg_id" mid (messages_col (ingest f now (JObj p) r)) <> None.
Proof.
  intros E F. apply count_zero_find in F.
  rewrite (ingest_message_count _ _ _ _ _ E) in F. lia.
Qed.

(** A [MessageEvent] applies the status that waits for its identifier,
    without consulting the Status Rules, and removes the entry. *)
Lemma ingest_message_applies (f now : string) (p : dict) (r : run) (mid st : json) :
  is_message_event mid p ->
  pending_of mid (pending_col r) = Some st ->
  let r' := ingest f now (JObj p) r in
  status_of mid (messages_col r') = Some st /\
  pending_col r' = delete_one "meta_msg_id" mid (pending_col r) /\
  stdout r' =
    stdout r ++
    [match find_one "meta_msg_id" mid (messages_col r) with
     | Some _ => SkipDuplicate mid
     | None => Inserted mid
     end; AppliedPending st mid].
Proof.
  intros E P. unfold pending_of in P.
  destruct (find_one "meta_msg_id" mid (pending_col r)) as [pd|] eqn:FP;
    [|discriminate].
  cbv zeta. unfold ingest.
  rewrite (process_payload_message _ _ _ _ _ E).
  destruct (find_one "meta_msg_id" mid (messages_col r)) as [d|] eqn:F.
  - rewrite (process_message_duplicate _ _ _ _ _ _ E F).
    rewrite (apply_pending_some mid st pd) by assumption.
    cbn [print with_pending with_messages incr_skipped messages_col
         pending_col stdout].
    rewrite status_of_update, F, <- app_assoc. now simpl.
  - rewrite (process_message_new _ _ _ _ _ E F).
    rewrite (apply_pending_some mid st pd) by assumption.
    cbn [print with_pending with_messages incr_processed messages_col
         pending_col stdout].
    rewrite status_of_update, <- app_assoc.
    pose proof (find_one_inserted now p mid (messages_col r)) as FI.
    destruct (find_one "meta_msg_id" mid (messages_col r ++ _));
      [now simpl | congruence].
Qed.

(** A redelivered [MessageEvent] with nothing pending only counts as
    skipped. *)
Lemma ingest_message_duplicate_quiet (f now : string) (p d : dict) (r : run)
    (mid : json) :
  is_message_event mid p ->
  find_one "meta_msg_id" mid (messages_col r) = Some d ->
  find_one "meta_msg_id" mid (pending_col r) = None ->
  ingest f now (JObj p) r = incr_skipped (print (SkipDuplicate mid) r).
Proof.
  intros E F P. unfold ingest.
  rewrite (process_payload_message _ _ _ _ _ E).
  rewrite (process_message_duplicate _ _ _ _ _ _ E F).
  now rewrite apply_pending_none.
Qed.

(** A redelivered [MessageEvent] is always announced as a duplicate, is
    counted as skipped and never as processed. *)
Lemma ingest_message_duplicate (f now : string) (p d : dict) (r : run) (mid : json) :
  is_message_event mid p ->
  find_one "meta_msg_id" mid (messages_col r) = Some d ->
  let r' := ingest f now (JObj p) r in
  (exists rest, stdout r' = stdout r ++ SkipDuplicate mid :: rest) /\
  skipped r' = S (skipped r) /\
  processed r' = processed r.
Proof.
  intros E F. cbv zeta. unfold ingest.
  rewrite (process_payload_message _ _ _ _ _ E).
  rewrite (process_message_duplicate _ _ _ _ _ _ E F).
  unfold apply_pending.
  cbn [pending_col incr_skipped print].
  destruct (find_one "meta_msg_id" mid (pending_col r)) as [pd|].
  - destruct (dict_getitem "new_status" pd) as [st|e];
      simpl; rewrite <- app_assoc; simpl; eauto.
  - simpl. eauto.
Qed.

(** A status that is buffered waits for its message with the status that
    was asked for. *)
Lemma buffered_status_waits (f now : string) (p : dict) (r : run) (mid st : json) :
  is_status_event mid st p ->
  status_of mid (messages_col r) = Some st \/
  find_one "meta_msg_id" mid (messages_col r) = None ->
  pending_of mid (pending_col (ingest f now (JObj p) r)) = Some st.
Proof.
  intros E H. rewrite (ingest_status_buffered f now p r mid st E H).
  cbn [incr_processed print with_pending pending_col].
  apply pending_of_upsert.
Qed.

(** The events of the data model name their message by a string. *)
Lemma status_event_named (p : dict) (mid st : json) :
  is_status_event mid st p ->
  is_string mid = true ->
  string_identified (JObj p) = true.
Proof.
  intros (_ & <- & _) S0. cbn [string_identified]. rewrite S0.
  apply orb_true_r.
Qed.

Lemma message_event_named (p : dict) (mid : json) :
  is_message_event mid p ->
  is_string mid = true ->
  string_identified (JObj p) = true.
Proof.
  intros (_ & <- & _) S0. cbn [string_identified]. rewrite S0.
  apply orb_true_r.
Qed.

(** The drain adds no entry to the pending buffer. *)
Lemma apply_pending_pending_le (mid v : json) (r : run) :
  count_documents "meta_msg_id" v (pending_col (fst (apply_pending mid r))) <=
  count_documents "meta_msg_id" v (pending_col r).
Proof.
  unfold apply_pending.
  destruct (find_one "meta_msg_id" mid (pending_col r)) as [pd|];
    [|cbn [fst]; lia].
  destruct (dict_getitem "new_status" pd); cbn [fst]; [|lia].
  cbn [print with_pending with_messages pending_col].
  apply delete_one_count_le.
Qed.

(** The invariant of the pending buffer, at most one entry per identifier,
    survives every event, canonical or not, whose identifier is a string
    when it is truthy. *)
Lemma ingest_keeps_pending_unique (f now : string) (payload : json) (r : run)
    (v : json) :
  string_identified payload = true ->
  count_documents "meta_msg_id" v (pending_col r) <= 1 ->
  count_documents "meta_msg_id" v (pending_col (ingest f now payload r)) <= 1.
Proof.
  intros Sid C. unfold ingest, process_payload.
  destruct (py_getitem "type" payload) as [ty|e]; [|exact C].
  destruct payload as [| | | |items|p]; try exact C.
  destruct (is_str "message" ty).
  - unfold process_message.
    destruct (negb (truthy (dict_get "meta_msg_id" p))); [exact C|].
    destruct (find_one "meta_msg_id" (dict_get "meta_msg_id" p) (messages_col r)).
    + pose proof (apply_pending_pending_le (dict_get "meta_msg_id" p) v
                    (incr_skipped
                       (print (SkipDuplicate (dict_get "meta_msg_id" p)) r))) as L.
      destruct (apply_pending _ _) as [r' [e|]];
        cbn [fst incr_errors print incr_skipped pending_col] in *; lia.
    + destruct (insert_one_unique _ _ _) as [msgs|e]; [|exact C].
      pose proof (apply_pending_pending_le (dict_get "meta_msg_id" p) v
                    (incr_processed
                       (print (Inserted (dict_get "meta_msg_id" p))
                          (with_messages msgs r)))) as L.
      destruct (apply_pending _ _) as [r' [e|]];
        cbn [fst incr_errors print incr_processed with_messages pending_col] in *;
        lia.
  - destruct (is_str "status" ty); [|exact C].
    unfold process_status.
    destruct (truthy (dict_get "meta_msg_id" p)) eqn:Tr; cbn [negb];
      [|exact C].
    destruct (update_one _ _ _ _) as [msgs result].
    destruct (Nat.ltb 0 (modified_count result)); [exact C|].
    cbn [incr_processed print with_pending with_messages pending_col].
    apply upsert_count_le; [apply keeps_pending | | exact C].
    cbn [string_identified] in Sid. rewrite Tr in Sid. exact Sid.
Qed.

End ProcessorFacts.

(* ================================================================== *)
(** ** Facts about the webhook *)

Module AppFacts.
Import Py Mongo Observe PyFacts MongoFacts App.

#[local] Arguments json_eqb : simpl never.

Lemma server_eta (s : server) : mkServer (processed_messages s) (emitted s) = s.
Proof. now destruct s. Qed.

Lemma existsb_false_count (key : string) (v : json) (c : collection) :
  existsb (matches key v) c = false -> count_documents key v c = 0.
Proof.
  unfold count_documents.
  induction c as [|x c IH]; simpl; [reflexivity|].
  destruct (matches key v x); simpl; [discriminate | exact IH].
Qed.

Lemma existsb_app_self (key : string) (d : dict) (c : collection) :
  existsb (matches key (dict_get key d)) (c ++ [d]) = true.
Proof.
  rewrite existsb_app. simpl. rewrite matches_self.
  now rewrite orb_true_r.
Qed.

(** The status update of an identifier that is not stored. *)
Lemma db_update_unknown (mid new : json) (msgs : collection) :
  find_one "meta_msg_id" mid msgs = None ->
  db_update_message_status mid new msgs = (msgs, Ret 0).
Proof. intros F. unfold db_update_message_status. now rewrite F. Qed.

(** The status update that the table does not allow. *)
Lemma db_update_illegal (mid new : json) (msgs : collection) (cur : dict)
    (next : list string) :
  find_one "meta_msg_id" mid msgs = Some cur ->
  transitions_get (dict_get_default "status" (JStr "sent") cur) = Ret next ->
  in_strs new next = false ->
  db_update_message_status mid new msgs =
  (msgs, Raise (InvalidStatusTransition
                  (dict_get_default "status" (JStr "sent") cur) new)).
Proof.
  intros F T I. unfold db_update_message_status. now rewrite F, T, I.
Qed.

Section Socket.

Variable emit_fails : json -> bool.

(** An emit to a room that is a scalar goes out. *)
Lemma sio_emit_scalar (e : emit) (sent : list emit) :
  storable (room e) = true ->
  sio_emit emit_fails e sent = Ret (sent ++ [e]).
Proof. unfold sio_emit. now destruct (room e). Qed.

(** A failed emit sends nothing, and what it raises is no [HTTPException]. *)
Lemma sio_emit_cases (e : emit) (sent : list emit) :
  sio_emit emit_fails e sent = Ret (sent ++ [e]) \/
  sio_emit emit_fails e sent = Raise TypeError.
Proof.
  unfold sio_emit.
  destruct (room e); auto; destruct (emit_fails _); auto.
Qed.

(** The status branch of the endpoint, up to the call of the helper. *)
Lemma webhook_status_body (now : json) (payload : dict) (s : server)
    (mid new : json) :
  event_type_of payload = Ret "status" ->
  lookup "meta_msg_id" payload = Some mid ->
  lookup "status" payload = Some new ->
  webhook_body emit_fails now payload s =
  let (msgs, res) := db_update_message_status mid new (processed_messages s) in
  match res with
  | Raise e => (mkServer msgs (emitted s), Raise e)
  | Ret (S _) =>
      match sio_emit emit_fails
              (mkEmit "status_update"
                 (JObj [("meta_msg_id", mid); ("new_status", new)])
                 (dict_get_default "wa_id" (JStr "global") payload))
              (emitted s) with
      | Raise x => (mkServer msgs (emitted s), Raise x)
      | Ret sent =>
          (mkServer msgs sent,
           Ret (JObj [("status", JStr "success");
                      ("event", JStr "status_updated")]))
      end
  | Ret O => (mkServer msgs (emitted s), Raise MessageNotFound)
  end.
Proof.
  intros T M N. unfold webhook_body, webhook_status, dict_getitem.
  rewrite T, M, N. simpl.
  now destruct (db_update_message_status mid new (processed_messages s)).
Qed.

(** The insert of a document whose identifier is stored already. *)
Lemma db_insert_duplicate (now : json) (message_data : dict) (msgs : collection) :
  existsb (matches "meta_msg_id" (dict_get "meta_msg_id" message_data)) msgs = true ->
  db_insert_message now message_data msgs =
  (msgs, Raise (HTTPException 500 "Database insert error")).
Proof.
  intros X. unfold db_insert_message, insert_one_unique, dict_get.
  rewrite lookup_dict_set_other by discriminate.
  fold (dict_get "meta_msg_id" message_data). now rewrite X.
Qed.

(** After [db_insert_message], however it ends, the identifier is stored;
    and it is stored once if it was stored at most once. *)
Lemma db_insert_stored (now : json) (message_data : dict) (msgs : collection) :
  let mid := dict_get "meta_msg_id" message_data in
  let msgs' := fst (db_insert_message now message_data msgs) in
  existsb (matches "meta_msg_id" mid) msgs' = true /\
  (count_documents "meta_msg_id" mid msgs <= 1 ->
   count_documents "meta_msg_id" mid msgs' = 1).
Proof.
  cbv zeta.
  assert (dict_get "meta_msg_id" (dict_set "timestamp" now message_data) =
          dict_get "meta_msg_id" message_data) as G.
  { unfold dict_get. now rewrite lookup_dict_set_other by discriminate. }
  unfold db_insert_message, insert_one_unique. rewrite G.
  destruct (existsb _ msgs) eqn:X.
  - cbn [fst]. split; [exact X|].
    intros C. apply count_existsb in X. lia.
  - cbv zeta.
    destruct (dict_getitem "meta_msg_id" (dict_set "timestamp" now message_data));
      cbn [fst]; (split; [rewrite <- G; apply existsb_app_self|]);
      intros _; rewrite count_app, (existsb_false_count _ _ _ X);
      rewrite <- G at 1; now rewrite matches_self.
Qed.

(** The message branch of the endpoint leaves in the store what
    [db_insert_message] left. *)
Lemma webhook_message_store (now : json) (payload : dict) (s : server)
    (wa_id text mid : json) :
  lookup "wa_id" payload = Some wa_id ->
  lookup "text" payload = Some text ->
  lookup "meta_msg_id" payload = Some mid ->
  exists message_data,
    dict_get "meta_msg_id" message_data = mid /\
    processed_messages (fst (webhook_message emit_fails now payload s)) =
    fst (db_insert_message now message_data (processed_messages s)) /\
    (forall e, snd (db_insert_message now message_data (processed_messages s)) = Raise e ->
       webhook_message emit_fails now payload s =
       (mkServer (fst (db_insert_message now message_data (processed_messages s)))
                 (emitted s), Raise e)).
Proof.
  intros W T M. unfold webhook_message, dict_getitem. rewrite W, T, M.
  cbn [bind].
  exists [("wa_id", wa_id); ("text", text); ("meta_msg_id", mid);
          ("direction", JStr "inbound");
          ("status", dict_get_default "status" (JStr "delivered") payload)].
  split; [|split].
  - reflexivity.
  - destruct (db_insert_message now _ (processed_messages s)) as [msgs [saved|e]];
      [|reflexivity].
    cbn [fst].
    destruct (_ <- py_getitem "wa_id" saved ;; _) as [e|e]; [|reflexivity].
    now destruct (sio_emit emit_fails e (emitted s)).
  - intros e He.
    destruct (db_insert_message now _ (processed_messages s)) as [msgs [saved|e']];
      cbn [fst snd] in *; [discriminate|].
    now injection He as ->.
Qed.

End Socket.

End AppFacts.

(* ================================================================== *)
(** ** Facts about the normalizer and the loop over the files *)

Module NormalizerFacts.
Import Py Mongo Processor Observe PyFacts.

Section WithClock.

Variable fromtimestamp_iso : json -> option string.

Lemma envelope_of_dict (d : dict) : exists meta, envelope_of (JObj d) = Ret meta.
Proof.
  unfold envelope_of. simpl.
  destruct (truthy (dict_get "metaData" d)); eauto.
Qed.

(** [normalize_webhook_payload] returns: no exception leaves it. *)
Lemma normalize_returns (now : string) (raw : json) :
  exists v, fst (normalize_webhook_payload fromtimestamp_iso now raw) = Ret v.
Proof.
  unfold normalize_webhook_payload.
  destruct raw as [| | | |items|d]; cbn [isinstance_dict negb fst]; eauto.
  cbn [py_get].
  destruct (in_strs (dict_get "type" d) ["message"; "status"]);
    cbn [fst]; eauto.
  destruct (envelope_of_dict d) as [meta ->].
  destruct (truthy meta); cbn [fst]; eauto.
  destruct (parse_envelope fromtimestamp_iso now meta) as [[ev|]|e];
    cbn [fst]; eauto.
Qed.

(** An exception of the envelope parsing is caught: a warning is printed
    and [None] is returned. *)
Lemma normalize_failure (now : string) (d : dict) (meta : json) (e : pyexn) :
  in_strs (dict_get "type" d) ["message"; "status"] = false ->
  envelope_of (JObj d) = Ret meta ->
  truthy meta = true ->
  parse_envelope fromtimestamp_iso now meta = Raise e ->
  normalize_webhook_payload fromtimestamp_iso now (JObj d) =
  (Ret JNull, [WarnParseError e]).
Proof.
  intros T M Y P. unfold normalize_webhook_payload.
  cbn [isinstance_dict negb py_get].
  now rewrite T, M, Y, P.
Qed.

Lemma process_file_returns (f : file) (r : run) :
  exists r', process_file fromtimestamp_iso f r = Ret r'.
Proof.
  unfold process_file.
  destruct (loaded f) as [raw|]; [|eauto].
  destruct (normalize_returns (clock f) raw) as [v Hv].
  destruct (normalize_webhook_payload fromtimestamp_iso (clock f) raw) as [res w].
  simpl in Hv. subst res.
  destruct (negb (truthy v)); eauto.
Qed.

(** The loop reaches its end whatever the files hold. *)
Lemma process_files_returns (files : list file) (r : run) :
  exists r', process_files fromtimestamp_iso files r = Ret r'.
Proof.
  revert r. induction files as [|f files IH]; intros r; simpl; [eauto|].
  destruct (process_file_returns f r) as [r1 ->]. simpl. apply IH.
Qed.

Lemma print_all_store (w : list line) (r : run) :
  let r0 := fold_left (fun acc l => print l acc) w r in
  messages_col r0 = messages_col r /\ pending_col r0 = pending_col r /\
  processed r0 = processed r /\ skipped r0 = skipped r /\ errors r0 = errors r.
Proof.
  cbv zeta. revert r. induction w as [|l w IH]; intros r; simpl; [tauto|].
  destruct (IH (print l r)) as (A & B & C & D & E).
  now rewrite A, B, C, D, E.
Qed.

(** A payload that is not recognised is skipped and touches no collection. *)
Lemma process_file_unrecognized (name now : string) (raw : json) (r : run) :
  fst (normalize_webhook_payload fromtimestamp_iso now raw) = Ret JNull ->
  exists r1,
    process_file fromtimestamp_iso (mkFile name (Some raw) now) r = Ret r1 /\
    messages_col r1 = messages_col r /\ pending_col r1 = pending_col r /\
    processed r1 = processed r /\ skipped r1 = S (skipped r) /\
    errors r1 = errors r.
Proof.
  intros N. unfold process_file. cbn [loaded clock].
  destruct (normalize_webhook_payload fromtimestamp_iso now raw) as [res w].
  simpl in N. subst res. cbn [truthy negb].
  eexists. split; [reflexivity|].
  destruct (print_all_store w r) as (A & B & C & D & E).
  cbn [incr_skipped print messages_col pending_col processed skipped errors].
  now rewrite A, B, C, D, E.
Qed.

(** The branch of an inbound message on a well-formed [value]. *)
Lemma inbound_message_ok (now : string) (value msg : dict) (more : list json) :
  dict_get "messages" value = JArr (JObj msg :: more) ->
  (truthy (dict_get_default "contacts" (JArr []) value) = false \/
   exists c rest,
     dict_get_default "contacts" (JArr []) value = JArr (JObj c :: rest)) ->
  exists wa_id meta_msg_id text timestamp,
    inbound_message fromtimestamp_iso now (JObj value) =
    Ret (JObj [("type", JStr "message");
               ("wa_id", wa_id);
               ("meta_msg_id", meta_msg_id);
               ("text", text);
               ("timestamp", timestamp);
               ("direction", JStr "inbound");
               ("status", JStr "delivered")]).
Proof.
  intros M C. unfold inbound_message.
  assert (py_getitem "messages" (JObj value) = Ret (JArr (JObj msg :: more))) as G.
  { unfold dict_get in M. simpl. unfold dict_getitem.
    destruct (lookup "messages" value); [now subst | discriminate]. }
  rewrite G. cbn [bind py_index0 py_get_default].
  assert (exists wa_id,
            (if truthy (dict_get_default "contacts" (JArr []) value)
             then c0 <- py_index0 (dict_get_default "contacts" (JArr []) value) ;;
                  a <- py_get "wa_id" c0 ;;
                  (if truthy a then Ret a else py_get "waId" c0)
             else Ret JNull) = Ret wa_id) as [wa_id ->].
  { destruct C as [-> | (c & rest & ->)]; [eauto|].
    simpl. destruct (truthy (dict_get "wa_id" c)); eauto. }
  cbn [bind py_get].
  assert (exists text,
            (if isinstance_dict (dict_get "text" msg)
             then t' <- py_getitem "text" (JObj msg) ;;
                  py_get_default "body" (JStr "") t'
             else
               (if isinstance_dict (dict_get "message" msg)
                then m' <- py_getitem "message" (JObj msg) ;;
                     py_get_default "body" (JStr "") m'
                else Ret (JStr ""))) = Ret text) as [text ->].
  { unfold dict_get. simpl. unfold dict_getitem.
    destruct (lookup "text" msg) as [[]|]; simpl; eauto;
      destruct (lookup "message" msg) as [[]|]; simpl; eauto. }
  cbn [bind].
  destruct (truthy (dict_get "id" msg)); cbn [bind];
    destruct (truthy (dict_get "timestamp" msg)); cbn [bind]; eauto 6.
Qed.

(** A payload that is already canonical goes to the reconciliation as it
    is. *)
Lemma process_file_canonical (name now : string) (p : dict) (r : run) :
  in_strs (dict_get "type" p) ["message"; "status"] = true ->
  process_file fromtimestamp_iso (mkFile name (Some (JObj p)) now) r =
  Ret (ingest (basename (mkFile name (Some (JObj p)) now)) now (JObj p) r).
Proof.
  intros T. unfold process_file, normalize_webhook_payload.
  cbn [loaded clock isinstance_dict negb py_get].
  rewrite T. cbn [fold_left].
  destruct p as [|kv p]; [discriminate T|reflexivity].
Qed.

End WithClock.

End NormalizerFacts.

(* ================================================================== *)
(** ** The status state machine: monotonicity and illegal transitions *)

Import Py Mongo Processor Observe Samples.
Import PyFacts MongoFacts ProcessorFacts NormalizerFacts.

(** In main.py a message that is read stays read: every status that is
    asked for it is refused and the collection is left as it was. *)
Lemma webhook_read_is_final (mid new : json) (msgs : collection) :
  status_of mid msgs = Some (JStr "read") ->
  App.db_update_message_status mid new msgs =
  (msgs, Raise (InvalidStatusTransition (JStr "read") new)).
Proof.
  unfold status_of. intros H.
  destruct (find_one "meta_msg_id" mid msgs) as [cur|] eqn:F; [|discriminate].
  assert (dict_get_default "status" (JStr "sent") cur = JStr "read") as D
    by (unfold dict_get_default; now rewrite H).
  rewrite (AppFacts.db_update_illegal mid new msgs cur []); rewrite ?D; auto.
Qed.

(** In the batch importer a [StatusEvent] writes its status on the stored
    message whatever the stored status is. *)
Lemma batch_status_is_unconditional (f now : string) (p : dict) (r : run)
    (mid st cur : json) :
  is_status_event mid st p ->
  status_of mid (messages_col r) = Some cur ->
  status_of mid (messages_col (ingest f now (JObj p) r)) = Some st.
Proof.
  intros E H. apply (ingest_status_sets _ _ _ _ _ _ E).
  now apply (status_of_found mid cur).
Qed.

(** C1: once a message is read no later StatusEvent changes its stored
    status.  The batch importer breaks it: with [m1] stored as read, the
    [StatusEvent] that asks for delivered is applied and [m1] is stored as
    delivered, while [db_update_message_status] of main.py refuses the
    same request with [InvalidStatusTransition]. *)
Theorem batch_status_event_overwrites_read :
  status_of (JStr "m1") (messages_col read_run) = Some (JStr "read") /\
  status_of (JStr "m1")
    (messages_col
       (ingest "status.json" t1 (JObj (status_event "m1" "delivered")) read_run))
  = Some (JStr "delivered") /\
  stdout (ingest "status.json" t1 (JObj (status_event "m1" "delivered")) read_run)
  = [Updated (JStr "m1") (JStr "delivered")] /\
  App.db_update_message_status (JStr "m1") (JStr "delivered")
    (messages_col read_run)
  = (messages_col read_run,
     Raise (InvalidStatusTransition (JStr "read") (JStr "delivered"))).
Proof. vm_compute. repeat split. Qed.

(** C7: the drain of the pending buffer validates the transition against
    the Status Rules and drops an illegal pending status without applying
    it.  The batch importer applies it unvalidated: [sent] waiting for [m1]
    is written over the [delivered] of the new message (delivered -> sent
    is not in the table), and [delivered] waiting for a [m1] that is stored
    as read is written by the redelivered message (read -> delivered is not
    in the table either). *)
Theorem drain_applies_illegal_transition :
  legal_transition (JStr "delivered") (JStr "sent") = false /\
  messages_col
    (ingest "message.json" t1 (JObj (message_event "m1" "delivered"))
       sent_waiting_run)
  = [[("wa_id", JStr "c1"); ("text", JStr "hello"); ("meta_msg_id", JStr "m1");
      ("direction", JStr "inbound"); ("status", JStr "sent");
      ("timestamp", JStr t1)]] /\
  pending_col
    (ingest "message.json" t1 (JObj (message_event "m1" "delivered"))
       sent_waiting_run) = [] /\
  stdout
    (ingest "message.json" t1 (JObj (message_event "m1" "delivered"))
       sent_waiting_run)
  = [Inserted (JStr "m1"); AppliedPending (JStr "sent") (JStr "m1")] /\
  legal_transition (JStr "read") (JStr "delivered") = false /\
  status_of (JStr "m1")
    (messages_col
       (ingest "message.json" t1 (JObj (message_event "m1" "read"))
          read_with_delivered_waiting_run))
  = Some (JStr "delivered") /\
  stdout
    (ingest "message.json" t1 (JObj (message_event "m1" "read"))
       read_with_delivered_waiting_run)
  = [SkipDuplicate (JStr "m1"); AppliedPending (JStr "delivered") (JStr "m1")].
Proof. vm_compute. repeat split. Qed.

(** C2, as stated, fails: for the illegal request of [sent] on a message
    that is delivered the webhook raises [InvalidStatusTransition] (the
    answer 400) to its caller instead of answering that the status was
    ignored; the batch importer, for its part, writes [sent]. *)
Lemma webhook_illegal_transition_raises :
  legal_transition (JStr "delivered") (JStr "sent") = false /\
  App.process_webhook_payload strict_socket (JStr t1) (status_event "m1" "sent")
    (server_of (messages_col delivered_run))
  = (server_of (messages_col delivered_run),
     Raise (InvalidStatusTransition (JStr "delivered") (JStr "sent"))) /\
  status_of (JStr "m1")
    (messages_col
       (ingest "status.json" t1 (JObj (status_event "m1" "sent")) delivered_run))
  = Some (JStr "sent").
Proof. vm_compute. repeat split. Qed.

(** C2, amended: for every StatusEvent that names a stored message and asks
    for a transition that is illegal under VALID_STATUS_TRANSITIONS, the
    webhook leaves the store and the emitted events as they were and raises
    to its caller: [InvalidStatusTransition] of the current and the
    requested status, or the answer 500 when the stored status is not
    hashable. *)
Theorem webhook_illegal_transition_is_refused
    (emit_fails : json -> bool)
    (now : json) (payload : dict) (s : App.server) (mid new : json) (cur : dict) :
  App.event_type_of payload = Ret "status" ->
  lookup "meta_msg_id" payload = Some mid ->
  lookup "status" payload = Some new ->
  find_one "meta_msg_id" mid (App.processed_messages s) = Some cur ->
  legal_transition (dict_get_default "status" (JStr "sent") cur) new = false ->
  App.process_webhook_payload emit_fails now payload s =
  (s, Raise (match App.transitions_get
                     (dict_get_default "status" (JStr "sent") cur) with
             | Ret _ =>
                 InvalidStatusTransition
                   (dict_get_default "status" (JStr "sent") cur) new
             | Raise _ => HTTPException 500 "Internal server error"
             end)).
Proof.
  intros T M N F L.
  unfold App.process_webhook_payload.
  rewrite (AppFacts.webhook_status_body emit_fails now payload s mid new T M N).
  unfold legal_transition in L.
  destruct (App.transitions_get (dict_get_default "status" (JStr "sent") cur))
    as [next|e] eqn:G.
  - rewrite (AppFacts.db_update_illegal mid new _ cur next F G L).
    cbn [App.is_http_exception]. now rewrite AppFacts.server_eta.
  - unfold App.db_update_message_status. rewrite F, G.
    assert (e = TypeError) as ->.
    { destruct (dict_get_default "status" (JStr "sent") cur);
        simpl in G; congruence. }
    cbn [App.is_http_exception]. now rewrite AppFacts.server_eta.
Qed.

Lemma webhook_illegal_transition_is_refused_witness :
  App.process_webhook_payload strict_socket (JStr t1) (status_event "m1" "sent")
    (server_of [stored_message "m1" "delivered"])
  = (server_of [stored_message "m1" "delivered"],
     Raise (InvalidStatusTransition (JStr "delivered") (JStr "sent"))).
Proof.
  apply (webhook_illegal_transition_is_refused strict_socket (JStr t1)
           (status_event "m1" "sent")
           (server_of [stored_message "m1" "delivered"])
           (JStr "m1") (JStr "sent") (stored_message "m1" "delivered"));
    reflexivity.
Defined.

(* ================================================================== *)
(** ** Idempotent insertion *)

(** C3, as stated, fails on the webhook: the second delivery of the same
    message meets the unique index and is answered with the generic 500
    "Database insert error", not with a duplicate outcome. *)
Lemma webhook_duplicate_is_generic_failure :
  App.process_webhook_payload strict_socket (JStr t2)
    (message_event "m1" "delivered")
    (fst (App.process_webhook_payload strict_socket (JStr t1)
            (message_event "m1" "delivered") (server_of [])))
  = (fst (App.process_webhook_payload strict_socket (JStr t1)
            (message_event "m1" "delivered") (server_of [])),
     Raise (HTTPException 500 "Database insert error")).
Proof. vm_compute. reflexivity. Qed.

(** C3, amended: for an identifier that is a string and an event whose
    stored fields are scalars, ingesting the same MessageEvent twice leaves
    exactly one stored record for its identifier in both paths.  In the
    batch importer the second ingest is the duplicate outcome (announced as
    a duplicate, counted as skipped, not as processed) and no uniqueness
    violation is met; in the webhook the second ingest meets the uniqueness
    violation, which surfaces as the generic 500 "Database insert
    error". *)
Theorem message_ingested_twice
    (emit_fails : json -> bool)
    (f1 f2 now1 now2 : string) (p : dict) (r : run) (mid : json) :
  is_message_event mid p ->
  is_string mid = true ->
  plain p = true ->
  count_documents "meta_msg_id" mid (messages_col r) <= 1 ->
  (count_documents "meta_msg_id" mid
     (messages_col (ingest f2 now2 (JObj p) (ingest f1 now1 (JObj p) r))) = 1 /\
   (exists rest,
      stdout (ingest f2 now2 (JObj p) (ingest f1 now1 (JObj p) r)) =
      stdout (ingest f1 now1 (JObj p) r) ++ SkipDuplicate mid :: rest) /\
   skipped (ingest f2 now2 (JObj p) (ingest f1 now1 (JObj p) r)) =
   S (skipped (ingest f1 now1 (JObj p) r)) /\
   processed (ingest f2 now2 (JObj p) (ingest f1 now1 (JObj p) r)) =
   processed (ingest f1 now1 (JObj p) r)) /\
  (forall (n1 n2 : json) (payload : dict) (s : App.server) (wa_id text : json),
     App.event_type_of payload = Ret "message" ->
     lookup "wa_id" payload = Some wa_id ->
     lookup "text" payload = Some text ->
     lookup "meta_msg_id" payload = Some mid ->
     plain payload = true ->
     App.processed_messages s = messages_col r ->
     count_documents "meta_msg_id" mid
       (App.processed_messages
          (fst (App.process_webhook_payload emit_fails n1 payload s))) = 1 /\
     App.process_webhook_payload emit_fails n2 payload
       (fst (App.process_webhook_payload emit_fails n1 payload s)) =
     (fst (App.process_webhook_payload emit_fails n1 payload s),
      Raise (HTTPException 500 "Database insert error"))).
Proof.
  intros E _ _ C. split.
  - pose proof (ingest_message_found f1 now1 p r mid E) as F.
    destruct (find_one "meta_msg_id" mid (messages_col (ingest f1 now1 (JObj p) r)))
      as [d|] eqn:Fd; [|congruence].
    destruct (ingest_message_duplicate f2 now2 p d _ mid E Fd) as (A & B & D).
    rewrite !ingest_message_count by exact E.
    repeat split; [lia | exact A | exact B | exact D].
  - intros n1 n2 payload s wa_id text T W X M _ S0.
    rewrite <- S0 in C.
    assert (forall n s0,
              App.process_webhook_payload emit_fails n payload s0 =
              (let (s', res) := App.webhook_message emit_fails n payload s0 in
               match res with
               | Ret v => (s', Ret v)
               | Raise e =>
                   if App.is_http_exception e then (s', Raise e)
                   else (s', Raise (HTTPException 500 "Internal server error"))
               end)) as PW.
    { intros n s0. unfold App.process_webhook_payload, App.webhook_body.
      rewrite T. cbn [String.eqb Ascii.eqb Bool.eqb].
      now destruct (App.webhook_message emit_fails n payload s0) as [s' [v|e]]. }
    destruct (AppFacts.webhook_message_store emit_fails n1 payload s wa_id text mid
                W X M) as (md1 & G1 & S1 & _).
    assert (App.processed_messages
              (fst (App.process_webhook_payload emit_fails n1 payload s)) =
            fst (App.db_insert_message n1 md1 (App.processed_messages s))) as S1'.
    { rewrite PW, <- S1.
      destruct (App.webhook_message emit_fails n1 payload s) as [s' [v|e]];
        [reflexivity|].
      now destruct (App.is_http_exception e). }
    destruct (AppFacts.db_insert_stored n1 md1 (App.processed_messages s))
      as [X1 C1].
    cbv zeta in X1, C1. rewrite G1 in X1, C1. rewrite <- S1' in X1, C1.
    split; [now apply C1|].
    set (s1 := fst (App.process_webhook_payload emit_fails n1 payload s)) in *.
    destruct (AppFacts.webhook_message_store emit_fails n2 payload s1 wa_id text mid
                W X M) as (md2 & G2 & _ & R2).
    rewrite <- G2 in X1.
    pose proof (AppFacts.db_insert_duplicate n2 md2 _ X1) as D2.
    rewrite PW, (R2 (HTTPException 500 "Database insert error"))
      by now rewrite D2.
    rewrite D2. cbn [fst App.is_http_exception].
    now rewrite AppFacts.server_eta.
Qed.

Lemma message_ingested_twice_witness :
  count_documents "meta_msg_id" (JStr "m1")
    (messages_col
       (ingest "b.json" t2 (JObj (message_event "m1" "delivered"))
          (ingest "a.json" t1 (JObj (message_event "m1" "delivered")) empty_run)))
  = 1.
Proof.
  apply (message_ingested_twice strict_socket "a.json" "b.json" t1 t2
           (message_event "m1" "delivered") empty_run (JStr "m1")).
  - repeat split.
  - reflexivity.
  - reflexivity.
  - vm_compute. lia.
Defined.

(* ================================================================== *)
(** ** Status events that arrive before their message *)

(** C5, as stated, fails on the webhook: a StatusEvent for an identifier
    that is not stored is answered with [MessageNotFound] (404) and nothing
    is buffered. *)
Lemma webhook_unknown_message_is_not_found :
  App.process_webhook_payload strict_socket (JStr t1)
    (status_event "m1" "delivered") (server_of [])
  = (server_of [], Raise MessageNotFound).
Proof. vm_compute. reflexivity. Qed.

(** C5, amended: for every StatusEvent whose identifier is a string that
    matches no stored message and whose status is a scalar, the batch
    importer leaves the messages alone, upserts the pending entry of that
    identifier with the requested status (whatever was pending before, and
    without adding a second entry), prints the pending line, counts the
    event as processed and reports no error; the webhook, given the same
    event on the same messages, buffers nothing and raises
    [MessageNotFound]. *)
Theorem status_for_unseen_message
    (emit_fails : json -> bool)
    (f now : string) (p : dict) (r : run) (mid st : json) :
  is_status_event mid st p ->
  is_string mid = true ->
  plain p = true ->
  find_one "meta_msg_id" mid (messages_col r) = None ->
  (messages_col (ingest f now (JObj p) r) = messages_col r /\
   pending_of mid (pending_col (ingest f now (JObj p) r)) = Some st /\
   count_documents "meta_msg_id" mid (pending_col (ingest f now (JObj p) r)) =
   Nat.max 1 (count_documents "meta_msg_id" mid (pending_col r)) /\
   stdout (ingest f now (JObj p) r) = stdout r ++ [PendingStored st mid] /\
   processed (ingest f now (JObj p) r) = S (processed r) /\
   skipped (ingest f now (JObj p) r) = skipped r /\
   errors (ingest f now (JObj p) r) = errors r) /\
  (forall (n : json) (payload : dict) (s : App.server),
     App.event_type_of payload = Ret "status" ->
     lookup "meta_msg_id" payload = Some mid ->
     lookup "status" payload = Some st ->
     App.processed_messages s = messages_col r ->
     App.process_webhook_payload emit_fails n payload s =
     (s, Raise MessageNotFound)).
Proof.
  intros E _ _ F. split.
  - rewrite (ingest_status_buffered f now p r mid st E) by now right.
    cbn [incr_processed print with_pending messages_col pending_col stdout
         processed skipped errors].
    rewrite pending_of_upsert, upsert_count by apply keeps_pending.
    repeat split.
  - intros n payload s T M N S0.
    unfold App.process_webhook_payload.
    rewrite (AppFacts.webhook_status_body emit_fails n payload s mid st T M N).
    rewrite AppFacts.db_update_unknown by now rewrite S0.
    cbn [App.is_http_exception]. now rewrite AppFacts.server_eta.
Qed.

Lemma status_for_unseen_message_witness :
  pending_of (JStr "m1")
    (pending_col
       (ingest "status.json" t1 (JObj (status_event "m1" "read"))
          sent_waiting_run))
  = Some (JStr "read").
Proof.
  apply (status_for_unseen_message strict_socket "status.json" t1
           (status_event "m1" "read") sent_waiting_run (JStr "m1") (JStr "read")).
  - repeat split.
  - reflexivity.
  - reflexivity.
  - reflexivity.
Defined.

(** C6: a StatusEvent(read) for an identifier X (a string) without message
    record is buffered; the MessageEvent for X that follows makes the stored
    status of X read and leaves no pending entry for X; a second identical
    MessageEvent applies no status: it changes neither collection and
    prints only the duplicate line.  (The stored fields of the two events
    are scalars, and the pending buffer holds at most one entry per
    identifier, as the data model has it.) *)
Theorem buffer_drains_once
    (f1 f2 f3 now1 now2 now3 : string) (ps pm : dict) (r : run) (mid : json) :
  is_status_event mid (JStr "read") ps ->
  is_message_event mid pm ->
  is_string mid = true ->
  plain ps = true ->
  plain pm = true ->
  find_one "meta_msg_id" mid (messages_col r) = None ->
  count_documents "meta_msg_id" mid (pending_col r) <= 1 ->
  stdout (ingest f1 now1 (JObj ps) r) =
    stdout r ++ [PendingStored (JStr "read") mid] /\
  status_of mid
    (messages_col (ingest f2 now2 (JObj pm) (ingest f1 now1 (JObj ps) r))) =
    Some (JStr "read") /\
  find_one "meta_msg_id" mid
    (pending_col (ingest f2 now2 (JObj pm) (ingest f1 now1 (JObj ps) r))) = None /\
  ingest f3 now3 (JObj pm)
    (ingest f2 now2 (JObj pm) (ingest f1 now1 (JObj ps) r)) =
  incr_skipped
    (print (SkipDuplicate mid)
       (ingest f2 now2 (JObj pm) (ingest f1 now1 (JObj ps) r))).
Proof.
  intros Es Em Sid _ _ F C.
  assert (stdout (ingest f1 now1 (JObj ps) r) =
          stdout r ++ [PendingStored (JStr "read") mid]) as O1
    by now rewrite (ingest_status_buffered f1 now1 ps r mid _ Es (or_intror F)).
  pose proof (buffered_status_waits f1 now1 ps r mid _ Es (or_intror F)) as P1.
  assert (count_documents "meta_msg_id" mid
            (pending_col (ingest f1 now1 (JObj ps) r)) <= 1) as C1.
  { apply ingest_keeps_pending_unique; [|exact C].
    now apply (status_event_named ps mid (JStr "read")). }
  set (r1 := ingest f1 now1 (JObj ps) r) in *.
  destruct (ingest_message_applies f2 now2 pm r1 mid (JStr "read") Em P1)
    as (S2 & P2 & _).
  set (r2 := ingest f2 now2 (JObj pm) r1) in *.
  assert (find_one "meta_msg_id" mid (pending_col r2) = None) as N2.
  { rewrite P2. now apply delete_one_find. }
  repeat split; try assumption.
  pose proof (status_of_found _ _ _ S2) as F2.
  destruct (find_one "meta_msg_id" mid (messages_col r2)) as [d|] eqn:Fd;
    [|congruence].
  now apply (ingest_message_duplicate_quiet f3 now3 pm d r2 mid).
Qed.

Lemma buffer_drains_once_witness :
  status_of (JStr "m1")
    (messages_col
       (ingest "b.json" t2 (JObj (message_event "m1" "delivered"))
          (ingest "a.json" t1 (JObj (status_event "m1" "read")) empty_run)))
  = Some (JStr "read").
Proof.
  apply (buffer_drains_once "a.json" "b.json" "c.json" t1 t2 t3
           (status_event "m1" "read") (message_event "m1" "delivered")
           empty_run (JStr "m1")).
  - repeat split.
  - repeat split.
  - reflexivity.
  - reflexivity.
  - reflexivity.
  - reflexivity.
  - vm_compute. lia.
Defined.

(** C10: the batch importer takes [modified_count > 0] for "the message
    exists".  A StatusEvent that asks for the status which a stored message
    already has modifies nothing, so it upserts a pending entry for that
    identifier: a pending entry then exists for a message that is stored.
    The next duplicate MessageEvent for the identifier applies it and
    removes one entry; and the entry is applied by a write: when another
    status was stored in between, the duplicate MessageEvent writes the
    pending status over it.  (The identifier is a string and the stored
    fields of the events are scalars.) *)
Theorem repeated_status_is_buffered
    (f1 f2 f3 now1 now2 now3 : string) (ps ps' pm : dict) (r : run)
    (mid st st' : json) :
  is_status_event mid st ps ->
  is_status_event mid st' ps' ->
  is_message_event mid pm ->
  is_string mid = true ->
  plain ps = true ->
  plain ps' = true ->
  plain pm = true ->
  status_of mid (messages_col r) = Some st ->
  st' <> st ->
  let r1 := ingest f1 now1 (JObj ps) r in
  let r2 := ingest f2 now2 (JObj ps') r1 in
  modified_count
    (snd (update_one "meta_msg_id" mid [("status", st)] (messages_col r))) = 0 /\
  messages_col r1 = messages_col r /\
  find_one "meta_msg_id" mid (messages_col r1) <> None /\
  pending_of mid (pending_col r1) = Some st /\
  stdout r1 = stdout r ++ [PendingStored st mid] /\
  stdout (ingest f3 now3 (JObj pm) r1) =
    stdout r1 ++ [SkipDuplicate mid; AppliedPending st mid] /\
  pending_col (ingest f3 now3 (JObj pm) r1) =
    delete_one "meta_msg_id" mid (pending_col r1) /\
  status_of mid (messages_col (ingest f3 now3 (JObj pm) r1)) = Some st /\
  status_of mid (messages_col r2) = Some st' /\
  stdout r2 = stdout r1 ++ [Updated mid st'] /\
  pending_of mid (pending_col r2) = Some st /\
  stdout (ingest f3 now3 (JObj pm) r2) =
    stdout r2 ++ [SkipDuplicate mid; AppliedPending st mid] /\
  pending_col (ingest f3 now3 (JObj pm) r2) =
    delete_one "meta_msg_id" mid (pending_col r2) /\
  status_of mid (messages_col (ingest f3 now3 (JObj pm) r2)) = Some st.
Proof.
  intros Es Es' Em _ _ _ _ H N. cbv zeta.
  pose proof (status_of_found _ _ _ H) as F.
  assert (modified_count
            (snd (update_one "meta_msg_id" mid [("status", st)] (messages_col r)))
          = 0) as M0 by (apply status_modified_zero; now left).
  assert (ingest f1 now1 (JObj ps) r =
          incr_processed
            (print (PendingStored st mid)
               (with_pending
                  (fst (update_one_upsert "meta_msg_id" mid
                          [("new_status", st); ("received_at", JStr now1)]
                          (pending_col r))) r))) as R1
    by (apply (ingest_status_buffered f1 now1 ps r mid st Es); now left).
  assert (messages_col (ingest f1 now1 (JObj ps) r) = messages_col r) as M1
    by now rewrite R1.
  assert (pending_of mid (pending_col (ingest f1 now1 (JObj ps) r)) = Some st) as P1.
  { rewrite R1. cbn [incr_processed print with_pending pending_col].
    apply pending_of_upsert. }
  set (r1 := ingest f1 now1 (JObj ps) r) in *.
  destruct (ingest_message_applies f3 now3 pm r1 mid st Em P1) as (S3 & P3 & O3).
  assert (find_one "meta_msg_id" mid (messages_col r1) <> None) as F1
    by now rewrite M1.
  assert (status_of mid (messages_col r1) <> Some st') as Q1.
  { rewrite M1, H. intros [= X]. now apply N. }
  pose proof (ingest_status_updated f2 now2 ps' r1 mid st' Es' F1 Q1) as R2.
  set (r2 := ingest f2 now2 (JObj ps') r1) in *.
  assert (status_of mid (messages_col r2) = Some st') as S2.
  { rewrite R2. cbn [incr_processed print with_messages messages_col].
    rewrite status_of_update.
    now destruct (find_one "meta_msg_id" mid (messages_col r1)). }
  assert (pending_of mid (pending_col r2) = Some st) as P2
    by now rewrite R2.
  destruct (ingest_message_applies f3 now3 pm r2 mid st Em P2) as (S4 & P4 & O4).
  pose proof (status_of_found _ _ _ S2) as F2.
  destruct (find_one "meta_msg_id" mid (messages_col r1)) as [d1|] eqn:Fd1;
    [|congruence].
  destruct (find_one "meta_msg_id" mid (messages_col r2)) as [d2|] eqn:Fd2;
    [|congruence].
  repeat split; try assumption.
  - now rewrite R1.
  - now rewrite R2.
Qed.

Lemma repeated_status_is_buffered_witness :
  status_of (JStr "m1")
    (messages_col
       (ingest "c.json" t3 (JObj (message_event "m1" "delivered"))
          (ingest "b.json" t2 (JObj (status_event "m1" "read"))
             (ingest "a.json" t1 (JObj (status_event "m1" "delivered"))
                delivered_run))))
  = Some (JStr "delivered").
Proof.
  apply (repeated_status_is_buffered "a.json" "b.json" "c.json" t1 t2 t3
           (status_event "m1" "delivered") (status_event "m1" "read")
           (message_event "m1" "delivered")
           delivered_run (JStr "m1") (JStr "delivered") (JStr "read")).
  - repeat split.
  - repeat split.
  - repeat split.
  - reflexivity.
  - reflexivity.
  - reflexivity.
  - reflexivity.
  - reflexivity.
  - discriminate.
Defined.




(** With another status waiting the orders differ as well: with [m1]
    stored as sent and [read] waiting for it, the status first ends in
    read, the message first ends in delivered. *)
Example stale_pending_breaks_commutation :
  status_of (JStr "m1")
    (messages_col
       (ingest "b.json" t2 (JObj (message_event "m1" "sent"))
          (ingest "a.json" t1 (JObj (status_event "m1" "delivered"))
             (run_of [stored_message "m1" "sent"] [pending_entry "m1" "read"]))))
  = Some (JStr "read") /\
  status_of (JStr "m1")
    (messages_col
       (ingest "a.json" t2 (JObj (status_event "m1" "delivered"))
          (ingest "b.json" t1 (JObj (message_event "m1" "sent"))
             (run_of [stored_message "m1" "sent"] [pending_entry "m1" "read"]))))
  = Some (JStr "delivered").
Proof. vm_compute. split; reflexivity. Qed.

(* ================================================================== *)
(** ** The normalizer *)

(** Structural failures of the envelope, one by one: an empty [entry]
    array, a missing [changes] key, an [entry] that is not a list of
    dicts, a [messages] value of the wrong type, an empty [messages]
    array without statuses. *)
Example normalize_empty_entry :
  normalize_webhook_payload epoch_iso t1 empty_entry_envelope =
  (Ret JNull, [WarnParseError IndexError]).
Proof. reflexivity. Qed.

Example normalize_missing_changes :
  normalize_webhook_payload epoch_iso t1
    (JObj [("metaData", JObj [("entry", JArr [JObj [("id", JStr "e1")]])])]) =
  (Ret JNull, [WarnParseError IndexError]).
Proof. reflexivity. Qed.

Example normalize_entry_of_wrong_type :
  normalize_webhook_payload epoch_iso t1
    (JObj [("metaData", JObj [("entry", JStr "entries")])]) =
  (Ret JNull, [WarnParseError AttributeError]).
Proof. reflexivity. Qed.

Example normalize_messages_of_wrong_type :
  normalize_webhook_payload epoch_iso t1
    (envelope (JObj [("messages", JNum 7)])) =
  (Ret JNull, [WarnParseError TypeError]).
Proof. reflexivity. Qed.

Example normalize_empty_messages :
  normalize_webhook_payload epoch_iso t1
    (envelope (JObj [("messages", JArr [])])) =
  (Ret JNull, []).
Proof. reflexivity. Qed.

(** C8: every raw payload is normalized without an exception; when the
    parsing of the provider envelope raises, whatever the exception, the
    result is [None] (Unrecognized); a file with an unrecognized payload is
    counted as skipped, touches no collection, and the loop goes on with
    the files that follow; the loop over any list of files reaches its
    end. *)
Theorem malformed_payload_is_unrecognized
    (fromtimestamp_iso : json -> option string) (now : string) (raw : json) :
  (exists v, fst (normalize_webhook_payload fromtimestamp_iso now raw) = Ret v) /\
  (forall (d : dict) (meta : json) (e : pyexn),
     raw = JObj d ->
     in_strs (dict_get "type" d) ["message"; "status"] = false ->
     envelope_of raw = Ret meta ->
     truthy meta = true ->
     parse_envelope fromtimestamp_iso now meta = Raise e ->
     normalize_webhook_payload fromtimestamp_iso now raw =
     (Ret JNull, [WarnParseError e])) /\
  (forall (name : string) (rest : list file) (r : run),
     fst (normalize_webhook_payload fromtimestamp_iso now raw) = Ret JNull ->
     exists r1,
       process_file fromtimestamp_iso (mkFile name (Some raw) now) r = Ret r1 /\
       messages_col r1 = messages_col r /\ pending_col r1 = pending_col r /\
       processed r1 = processed r /\ skipped r1 = S (skipped r) /\
       errors r1 = errors r /\
       process_files fromtimestamp_iso (mkFile name (Some raw) now :: rest) r =
       process_files fromtimestamp_iso rest r1) /\
  (forall (files : list file) (r : run),
     exists r', process_files fromtimestamp_iso files r = Ret r').
Proof.
  split; [apply normalize_returns|].
  split; [|split].
  - intros d meta e -> T M Y P. now apply normalize_failure with (meta := meta).
  - intros name rest r N.
    destruct (process_file_unrecognized fromtimestamp_iso name now raw r N)
      as (r1 & R & A & B & C & D & E).
    exists r1. repeat split; try assumption.
    cbn [process_files]. now rewrite R.
  - apply process_files_returns.
Qed.

Lemma malformed_payload_is_unrecognized_witness :
  normalize_webhook_payload epoch_iso t1 empty_entry_envelope =
  (Ret JNull, [WarnParseError IndexError]) /\
  exists r1,
    process_file epoch_iso (mkFile "bad.json" (Some empty_entry_envelope) t1)
      empty_run = Ret r1 /\
    messages_col r1 = messages_col empty_run /\
    pending_col r1 = pending_col empty_run /\
    processed r1 = processed empty_run /\
    skipped r1 = S (skipped empty_run) /\
    errors r1 = errors empty_run /\
    process_files epoch_iso
      (mkFile "bad.json" (Some empty_entry_envelope) t1 ::
       [mkFile "good.json" (Some (JObj (message_event "m1" "sent"))) t2])
      empty_run =
    process_files epoch_iso
      [mkFile "good.json" (Some (JObj (message_event "m1" "sent"))) t2] r1.
Proof.
  destruct (malformed_payload_is_unrecognized epoch_iso t1 empty_entry_envelope)
    as (_ & F & S & _).
  split.
  - apply (F [("metaData", JObj [("entry", JArr [])])]
             (JObj [("entry", JArr [])]) IndexError); reflexivity.
  - apply S. reflexivity.
Defined.

(** C9, as stated, fails: the status that the source message carries is not
    read; a provider message that says read is normalized to delivered. *)
Lemma normalize_ignores_source_status :
  normalize_webhook_payload epoch_iso t1 (envelope read_message_value) =
  (Ret (JObj [("type", JStr "message");
              ("wa_id", JStr "c9");
              ("meta_msg_id", JStr "m9");
              ("text", JStr "hello");
              ("timestamp", JStr "1970-01-01T00:00:00+00:00");
              ("direction", JStr "inbound");
              ("status", JStr "delivered")]), []).
Proof. reflexivity. Qed.

(** C9, amended: for every provider envelope whose [value.messages] is a
    non-empty array that starts with an object (and whose [contacts] are
    missing, falsy or an array that starts with an object), the normalizer
    returns a message event whose direction is inbound and whose status is
    delivered, whatever status the source message carries. *)
Theorem envelope_message_is_inbound_delivered
    (fromtimestamp_iso : json -> option string) (now : string)
    (d value msg : dict) (meta entry change : json)
    (entries changes more : list json) :
  in_strs (dict_get "type" d) ["message"; "status"] = false ->
  envelope_of (JObj d) = Ret meta ->
  truthy meta = true ->
  py_get_default "entry" (JArr []) meta = Ret (JArr (entry :: entries)) ->
  py_get_default "changes" (JArr []) entry = Ret (JArr (change :: changes)) ->
  py_get_default "value" (JObj []) change = Ret (JObj value) ->
  dict_get "messages" value = JArr (JObj msg :: more) ->
  (truthy (dict_get_default "contacts" (JArr []) value) = false \/
   exists c rest,
     dict_get_default "contacts" (JArr []) value = JArr (JObj c :: rest)) ->
  exists ev,
    normalize_webhook_payload fromtimestamp_iso now (JObj d) = (Ret (JObj ev), []) /\
    lookup "type" ev = Some (JStr "message") /\
    lookup "direction" ev = Some (JStr "inbound") /\
    lookup "status" ev = Some (JStr "delivered").
Proof.
  intros T M Y He Hc Hv Hm Hk.
  destruct (inbound_message_ok fromtimestamp_iso now value msg more Hm Hk)
    as (wa_id & mid & text & ts & I).
  eexists. split.
  - unfold normalize_webhook_payload. cbn [isinstance_dict negb py_get].
    rewrite T, M, Y. unfold parse_envelope.
    rewrite He. cbn [bind py_index0]. rewrite Hc. cbn [bind py_index0].
    rewrite Hv. cbn [bind py_get]. rewrite Hm. cbn [truthy].
    rewrite I. cbn [bind]. reflexivity.
  - repeat split.
Qed.

Lemma envelope_message_is_inbound_delivered_witness :
  exists ev,
    normalize_webhook_payload epoch_iso t1 (envelope read_message_value) =
    (Ret (JObj ev), []) /\
    lookup "type" ev = Some (JStr "message") /\
    lookup "direction" ev = Some (JStr "inbound") /\
    lookup "status" ev = Some (JStr "delivered").
Proof.
  apply (envelope_message_is_inbound_delivered epoch_iso t1
           [("metaData",
             JObj [("entry",
                    JArr [JObj [("changes",
                                 JArr [JObj [("value", read_message_value)]])]])])]
           [("messages",
             JArr [JObj [("id", JStr "m9"); ("status", JStr "read");
                         ("timestamp", JStr "1700000000");
                         ("text", JObj [("body", JStr "hello")])]]);
            ("contacts", JArr [JObj [("wa_id", JStr "c9")]])]
           [("id", JStr "m9"); ("status", JStr "read");
            ("timestamp", JStr "1700000000");
            ("text", JObj [("body", JStr "hello")])]
           (JObj [("entry",
                   JArr [JObj [("changes",
                                JArr [JObj [("value", read_message_value)]])]])])
           (JObj [("changes", JArr [JObj [("value", read_message_value)]])])
           (JObj [("value", read_message_value)])
           [] [] []);
    try reflexivity.
  right. eexists. eexists. reflexivity.
Defined.

(* ================================================================== *)
(** ** More facts about the collections *)

Module CollectionFacts.
Import Py Mongo Observe Invariants PyFacts MongoFacts.

#[local] Arguments json_eqb : simpl never.

Lemma existsb_false_find (key : string) (v : json) (c : collection) :
  existsb (matches key v) c = false -> find_one key v c = None.
Proof.
  unfold find_one.
  induction c as [|x c IH]; simpl; [reflexivity|].
  destruct (matches key v x); simpl; [discriminate | exact IH].
Qed.

(** A document whose key is a string is matched by that string only. *)
Lemma matches_string_value (key : string) (v : json) (d : dict) :
  is_string (dict_get key d) = true ->
  matches key v d = true -> v = dict_get key d.
Proof.
  unfold dict_get, matches.
  destruct (lookup key d) as [[| | |s| |]|]; try discriminate.
  intros _ E. symmetry. now apply json_eqb_eq.
Qed.

(** The unique index: an insert that is accepted adds one document, and a
    document that is named by a string keeps every key unique. *)
Lemma insert_one_unique_count (key : string) (v : json) (d : dict)
    (c c' : collection) :
  insert_one_unique key d c = Ret c' ->
  count_documents key v c' =
  count_documents key v c + (if matches key v d then 1 else 0) /\
  (is_string (dict_get key d) = true ->
   matches key v d = true -> count_documents key v c = 0).
Proof.
  unfold insert_one_unique.
  destruct (existsb (matches key (dict_get key d)) c) eqn:X; [discriminate|].
  intros [= <-]. split; [apply count_app|].
  intros Sd M.
  rewrite (matches_string_value key v d Sd M).
  apply count_zero_find. now apply existsb_false_find.
Qed.

Lemma insert_one_unique_length (key : string) (d : dict) (c c' : collection) :
  insert_one_unique key d c = Ret c' -> List.length c' = S (List.length c).
Proof.
  unfold insert_one_unique.
  destruct (existsb _ c); [discriminate|].
  intros [= <-]. rewrite length_app. simpl. lia.
Qed.

Lemma update_one_length (key : string) (v : json) (sets : dict) (c : collection) :
  List.length (fst (update_one key v sets c)) = List.length c.
Proof.
  induction c as [|x c IH]; simpl; [reflexivity|].
  destruct (matches key v x).
  - now destruct (json_eqb (JObj (apply_set sets x)) (JObj x)).
  - destruct (update_one key v sets c) as [c' res]. simpl in *. now rewrite IH.
Qed.

(** A property of the documents that [$set] keeps is kept by the update. *)
Lemma update_one_Forall (P : dict -> Prop) (key : string) (v : json) (sets : dict)
    (c : collection) :
  (forall d, P d -> P (apply_set sets d)) ->
  Forall P c -> Forall P (fst (update_one key v sets c)).
Proof.
  intros K. induction 1 as [|x c Hx Hc IH]; simpl; [constructor|].
  destruct (matches key v x).
  - destruct (json_eqb (JObj (apply_set sets x)) (JObj x)); simpl;
      constructor; auto.
  - destruct (update_one key v sets c) as [c' res]. simpl in *.
    constructor; auto.
Qed.

Lemma delete_one_Forall (P : dict -> Prop) (key : string) (v : json)
    (c : collection) :
  Forall P c -> Forall P (delete_one key v c).
Proof.
  induction 1 as [|x c Hx Hc IH]; simpl; [constructor|].
  destruct (matches key v x); [assumption | constructor; assumption].
Qed.

Lemma upsert_Forall (P : dict -> Prop) (key : string) (v : json) (sets : dict)
    (c : collection) :
  (forall d, P d -> P (apply_set sets d)) ->
  P (apply_set sets [(key, v)]) ->
  Forall P c -> Forall P (fst (update_one_upsert key v sets c)).
Proof.
  intros K N F. unfold update_one_upsert.
  pose proof (update_one_Forall P key v sets c K F) as U.
  destruct (update_one key v sets c) as [c' res]. cbn [fst] in U.
  destruct (matched_count res); cbn [fst]; [|exact U].
  unfold insert_one. apply Forall_app. split; [exact F|].
  constructor; [exact N | constructor].
Qed.

Lemma find_one_In (key : string) (v : json) (c : collection) (d : dict) :
  find_one key v c = Some d -> In d c.
Proof. unfold find_one. intros H. apply find_some in H. tauto. Qed.

(** The document that a filter finds after an update for any filter is the
    one that it found before, rewritten when it is the one that the update
    found. *)
Lemma update_one_find_any (key : string) (v v' : json) (sets : dict)
    (c : collection) :
  keeps key sets ->
  find_one key v (fst (update_one key v' sets c)) = find_one key v c \/
  exists d,
    find_one key v c = Some d /\ find_one key v' c = Some d /\
    find_one key v (fst (update_one key v' sets c)) = Some (apply_set sets d).
Proof.
  intros K. unfold find_one.
  induction c as [|x c IH]; simpl; [now left|].
  destruct (matches key v' x) eqn:M'.
  - destruct (json_eqb (JObj (apply_set sets x)) (JObj x)); simpl;
      [now left|].
    rewrite (matches_apply_set key v sets x K).
    destruct (matches key v x); [|now left].
    right. exists x. auto.
  - destruct (update_one key v' sets c) as [c' res]. simpl in *.
    destruct (matches key v x); [now left | exact IH].
Qed.

End CollectionFacts.

(* ================================================================== *)
(** ** Invariants of the batch importer *)

Module BatchFacts.
Import Py Mongo Processor Observe Invariants.
Import PyFacts MongoFacts ProcessorFacts NormalizerFacts CollectionFacts.

#[local] Arguments json_eqb : simpl never.

(** Projections of a run that was only printed to or counted on. *)
Ltac calm :=
  cbn [fst snd messages_col pending_col processed skipped errors stdout
       incr_errors print incr_skipped incr_processed with_messages with_pending]
    in *.

(** The sum of the three counters of a run. *)
Lemma counters_print (l : line) (r : run) :
  processed (print l r) + skipped (print l r) + errors (print l r) =
  processed r + skipped r + errors r.
Proof. reflexivity. Qed.

(** One event: no message is lost and no identifier is stored twice. *)
Lemma ingest_messages_step (f now : string) (payload : json) (r : run) (v : json) :
  count_documents "meta_msg_id" v (messages_col r) <=
  count_documents "meta_msg_id" v (messages_col (ingest f now payload r)) /\
  (string_identified payload = true ->
   count_documents "meta_msg_id" v (messages_col r) <= 1 ->
   count_documents "meta_msg_id" v (messages_col (ingest f now payload r)) <= 1).
Proof.
  unfold ingest, process_payload.
  destruct (py_getitem "type" payload) as [ty|e]; [|calm; lia].
  destruct payload as [| | | |items|p]; try (calm; lia).
  destruct (is_str "message" ty).
  - unfold process_message. cbn [string_identified].
    destruct (truthy (dict_get "meta_msg_id" p)) eqn:Tr; cbn [negb orb];
      [|calm; lia].
    destruct (find_one "meta_msg_id" (dict_get "meta_msg_id" p) (messages_col r)).
    + pose proof (apply_pending_count (dict_get "meta_msg_id" p) v
                    (incr_skipped
                       (print (SkipDuplicate (dict_get "meta_msg_id" p)) r))) as L.
      destruct (apply_pending _ _) as [r' [e|]];
        calm; lia.
    + destruct (insert_one_unique _ _ _) as [msgs|e] eqn:I; [|calm; lia].
      destruct (insert_one_unique_count _ v _ _ _ I) as [A B].
      pose proof (apply_pending_count (dict_get "meta_msg_id" p) v
                    (incr_processed
                       (print (Inserted (dict_get "meta_msg_id" p))
                          (with_messages msgs r)))) as L.
      destruct (apply_pending _ _) as [r' [e|]];
        calm;
        (split; [destruct (matches "meta_msg_id" v _); lia|]);
        intros Sid C; specialize (B Sid);
        (destruct (matches "meta_msg_id" v _);
         [specialize (B eq_refl) |]; lia).
  - destruct (is_str "status" ty); [|calm; lia].
    unfold process_status.
    destruct (negb (truthy (dict_get "meta_msg_id" p))); [calm; lia|].
    pose proof (update_one_count "meta_msg_id" "meta_msg_id"
                  (dict_get "meta_msg_id" p) v
                  [("status", dict_get "status" p)] (messages_col r)
                  (keeps_status _)) as U.
    destruct (update_one _ _ _ _) as [msgs result]. cbn [fst] in U.
    destruct (Nat.ltb 0 (modified_count result)); calm; lia.
Qed.

(** With a well-formed pending buffer the drain raises nothing. *)
Lemma apply_pending_well_formed (mid : json) (r : run) :
  pending_well_formed (pending_col r) ->
  exists r',
    apply_pending mid r = (r', None) /\
    pending_well_formed (pending_col r') /\
    processed r' = processed r /\ skipped r' = skipped r /\ errors r' = errors r.
Proof.
  intros W. unfold apply_pending.
  destruct (find_one "meta_msg_id" mid (pending_col r)) as [pd|] eqn:F.
  - assert (lookup "new_status" pd <> None) as L.
    { unfold pending_well_formed in W. rewrite Forall_forall in W.
      apply W. now apply (find_one_In "meta_msg_id" mid). }
    unfold dict_getitem. destruct (lookup "new_status" pd) as [st|]; [|congruence].
    eexists. split; [reflexivity|].
    cbn [print with_pending with_messages pending_col processed skipped errors].
    repeat split. now apply delete_one_Forall.
  - exists r. repeat split. exact W.
Qed.

(** One event: with a well-formed pending buffer exactly one counter goes
    up by one, and the buffer stays well-formed. *)
Lemma ingest_counts (f now : string) (payload : json) (r : run) :
  pending_well_formed (pending_col r) ->
  pending_well_formed (pending_col (ingest f now payload r)) /\
  processed (ingest f now payload r) + skipped (ingest f now payload r) +
  errors (ingest f now payload r) =
  S (processed r + skipped r + errors r).
Proof.
  intros W. unfold ingest, process_payload.
  destruct (py_getitem "type" payload) as [ty|e]; [|split; [exact W | calm; lia]].
  destruct payload as [| | | |items|p]; try (split; [exact W | calm; lia]).
  destruct (is_str "message" ty).
  - unfold process_message.
    destruct (negb (truthy (dict_get "meta_msg_id" p)));
      [split; [exact W | calm; lia]|].
    destruct (find_one "meta_msg_id" (dict_get "meta_msg_id" p) (messages_col r)).
    + destruct (apply_pending_well_formed (dict_get "meta_msg_id" p)
                  (incr_skipped
                     (print (SkipDuplicate (dict_get "meta_msg_id" p)) r)) W)
        as (r' & -> & W' & A & B & C).
      split; [exact W'|]. rewrite A, B, C. calm. lia.
    + destruct (insert_one_unique _ _ _) as [msgs|e];
        [|split; [exact W | calm; lia]].
      destruct (apply_pending_well_formed (dict_get "meta_msg_id" p)
                  (incr_processed
                     (print (Inserted (dict_get "meta_msg_id" p))
                        (with_messages msgs r))) W)
        as (r' & -> & W' & A & B & C).
      split; [exact W'|]. rewrite A, B, C. calm. lia.
  - destruct (is_str "status" ty); [|split; [exact W | calm; lia]].
    unfold process_status.
    destruct (negb (truthy (dict_get "meta_msg_id" p)));
      [split; [exact W | calm; lia]|].
    destruct (update_one _ _ _ _) as [msgs result].
    destruct (Nat.ltb 0 (modified_count result));
      [split; [exact W | calm; lia]|].
    split; [|calm; lia].
    cbn [incr_processed print with_pending with_messages pending_col].
    apply upsert_Forall; [| |exact W].
    + intros d _. simpl. rewrite lookup_dict_set_other by discriminate.
      rewrite lookup_dict_set_same. discriminate.
    + simpl. discriminate.
Qed.

Section Loop.

Variable fromtimestamp_iso : json -> option string.

(** One file of the batch: what the four invariants say about it. *)
Lemma process_file_step (f : file) (r : run) :
  exists r',
    process_file fromtimestamp_iso f r = Ret r' /\
    (forall v, count_documents "meta_msg_id" v (messages_col r) <=
               count_documents "meta_msg_id" v (messages_col r')) /\
    (names_strings fromtimestamp_iso f = true ->
     unique_ids (messages_col r) -> unique_ids (messages_col r')) /\
    (names_strings fromtimestamp_iso f = true ->
     unique_ids (pending_col r) -> unique_ids (pending_col r')) /\
    (pending_well_formed (pending_col r) ->
     pending_well_formed (pending_col r') /\
     processed r' + skipped r' + errors r' =
     S (processed r + skipped r + errors r)).
Proof.
  unfold process_file, names_strings.
  destruct (loaded f) as [raw|].
  2:{ eexists. split; [reflexivity|]. calm. repeat split; auto; lia. }
  destruct (normalize_returns fromtimestamp_iso (clock f) raw) as [v Hv].
  destruct (normalize_webhook_payload fromtimestamp_iso (clock f) raw) as [res w].
  simpl in Hv. subst res. cbn [fst].
  destruct (print_all_store w r) as (A & B & C & D & E).
  set (r0 := fold_left (fun acc l => print l acc) w r) in *.
  destruct (negb (truthy v)).
  - eexists. split; [reflexivity|].
    cbn [incr_skipped print messages_col pending_col processed skipped errors].
    rewrite A, B, C, D, E. repeat split; auto; lia.
  - eexists. split; [reflexivity|].
    split; [|split; [|split]].
    + intros x. rewrite <- A. apply ingest_messages_step.
    + intros Sid U x. apply ingest_messages_step; [exact Sid|].
      rewrite A. apply U.
    + intros Sid U x. apply ingest_keeps_pending_unique; [exact Sid|].
      rewrite B. apply U.
    + intros W. rewrite <- B in W.
      destruct (ingest_counts (basename f) (clock f) v r0 W) as [W' S'].
      split; [exact W'|]. rewrite S', C, D, E. reflexivity.
Qed.

(** The whole loop. *)
Lemma process_files_steps (files : list file) (r : run) :
  exists r',
    process_files fromtimestamp_iso files r = Ret r' /\
    (forall v, count_documents "meta_msg_id" v (messages_col r) <=
               count_documents "meta_msg_id" v (messages_col r')) /\
    (forallb (names_strings fromtimestamp_iso) files = true ->
     unique_ids (messages_col r) -> unique_ids (messages_col r')) /\
    (forallb (names_strings fromtimestamp_iso) files = true ->
     unique_ids (pending_col r) -> unique_ids (pending_col r')) /\
    (pending_well_formed (pending_col r) ->
     pending_well_formed (pending_col r') /\
     processed r' + skipped r' + errors r' =
     List.length files + (processed r + skipped r + errors r)).
Proof.
  revert r. induction files as [|f files IH]; intros r.
  - exists r. cbn [process_files List.length]. repeat split; auto.
  - destruct (process_file_step f r) as (r1 & R1 & M1 & U1 & P1 & W1).
    destruct (IH r1) as (r2 & R2 & M2 & U2 & P2 & W2).
    exists r2. cbn [process_files]. rewrite R1. cbn [bind].
    split; [exact R2|]. split; [|split; [|split]].
    + intros v. specialize (M1 v). specialize (M2 v). lia.
    + cbn [forallb]. intros Sid. apply andb_prop in Sid as [S1 S2]. auto.
    + cbn [forallb]. intros Sid. apply andb_prop in Sid as [S1 S2]. auto.
    + intros W. destruct (W1 W) as [W1' S1]. destruct (W2 W1') as [W2' S2].
      split; [exact W2'|]. rewrite S2, S1. cbn [List.length]. lia.
Qed.

End Loop.

End BatchFacts.

(* ================================================================== *)
(** ** The batch importer as a whole *)

Import Invariants CollectionFacts BatchFacts.

(** X1: a run of the importer over files whose events name their message
    by a string keeps the identifiers unique: when no identifier has two
    message records and none has two pending entries before the run, none
    has after it, whatever else the files hold. *)
Theorem batch_keeps_identifiers_unique
    (fromtimestamp_iso : json -> option string)
    (messages pending : collection) (files : list file) :
  forallb (names_strings fromtimestamp_iso) files = true ->
  unique_ids messages ->
  unique_ids pending ->
  exists r,
    process_path fromtimestamp_iso messages pending files = Ret r /\
    unique_ids (messages_col r) /\
    unique_ids (pending_col r).
Proof.
  intros Sid Um Up. unfold process_path.
  destruct (process_files_steps fromtimestamp_iso files
              (mkRun messages pending 0 0 0 []))
    as (r & R & _ & U1 & U2 & _).
  rewrite R. cbn [bind]. eexists. split; [reflexivity|].
  cbn [print messages_col pending_col].
  split; [now apply U1 | now apply U2].
Qed.

Lemma batch_keeps_identifiers_unique_witness :
  exists r,
    process_path epoch_iso [] []
      [mkFile "a.json" (Some (JObj (status_event "m1" "read"))) t1;
       mkFile "b.json" (Some (JObj (message_event "m1" "sent"))) t2;
       mkFile "c.json" (Some (JObj (message_event "m1" "sent"))) t3] = Ret r /\
    unique_ids (messages_col r) /\
    unique_ids (pending_col r).
Proof.
  apply (batch_keeps_identifiers_unique epoch_iso [] []).
  - reflexivity.
  - intros v. cbn. lia.
  - intros v. cbn. lia.
Defined.

(** X2: a run of the importer loses no message: every identifier has at
    least as many message records after the run as it had before. *)
Theorem batch_never_loses_a_message
    (fromtimestamp_iso : json -> option string)
    (messages pending : collection) (files : list file) :
  exists r,
    process_path fromtimestamp_iso messages pending files = Ret r /\
    forall v,
      count_documents "meta_msg_id" v messages <=
      count_documents "meta_msg_id" v (messages_col r).
Proof.
  unfold process_path.
  destruct (process_files_steps fromtimestamp_iso files
              (mkRun messages pending 0 0 0 []))
    as (r & R & M & _).
  rewrite R. cbn [bind]. eexists. split; [reflexivity|].
  intros v. exact (M v).
Qed.

(** X3: when every pending entry holds a status, each file of a run is
    counted exactly once: the three counters of the summary add up to the
    number of files, the summary is the last line printed, and the pending
    entries still hold a status each. *)
Theorem summary_counts_every_file
    (fromtimestamp_iso : json -> option string)
    (messages pending : collection) (files : list file) :
  pending_well_formed pending ->
  exists r out,
    process_path fromtimestamp_iso messages pending files = Ret r /\
    processed r + skipped r + errors r = List.length files /\
    stdout r = out ++ [Summary (processed r) (skipped r) (errors r)] /\
    pending_well_formed (pending_col r).
Proof.
  intros W. unfold process_path.
  destruct (process_files_steps fromtimestamp_iso files
              (mkRun messages pending 0 0 0 []))
    as (r & R & _ & _ & _ & C).
  destruct (C W) as [W' S'].
  rewrite R. cbn [bind]. eexists. exists (stdout r).
  split; [reflexivity|].
  cbn [print processed skipped errors stdout pending_col] in *.
  repeat split; [lia | exact W'].
Qed.

Lemma summary_counts_every_file_witness :
  exists r out,
    process_path epoch_iso [] [pending_entry "m1" "read"]
      [mkFile "a.json" None t1;
       mkFile "b.json" (Some empty_entry_envelope) t2;
       mkFile "c.json" (Some (JObj (message_event "m1" "sent"))) t3] = Ret r /\
    processed r + skipped r + errors r = 3 /\
    stdout r = out ++ [Summary (processed r) (skipped r) (errors r)] /\
    pending_well_formed (pending_col r).
Proof.
  apply (summary_counts_every_file epoch_iso [] [pending_entry "m1" "read"]).
  repeat constructor. discriminate.
Defined.

(** A pending entry without status makes the drain raise after the
    duplicate was counted: the file is counted twice. *)
Example malformed_pending_counts_twice :
  exists r,
    process_path epoch_iso [stored_message "m1" "sent"]
      [[("meta_msg_id", JStr "m1")]]
      [mkFile "a.json" (Some (JObj (message_event "m1" "sent"))) t1] = Ret r /\
    processed r = 0 /\ skipped r = 1 /\ errors r = 1.
Proof. eexists. split; [reflexivity|]. repeat split. Qed.

(** X4: a message or status event whose identifier is missing or falsy
    (no key, null, the empty string, 0) is skipped: both collections stay
    as they are, the skip is counted and printed, nothing else happens. *)
Theorem event_without_identifier_is_skipped
    (f now : string) (p : dict) (r : run) (is_message : bool) :
  lookup "type" p = Some (JStr (if is_message then "message" else "status")) ->
  truthy (dict_get "meta_msg_id" p) = false ->
  ingest f now (JObj p) r =
  incr_skipped
    (print (if is_message then SkipMessageMissingId f else SkipStatusMissingId f)
       r).
Proof.
  intros T M. unfold ingest, process_payload. cbn [py_getitem].
  unfold dict_getitem. rewrite T.
  destruct is_message; cbn [is_str String.eqb Ascii.eqb Bool.eqb].
  - unfold process_message. now rewrite M.
  - unfold process_status. now rewrite M.
Qed.

Lemma event_without_identifier_is_skipped_witness :
  ingest "a.json" t1
    (JObj [("type", JStr "status"); ("meta_msg_id", JStr ""); ("status", JStr "read")])
    read_run =
  incr_skipped (print (SkipStatusMissingId "a.json") read_run).
Proof.
  apply (event_without_identifier_is_skipped "a.json" t1
           [("type", JStr "status"); ("meta_msg_id", JStr "");
            ("status", JStr "read")] read_run false);
    reflexivity.
Defined.

(* ================================================================== *)
(** ** The shape of a normalized event *)

Module NormalizerShape.
Import Py Mongo Processor Observe Invariants PyFacts NormalizerFacts.

(** Case analysis on the first operation of a sequence that can raise. *)
Ltac first_bind :=
  match goal with
  | |- context [bind ?m _] => destruct m; cbn [bind]
  end.

Ltac first_bind_in H :=
  match type of H with
  | context [bind ?m _] => destruct m eqn:?; cbn [bind] in H; try discriminate H
  end.

Section WithClock.

Variable fromtimestamp_iso : json -> option string.

Lemma inbound_message_shape (now : string) (value ev : json) :
  inbound_message fromtimestamp_iso now value = Ret ev ->
  exists wa_id meta_msg_id text timestamp,
    ev = JObj [("type", JStr "message");
               ("wa_id", wa_id);
               ("meta_msg_id", meta_msg_id);
               ("text", text);
               ("timestamp", timestamp);
               ("direction", JStr "inbound");
               ("status", JStr "delivered")].
Proof.
  unfold inbound_message. intros H.
  repeat first_bind_in H.
  injection H as <-. eauto 6.
Qed.

Lemma status_update_shape (now : string) (value ev : json) :
  status_update fromtimestamp_iso now value = Ret ev ->
  exists meta_msg_id status timestamp,
    ev = JObj [("type", JStr "status");
               ("meta_msg_id", meta_msg_id);
               ("status", status);
               ("timestamp", timestamp)].
Proof.
  unfold status_update. intros H.
  repeat first_bind_in H.
  injection H as <-. eauto 6.
Qed.

(** What the envelope parsing returns is a message or a status event. *)
Lemma parse_envelope_shape (now : string) (meta ev : json) :
  parse_envelope fromtimestamp_iso now meta = Ret (Some ev) ->
  exists p, ev = JObj p /\
    in_strs (dict_get "type" p) ["message"; "status"] = true.
Proof.
  unfold parse_envelope. intros H.
  do 6 first_bind_in H.
  destruct (truthy _) in H.
  - match type of H with
    | context [inbound_message ?f ?n ?v] =>
        destruct (inbound_message f n v) as [got|exn] eqn:E;
          cbn [bind] in H; [|discriminate H]
    end.
    injection H as <-.
    destruct (inbound_message_shape _ _ _ E) as (w & m & t & ts & ->).
    eexists. split; reflexivity.
  - first_bind_in H. destruct (truthy _) in H; [|discriminate H].
    match type of H with
    | context [status_update ?f ?n ?v] =>
        destruct (status_update f n v) as [got|exn] eqn:E;
          cbn [bind] in H; [|discriminate H]
    end.
    injection H as <-.
    destruct (status_update_shape _ _ _ E) as (m & s & ts & ->).
    eexists. split; reflexivity.
Qed.

(** What the normalizer returns is [None] or a dict whose [type] is
    message or status. *)
Lemma normalize_shape (now : string) (raw v : json) :
  fst (normalize_webhook_payload fromtimestamp_iso now raw) = Ret v ->
  v = JNull \/
  exists p, v = JObj p /\
    in_strs (dict_get "type" p) ["message"; "status"] = true.
Proof.
  unfold normalize_webhook_payload.
  destruct raw as [| | | |items|d]; cbn [isinstance_dict negb fst py_get];
    try (intros [= <-]; now left).
  destruct (in_strs (dict_get "type" d) ["message"; "status"]) eqn:T;
    cbn [fst].
  - intros [= <-]. right. eauto.
  - destruct (envelope_of (JObj d)) as [meta|e]; cbn [fst]; [|discriminate].
    destruct (truthy meta); cbn [fst]; [|intros [= <-]; now left].
    destruct (parse_envelope fromtimestamp_iso now meta) as [[ev|]|e] eqn:P;
      cbn [fst]; try (intros [= <-]; now left).
    intros [= <-]. right. exact (parse_envelope_shape _ _ _ P).
Qed.

Lemma inbound_message_clock (now now' : string) (value : json) :
  match inbound_message fromtimestamp_iso now value,
        inbound_message fromtimestamp_iso now' value with
  | Ret a, Ret b => same_event (Ret a) (Ret b)
  | Raise e, Raise e' => e = e'
  | _, _ => False
  end.
Proof.
  unfold inbound_message.
  repeat first_bind; try reflexivity.
  cbn. split; reflexivity.
Qed.

Lemma status_update_clock (now now' : string) (value : json) :
  match status_update fromtimestamp_iso now value,
        status_update fromtimestamp_iso now' value with
  | Ret a, Ret b => same_event (Ret a) (Ret b)
  | Raise e, Raise e' => e = e'
  | _, _ => False
  end.
Proof.
  unfold status_update.
  repeat first_bind; try reflexivity.
  cbn. split; reflexivity.
Qed.

Lemma parse_envelope_clock (now now' : string) (meta : json) :
  match parse_envelope fromtimestamp_iso now meta,
        parse_envelope fromtimestamp_iso now' meta with
  | Ret (Some a), Ret (Some b) => same_event (Ret a) (Ret b)
  | Ret None, Ret None => True
  | Raise e, Raise e' => e = e'
  | _, _ => False
  end.
Proof.
  unfold parse_envelope.
  do 6 (first_bind; [|reflexivity]).
  destruct (truthy _).
  - match goal with
    | |- context [inbound_message ?f now ?v] =>
        pose proof (inbound_message_clock now now' v) as C;
        destruct (inbound_message f now v), (inbound_message f now' v)
    end; cbn [bind]; auto.
  - first_bind; [|reflexivity].
    destruct (truthy _); [|exact I].
    match goal with
    | |- context [status_update ?f now ?v] =>
        pose proof (status_update_clock now now' v) as C;
        destruct (status_update f now v), (status_update f now' v)
    end; cbn [bind]; auto.
Qed.

(** The clock decides neither whether a payload is recognised nor the type
    and the identifier of its event. *)
Lemma normalize_clock (now now' : string) (raw : json) :
  same_event (fst (normalize_webhook_payload fromtimestamp_iso now raw))
             (fst (normalize_webhook_payload fromtimestamp_iso now' raw)).
Proof.
  unfold normalize_webhook_payload.
  destruct raw as [| | | |items|d]; cbn [isinstance_dict negb fst py_get];
    try exact I.
  destruct (in_strs (dict_get "type" d) ["message"; "status"]) eqn:T;
    cbn [fst].
  - cbn. split; reflexivity.
  - destruct (envelope_of_dict d) as [meta ->].
    destruct (truthy meta); cbn [fst]; [|exact I].
    pose proof (parse_envelope_clock now now' meta) as C.
    destruct (parse_envelope fromtimestamp_iso now meta) as [[a|]|e],
             (parse_envelope fromtimestamp_iso now' meta) as [[b|]|e'];
      cbn [fst]; try contradiction; try exact I.
    exact C.
Qed.

Lemma message_id_of_clock (f f' : file) :
  loaded f = loaded f' ->
  message_id_of fromtimestamp_iso f = message_id_of fromtimestamp_iso f'.
Proof.
  intros L. unfold message_id_of. rewrite <- L.
  destruct (loaded f) as [raw|]; [|reflexivity].
  pose proof (normalize_clock (clock f) (clock f') raw) as C.
  unfold same_event in C.
  destruct (fst (normalize_webhook_payload fromtimestamp_iso (clock f) raw))
    as [[| | | | |x]|e];
    destruct (fst (normalize_webhook_payload fromtimestamp_iso (clock f') raw))
    as [[| | | | |y]|e'];
    try contradiction; try reflexivity.
  destruct C as [-> ->]. reflexivity.
Qed.

End WithClock.

End NormalizerShape.

(* ================================================================== *)
(** ** Importing the same files again *)

Module ReimportFacts.
Import Py Mongo Processor Observe Invariants.
Import PyFacts MongoFacts ProcessorFacts NormalizerFacts CollectionFacts.
Import BatchFacts NormalizerShape.

#[local] Arguments json_eqb : simpl never.

Lemma apply_pending_length (mid : json) (r : run) :
  List.length (messages_col (fst (apply_pending mid r))) =
  List.length (messages_col r).
Proof.
  unfold apply_pending.
  destruct (find_one "meta_msg_id" mid (pending_col r)); [|reflexivity].
  destruct (dict_getitem "new_status" d); [|reflexivity].
  cbn [fst print with_pending with_messages messages_col].
  apply update_one_length.
Qed.

Lemma is_str_get (lit k : string) (p : dict) :
  is_str lit (dict_get k p) = true -> lookup k p = Some (JStr lit).
Proof.
  unfold dict_get.
  destruct (lookup k p) as [[| | |s| |]|]; simpl; try discriminate.
  intros E. apply String.eqb_eq in E. now subst.
Qed.

(** An event adds a message only if it is a message event whose identifier
    is not stored yet. *)
Lemma ingest_no_insert (f now : string) (payload : json) (r : run) :
  (forall p,
     payload = JObj p ->
     is_str "message" (dict_get "type" p) = true ->
     truthy (dict_get "meta_msg_id" p) = true ->
     find_one "meta_msg_id" (dict_get "meta_msg_id" p) (messages_col r) <> None) ->
  List.length (messages_col (ingest f now payload r)) =
  List.length (messages_col r).
Proof.
  intros H. unfold ingest, process_payload.
  destruct (py_getitem "type" payload) as [ty|e] eqn:T; [|reflexivity].
  destruct payload as [| | | |items|p]; try reflexivity.
  cbn [py_getitem] in T. unfold dict_getitem in T.
  destruct (lookup "type" p) as [ty'|] eqn:L; [|discriminate].
  injection T as ->.
  destruct (is_str "message" ty) eqn:M.
  - unfold process_message.
    destruct (truthy (dict_get "meta_msg_id" p)) eqn:Y; [|reflexivity].
    cbn [negb].
    assert (find_one "meta_msg_id" (dict_get "meta_msg_id" p) (messages_col r)
            <> None) as F.
    { apply (H p eq_refl); [|exact Y]. unfold dict_get. now rewrite L. }
    destruct (find_one "meta_msg_id" (dict_get "meta_msg_id" p) (messages_col r));
      [|congruence].
    pose proof (apply_pending_length (dict_get "meta_msg_id" p)
                  (incr_skipped
                     (print (SkipDuplicate (dict_get "meta_msg_id" p)) r))) as A.
    destruct (apply_pending _ _) as [r' [e|]]; calm; exact A.
  - destruct (is_str "status" ty); [|reflexivity].
    unfold process_status.
    destruct (negb (truthy (dict_get "meta_msg_id" p))); [reflexivity|].
    pose proof (update_one_length "meta_msg_id" (dict_get "meta_msg_id" p)
                  [("status", dict_get "status" p)] (messages_col r)) as U.
    destruct (update_one _ _ _ _) as [msgs result]. cbn [fst] in U.
    destruct (Nat.ltb 0 (modified_count result)); calm; exact U.
Qed.

Section Loop.

Variable fromtimestamp_iso : json -> option string.

Lemma process_file_no_insert (f : file) (r : run) :
  (forall mid, message_id_of fromtimestamp_iso f = Some mid ->
               find_one "meta_msg_id" mid (messages_col r) <> None) ->
  exists r',
    process_file fromtimestamp_iso f r = Ret r' /\
    List.length (messages_col r') = List.length (messages_col r).
Proof.
  unfold message_id_of, process_file. intros H.
  destruct (loaded f) as [raw|]; [|eexists; split; reflexivity].
  destruct (normalize_returns fromtimestamp_iso (clock f) raw) as [v Hv].
  destruct (normalize_webhook_payload fromtimestamp_iso (clock f) raw) as [res w].
  cbn [fst] in Hv, H. subst res.
  destruct (print_all_store w r) as (A & _).
  set (r0 := fold_left (fun acc l => print l acc) w r) in *.
  destruct (negb (truthy v)).
  - eexists. split; [reflexivity|]. calm. now rewrite A.
  - eexists. split; [reflexivity|].
    rewrite <- A. apply ingest_no_insert.
    intros p -> M Y. rewrite A. apply H. now rewrite M, Y.
Qed.

Lemma process_file_stores (f : file) (r : run) (mid : json) :
  message_id_of fromtimestamp_iso f = Some mid ->
  exists r',
    process_file fromtimestamp_iso f r = Ret r' /\
    find_one "meta_msg_id" mid (messages_col r') <> None.
Proof.
  unfold message_id_of, process_file. intros H.
  destruct (loaded f) as [raw|]; [|discriminate].
  destruct (normalize_webhook_payload fromtimestamp_iso (clock f) raw) as [res w].
  cbn [fst] in H.
  destruct res as [[| | | | |p]|e]; try discriminate.
  destruct (is_str "message" (dict_get "type" p)) eqn:M; [|discriminate].
  destruct (truthy (dict_get "meta_msg_id" p)) eqn:Y; [|discriminate].
  injection H as <-.
  pose proof (is_str_get _ _ _ M) as L.
  assert (truthy (JObj p) = true) as ->
    by (destruct p; [discriminate L | reflexivity]).
  cbn [negb]. eexists. split; [reflexivity|].
  apply ingest_message_found. repeat split; assumption.
Qed.

Lemma stored_after_file (f : file) (r r' : run) (v : json) :
  process_file fromtimestamp_iso f r = Ret r' ->
  find_one "meta_msg_id" v (messages_col r) <> None ->
  find_one "meta_msg_id" v (messages_col r') <> None.
Proof.
  intros R F E.
  destruct (process_file_step fromtimestamp_iso f r) as (r1 & R1 & M & _).
  rewrite R in R1. injection R1 as <-.
  apply count_zero_find in E. specialize (M v).
  apply F. apply count_zero_find. lia.
Qed.

(** After the loop every message event of the files is stored. *)
Lemma first_run (files : list file) (r : run) :
  exists r1,
    process_files fromtimestamp_iso files r = Ret r1 /\
    (forall v, find_one "meta_msg_id" v (messages_col r) <> None ->
               find_one "meta_msg_id" v (messages_col r1) <> None) /\
    (forall f mid, In f files ->
       message_id_of fromtimestamp_iso f = Some mid ->
       find_one "meta_msg_id" mid (messages_col r1) <> None).
Proof.
  revert r. induction files as [|f files IH]; intros r.
  - exists r. cbn [process_files]. split; [reflexivity|]. split; [auto|].
    intros f mid [].
  - destruct (process_file_returns fromtimestamp_iso f r) as [r0 R0].
    destruct (IH r0) as (r1 & R1 & K1 & S1).
    exists r1. cbn [process_files]. rewrite R0. cbn [bind].
    split; [exact R1|]. split.
    + intros v F. apply K1. exact (stored_after_file f r r0 v R0 F).
    + intros g mid [<-|G] I.
      * apply K1.
        destruct (process_file_stores f r mid I) as (r0' & R0' & F).
        rewrite R0 in R0'. now injection R0' as <-.
      * now apply (S1 g).
Qed.

(** A loop over files whose message events are all stored adds nothing. *)
Lemma second_run (files : list file) (r : run) :
  (forall f mid, In f files ->
     message_id_of fromtimestamp_iso f = Some mid ->
     find_one "meta_msg_id" mid (messages_col r) <> None) ->
  exists r2,
    process_files fromtimestamp_iso files r = Ret r2 /\
    List.length (messages_col r2) = List.length (messages_col r).
Proof.
  revert r. induction files as [|f files IH]; intros r H.
  - exists r. split; reflexivity.
  - destruct (process_file_no_insert f r) as (r0 & R0 & L0).
    { intros mid. apply (H f). now left. }
    destruct (IH r0) as (r2 & R2 & L2).
    { intros g mid G I. apply (stored_after_file f r r0 mid R0).
      apply (H g); [now right | exact I]. }
    exists r2. cbn [process_files]. rewrite R0. cbn [bind].
    split; [exact R2 | congruence].
Qed.

End Loop.

End ReimportFacts.

Import NormalizerShape ReimportFacts.

(** X5: the normalizer is idempotent: what it returns for a payload, it
    returns unchanged, and without a warning, when it is given that result
    again, at whatever time. *)
Theorem normalize_is_idempotent
    (fromtimestamp_iso : json -> option string) (now now' : string)
    (raw v : json) :
  fst (normalize_webhook_payload fromtimestamp_iso now raw) = Ret v ->
  normalize_webhook_payload fromtimestamp_iso now' v = (Ret v, []).
Proof.
  intros H.
  destruct (normalize_shape fromtimestamp_iso now raw v H) as [->|(p & -> & T)].
  - reflexivity.
  - unfold normalize_webhook_payload. cbn [isinstance_dict negb py_get].
    now rewrite T.
Qed.

Lemma normalize_is_idempotent_witness :
  normalize_webhook_payload epoch_iso t2
    (JObj [("type", JStr "message");
           ("wa_id", JStr "c9");
           ("meta_msg_id", JStr "m9");
           ("text", JStr "hello");
           ("timestamp", JStr "1970-01-01T00:00:00+00:00");
           ("direction", JStr "inbound");
           ("status", JStr "delivered")]) =
  (Ret (JObj [("type", JStr "message");
              ("wa_id", JStr "c9");
              ("meta_msg_id", JStr "m9");
              ("text", JStr "hello");
              ("timestamp", JStr "1970-01-01T00:00:00+00:00");
              ("direction", JStr "inbound");
              ("status", JStr "delivered")]), []).
Proof.
  apply (normalize_is_idempotent epoch_iso t1 t2 (envelope read_message_value)).
  reflexivity.
Defined.

(** X6: importing files a second time adds no message: after a run over a
    list of files, a run over files with the same contents (whatever their
    names and the time) leaves the number of stored messages as it is. *)
Theorem reimport_adds_no_message
    (fromtimestamp_iso : json -> option string)
    (files files' : list file) (r : run) :
  map loaded files = map loaded files' ->
  exists r1 r2,
    process_files fromtimestamp_iso files r = Ret r1 /\
    process_files fromtimestamp_iso files' r1 = Ret r2 /\
    List.length (messages_col r2) = List.length (messages_col r1).
Proof.
  intros L.
  destruct (first_run fromtimestamp_iso files r) as (r1 & R1 & _ & S1).
  destruct (second_run fromtimestamp_iso files' r1) as (r2 & R2 & L2).
  { intros f' mid F' I.
    assert (In (loaded f') (map loaded files)) as X
      by (rewrite L; now apply in_map).
    apply in_map_iff in X as (f & Lf & F).
    apply (S1 f mid F).
    now rewrite (message_id_of_clock fromtimestamp_iso f f' Lf). }
  exists r1, r2. auto.
Qed.

Lemma reimport_adds_no_message_witness :
  exists r1 r2,
    process_files epoch_iso
      [mkFile "a.json" (Some (envelope read_message_value)) t1;
       mkFile "b.json" (Some (JObj (message_event "m1" "sent"))) t1]
      empty_run = Ret r1 /\
    process_files epoch_iso
      [mkFile "c.json" (Some (envelope read_message_value)) t2;
       mkFile "d.json" (Some (JObj (message_event "m1" "sent"))) t3]
      r1 = Ret r2 /\
    List.length (messages_col r2) = List.length (messages_col r1).
Proof.
  apply (reimport_adds_no_message epoch_iso). reflexivity.
Defined.

(** X7: a provider envelope without messages whose [value.statuses] is an
    array that starts with an object is normalized to the status event of
    that object: its [id] as identifier, its [status] as status, and as
    timestamp the converted [timestamp] of the object or, when that is
    missing or cannot be converted, the current time. *)
Theorem envelope_status_is_extracted
    (fromtimestamp_iso : json -> option string) (now : string)
    (d value st : dict) (meta entry change : json)
    (entries changes more : list json) :
  in_strs (dict_get "type" d) ["message"; "status"] = false ->
  envelope_of (JObj d) = Ret meta ->
  truthy meta = true ->
  py_get_default "entry" (JArr []) meta = Ret (JArr (entry :: entries)) ->
  py_get_default "changes" (JArr []) entry = Ret (JArr (change :: changes)) ->
  py_get_default "value" (JObj []) change = Ret (JObj value) ->
  truthy (dict_get "messages" value) = false ->
  dict_get "statuses" value = JArr (JObj st :: more) ->
  normalize_webhook_payload fromtimestamp_iso now (JObj d) =
  (Ret (JObj [("type", JStr "status");
              ("meta_msg_id", dict_get "id" st);
              ("status", dict_get "status" st);
              ("timestamp",
               py_or (timestamp_of fromtimestamp_iso (dict_get "timestamp" st))
                     (JStr now))]), []).
Proof.
  intros T M Y He Hc Hv Hm Hs.
  unfold normalize_webhook_payload. cbn [isinstance_dict negb py_get].
  rewrite T, M, Y. unfold parse_envelope.
  rewrite He. cbn [bind py_index0]. rewrite Hc. cbn [bind py_index0].
  rewrite Hv. cbn [bind py_get]. rewrite Hm, Hs. cbn [truthy].
  unfold status_update. cbn [py_getitem]. unfold dict_getitem.
  assert (lookup "statuses" value = Some (JArr (JObj st :: more))) as ->.
  { unfold dict_get in Hs. destruct (lookup "statuses" value);
      [now subst | discriminate]. }
  reflexivity.
Qed.

Lemma envelope_status_is_extracted_witness :
  normalize_webhook_payload epoch_iso t1
    (envelope (JObj [("statuses",
                      JArr [JObj [("id", JStr "m9"); ("status", JStr "read")]])])) =
  (Ret (JObj [("type", JStr "status");
              ("meta_msg_id", JStr "m9");
              ("status", JStr "read");
              ("timestamp", JStr t1)]), []).
Proof.
  apply (envelope_status_is_extracted epoch_iso t1
           [("metaData",
             JObj [("entry",
                    JArr [JObj [("changes",
                                 JArr [JObj [("value",
                                   JObj [("statuses",
                                          JArr [JObj [("id", JStr "m9");
                                                      ("status", JStr "read")]])])]])]])])]
           [("statuses",
             JArr [JObj [("id", JStr "m9"); ("status", JStr "read")]])]
           [("id", JStr "m9"); ("status", JStr "read")]
           (JObj [("entry",
                   JArr [JObj [("changes",
                                JArr [JObj [("value",
                                  JObj [("statuses",
                                         JArr [JObj [("id", JStr "m9");
                                                     ("status", JStr "read")]])])]])]])])
           (JObj [("changes",
                   JArr [JObj [("value",
                     JObj [("statuses",
                            JArr [JObj [("id", JStr "m9");
                                        ("status", JStr "read")]])])]])])
           (JObj [("value",
                   JObj [("statuses",
                          JArr [JObj [("id", JStr "m9");
                                      ("status", JStr "read")]])])])
           [] [] []);
    reflexivity.
Defined.

(** X8: a file whose payload normalizes to a message event with scalar
    fields and with an identifier, a string, that is neither stored nor
    waited for is inserted once: the document of the event is appended to
    the messages with the direction and the status of the event (inbound
    and delivered when it has none), the insert is printed and counted as
    processed, and the pending buffer is not touched. *)
Theorem new_message_file_is_inserted
    (fromtimestamp_iso : json -> option string)
    (f : file) (raw : json) (p : dict) (mid : json) (r : run) :
  loaded f = Some raw ->
  normalize_webhook_payload fromtimestamp_iso (clock f) raw = (Ret (JObj p), []) ->
  is_message_event mid p ->
  is_string mid = true ->
  plain p = true ->
  find_one "meta_msg_id" mid (messages_col r) = None ->
  find_one "meta_msg_id" mid (pending_col r) = None ->
  process_file fromtimestamp_iso f r =
  Ret (incr_processed
         (print (Inserted mid)
            (with_messages
               (messages_col r ++
                [[("wa_id", dict_get "wa_id" p);
                  ("text", dict_get "text" p);
                  ("meta_msg_id", mid);
                  ("direction", dict_get_default "direction" (JStr "inbound") p);
                  ("status", dict_get_default "status" (JStr "delivered") p);
                  ("timestamp", py_or (dict_get "timestamp" p) (JStr (clock f)))]])
               r))).
Proof.
  intros L N E _ _ Fm Fp. unfold process_file. rewrite L, N.
  cbn [fold_left].
  assert (truthy (JObj p) = true) as ->.
  { destruct E as (T & _). destruct p; [discriminate T | reflexivity]. }
  cbn [negb]. f_equal. unfold ingest.
  rewrite (process_payload_message _ _ _ _ _ E).
  rewrite (process_message_new _ _ _ _ _ E Fm).
  now rewrite apply_pending_none.
Qed.

Lemma new_message_file_is_inserted_witness :
  process_file epoch_iso
    (mkFile "a.json" (Some (envelope read_message_value)) t1) empty_run =
  Ret (incr_processed
         (print (Inserted (JStr "m9"))
            (with_messages
               [[("wa_id", JStr "c9");
                 ("text", JStr "hello");
                 ("meta_msg_id", JStr "m9");
                 ("direction", JStr "inbound");
                 ("status", JStr "delivered");
                 ("timestamp", JStr "1970-01-01T00:00:00+00:00")]]
               empty_run))).
Proof.
  apply (new_message_file_is_inserted epoch_iso
           (mkFile "a.json" (Some (envelope read_message_value)) t1)
           (envelope read_message_value)
           [("type", JStr "message");
            ("wa_id", JStr "c9");
            ("meta_msg_id", JStr "m9");
            ("text", JStr "hello");
            ("timestamp", JStr "1970-01-01T00:00:00+00:00");
            ("direction", JStr "inbound");
            ("status", JStr "delivered")]
           (JStr "m9") empty_run);
    try reflexivity.
  repeat split.
Defined.

(* ================================================================== *)
(** ** More facts about main.py *)

Module WebhookFacts.
Import Py Mongo Observe Invariants App Endpoints.
Import PyFacts MongoFacts ProcessorFacts CollectionFacts AppFacts.

#[local] Arguments json_eqb : simpl never.

Lemma existsb_true_find (key : string) (v : json) (c : collection) :
  existsb (matches key v) c = true -> find_one key v c <> None.
Proof.
  intros X F. apply find_one_none_existsb in F. congruence.
Qed.

(** The two ways in which [db_insert_message] ends for a document that
    has an identifier. *)
Lemma db_insert_message_cases (now : json) (md : dict) (msgs : collection)
    (mid : json) :
  lookup "meta_msg_id" md = Some mid ->
  (find_one "meta_msg_id" mid msgs <> None /\
   db_insert_message now md msgs =
   (msgs, Raise (HTTPException 500 "Database insert error"))) \/
  (find_one "meta_msg_id" mid msgs = None /\
   db_insert_message now md msgs =
   (msgs ++ [dict_set "timestamp" now md],
    Ret (JObj (dict_set "timestamp" now md)))).
Proof.
  intros L.
  assert (lookup "meta_msg_id" (dict_set "timestamp" now md) = Some mid) as L'
    by now rewrite lookup_dict_set_other by discriminate.
  unfold db_insert_message, insert_one_unique, dict_getitem, dict_get.
  rewrite L'.
  destruct (existsb (matches "meta_msg_id" mid) msgs) eqn:X.
  - left. split; [now apply existsb_true_find | reflexivity].
  - right. apply existsb_false_find in X. split; [exact X|].
    rewrite find_one_app, X. now rewrite (matches_field _ _ _ L').
Qed.

(** The table, read for a status that is a string. *)
Lemma transitions_get_str (s : string) :
  transitions_get (JStr s) =
  Ret (if String.eqb "sent" s then ["delivered"; "read"]
       else if String.eqb "delivered" s then ["read"]
       else []).
Proof.
  unfold transitions_get, VALID_STATUS_TRANSITIONS. cbn [transitions_of].
  destruct (String.eqb "sent" s); [reflexivity|].
  destruct (String.eqb "delivered" s); [reflexivity|].
  now destruct (String.eqb "read" s).
Qed.

Lemma transitions_get_cases (cur : json) (next : list string) :
  transitions_get cur = Ret next ->
  (cur = JStr "sent" /\ next = ["delivered"; "read"]) \/
  (cur = JStr "delivered" /\ next = ["read"]) \/
  next = [].
Proof.
  destruct cur as [| | |s| |]; try (cbn [transitions_get]; intros [= <-]; tauto);
    try discriminate.
  rewrite transitions_get_str.
  destruct (String.eqb "sent" s) eqn:E1.
  { apply String.eqb_eq in E1. subst s. intros [= <-]. tauto. }
  destruct (String.eqb "delivered" s) eqn:E2.
  { apply String.eqb_eq in E2. subst s. intros [= <-]. tauto. }
  intros [= <-]. tauto.
Qed.

Lemma in_strs_cases (v : json) (lits : list string) :
  in_strs v lits = true -> exists s, v = JStr s /\ In s lits.
Proof.
  unfold in_strs. intros H. apply existsb_exists in H as (lit & I & E).
  destruct v as [| | |s| |]; try discriminate E.
  cbn [is_str] in E. apply String.eqb_eq in E. subst. eauto.
Qed.

(** The table has no transition from a status to itself. *)
Lemma no_self_transition (st : json) (next : list string) :
  transitions_get st = Ret next -> in_strs st next = false.
Proof.
  intros T.
  destruct (transitions_get_cases st next T) as [[-> ->]|[[-> ->]| ->]];
    reflexivity.
Qed.

(** Every transition of the table goes forward in sent < delivered < read. *)
Lemma legal_goes_forward (cur new : json) (next : list string) :
  transitions_get cur = Ret next ->
  in_strs new next = true ->
  rank cur < rank new /\ (new = JStr "delivered" \/ new = JStr "read").
Proof.
  intros T I. apply in_strs_cases in I as (s & -> & I).
  destruct (transitions_get_cases cur next T) as [[-> ->]|[[-> ->]| ->]];
    cbn [In] in I.
  - destruct I as [<-|[<-|[]]]; cbn; split; auto; lia.
  - destruct I as [<-|[]]; cbn; split; auto; lia.
  - contradiction.
Qed.

(** A legal status update changes the message and returns 1. *)
Lemma db_update_legal (mid new : json) (msgs : collection) (cur : dict)
    (next : list string) :
  find_one "meta_msg_id" mid msgs = Some cur ->
  transitions_get (dict_get_default "status" (JStr "sent") cur) = Ret next ->
  in_strs new next = true ->
  db_update_message_status mid new msgs =
  (fst (update_one "meta_msg_id" mid [("status", new)] msgs), Ret 1).
Proof.
  intros F T I. unfold db_update_message_status. rewrite F, T, I. cbn [negb].
  pose proof (update_one_modified "meta_msg_id" mid [("status", new)] msgs) as M.
  rewrite F in M.
  destruct (json_eqb (JObj (apply_set [("status", new)] cur)) (JObj cur)) eqn:E.
  - apply set_status_noop in E.
    pose proof (no_self_transition _ _ T) as N.
    unfold dict_get_default in N. rewrite E in N. congruence.
  - destruct (update_one "meta_msg_id" mid [("status", new)] msgs) as [m res].
    cbn [fst snd] in *. now rewrite M.
Qed.

(** All the ways in which [db_update_message_status] ends. *)
Lemma db_update_cases (mid new : json) (msgs : collection) :
  (find_one "meta_msg_id" mid msgs = None /\
   db_update_message_status mid new msgs = (msgs, Ret 0)) \/
  (exists e, db_update_message_status mid new msgs = (msgs, Raise e) /\
             find_one "meta_msg_id" mid msgs <> None) \/
  (exists cur next,
     find_one "meta_msg_id" mid msgs = Some cur /\
     transitions_get (dict_get_default "status" (JStr "sent") cur) = Ret next /\
     in_strs new next = true /\
     db_update_message_status mid new msgs =
     (fst (update_one "meta_msg_id" mid [("status", new)] msgs), Ret 1)).
Proof.
  destruct (find_one "meta_msg_id" mid msgs) as [cur|] eqn:F.
  2:{ left. split; [reflexivity|]. now apply db_update_unknown. }
  right.
  destruct (transitions_get (dict_get_default "status" (JStr "sent") cur))
    as [next|e] eqn:T.
  - destruct (in_strs new next) eqn:I.
    + right. exists cur, next. repeat split; auto.
      now apply (db_update_legal mid new msgs cur next).
    + left. eexists. split; [|discriminate].
      now apply (db_update_illegal mid new msgs cur next).
  - left. exists e. split; [|discriminate].
    unfold db_update_message_status. now rewrite F, T.
Qed.

(** A modification that is reported was a step forward. *)
Lemma db_update_modified (mid new : json) (msgs msgs' : collection) (n : nat) :
  db_update_message_status mid new msgs = (msgs', Ret (S n)) ->
  exists cur,
    current_status mid msgs = Some cur /\
    rank cur < rank new /\
    status_of mid msgs' = Some new.
Proof.
  intros H. unfold current_status.
  destruct (db_update_cases mid new msgs)
    as [[_ E]|[(e & E & _)|(cur & next & F & T & I & E)]];
    rewrite E in H; try discriminate.
  injection H as <- _.
  rewrite F. eexists. split; [reflexivity|].
  destruct (legal_goes_forward _ _ _ T I) as [R _].
  split; [exact R|].
  rewrite status_of_update. now rewrite F.
Qed.

End WebhookFacts.

(* ================================================================== *)
(** ** The webhook and the other endpoints of main.py *)

Import WebhookFacts.

(** The message branch of the webhook for a payload with its three
    required keys. *)
Lemma webhook_message_cases (emit_fails : json -> bool) (now : json)
    (payload : dict) (s : App.server) (wa_id text mid : json) :
  lookup "wa_id" payload = Some wa_id ->
  lookup "text" payload = Some text ->
  lookup "meta_msg_id" payload = Some mid ->
  (find_one "meta_msg_id" mid (App.processed_messages s) <> None /\
   App.webhook_message emit_fails now payload s =
   (s, Raise (HTTPException 500 "Database insert error"))) \/
  (find_one "meta_msg_id" mid (App.processed_messages s) = None /\
   App.webhook_message emit_fails now payload s =
   match App.sio_emit emit_fails
           (App.mkEmit "new_message"
              (JObj [("wa_id", wa_id);
                     ("message",
                      JObj [("text", text);
                            ("status",
                             dict_get_default "status" (JStr "delivered") payload);
                            ("direction", JStr "inbound")])])
              wa_id)
           (App.emitted s) with
   | Raise x =>
       (App.mkServer
          (App.processed_messages s ++
           [[("wa_id", wa_id); ("text", text); ("meta_msg_id", mid);
             ("direction", JStr "inbound");
             ("status", dict_get_default "status" (JStr "delivered") payload);
             ("timestamp", now)]])
          (App.emitted s), Raise x)
   | Ret sent =>
       (App.mkServer
          (App.processed_messages s ++
           [[("wa_id", wa_id); ("text", text); ("meta_msg_id", mid);
             ("direction", JStr "inbound");
             ("status", dict_get_default "status" (JStr "delivered") payload);
             ("timestamp", now)]])
          sent,
        Ret (JObj [("status", JStr "success");
                   ("event", JStr "message_received")]))
   end).
Proof.
  intros W T M. unfold App.webhook_message, dict_getitem. rewrite W, T, M.
  cbn [bind].
  match goal with
  | |- context [App.db_insert_message now ?md ?msgs] =>
      destruct (db_insert_message_cases now md msgs mid eq_refl)
        as [[F ->]|[F ->]]
  end.
  - left. split; [exact F|]. now rewrite AppFacts.server_eta.
  - right. split; [exact F|]. reflexivity.
Qed.

(** X9: for a payload whose stored fields are scalars and whose
    identifier, if it has one, is a string, the webhook is all or nothing:
    a request that is answered with an exception leaves the messages and
    the emitted events exactly as they were, and a request that is answered
    normally has emitted exactly one event. *)
Theorem webhook_is_all_or_nothing
    (emit_fails : json -> bool) (now : json) (payload : dict) (s : App.server) :
  plain payload = true ->
  (forall m, lookup "meta_msg_id" payload = Some m -> is_string m = true) ->
  match App.process_webhook_payload emit_fails now payload s with
  | (s', Raise _) => s' = s
  | (s', Ret _) => exists e, App.emitted s' = App.emitted s ++ [e]
  end.
Proof.
  intros P _.
  destruct (plain_fields payload P) as (Pw & _).
  unfold App.process_webhook_payload, App.webhook_body.
  destruct (App.event_type_of payload) as [t|e];
    [|destruct (App.is_http_exception e); reflexivity].
  destruct (String.eqb t "message").
  - destruct (lookup "wa_id" payload) as [wa_id|] eqn:W;
      [|unfold App.webhook_message, dict_getitem; rewrite W; reflexivity].
    destruct (lookup "text" payload) as [text|] eqn:T;
      [|unfold App.webhook_message, dict_getitem; rewrite W, T; reflexivity].
    destruct (lookup "meta_msg_id" payload) as [mid|] eqn:M;
      [|unfold App.webhook_message, dict_getitem; rewrite W, T, M; reflexivity].
    destruct (webhook_message_cases emit_fails now payload s wa_id text mid W T M)
      as [[_ ->]|[_ ->]].
    + reflexivity.
    + rewrite AppFacts.sio_emit_scalar.
      * cbn [App.emitted]. eauto.
      * cbn [App.room]. unfold dict_get in Pw. now rewrite W in Pw.
  - destruct (String.eqb t "status"); [|reflexivity].
    unfold App.webhook_status, dict_getitem.
    destruct (lookup "meta_msg_id" payload) as [mid|]; [|reflexivity].
    cbn [bind].
    destruct (lookup "status" payload) as [new|]; [|reflexivity].
    cbn [bind].
    destruct (db_update_cases mid new (App.processed_messages s))
      as [[_ ->]|[(e & -> & _)|(cur & next & _ & _ & _ & ->)]].
    + cbn [App.is_http_exception]. apply AppFacts.server_eta.
    + destruct (App.is_http_exception e); apply AppFacts.server_eta.
    + rewrite AppFacts.sio_emit_scalar.
      * cbn [App.emitted]. eauto.
      * cbn [App.room]. now apply plain_default.
Qed.

Lemma webhook_is_all_or_nothing_witness :
  exists e,
    App.emitted
      (fst (App.process_webhook_payload strict_socket (JStr t1)
              (status_event "m1" "read")
              (server_of [stored_message "m1" "delivered"]))) = [] ++ [e].
Proof.
  apply (webhook_is_all_or_nothing strict_socket (JStr t1)
           (status_event "m1" "read")
           (server_of [stored_message "m1" "delivered"])).
  - reflexivity.
  - intros m [= <-]. reflexivity.
Defined.

(** Outside these payloads the webhook can fail after its write: a legal
    status request whose [wa_id] is a dict, on a socket server that raises
    for such a room, is answered 500 with the status written. *)
Example failed_emit_keeps_the_write :
  App.process_webhook_payload strict_socket (JStr t1)
    [("type", JStr "status"); ("meta_msg_id", JStr "m1");
     ("status", JStr "read"); ("wa_id", JObj [("id", JStr "c1")])]
    (server_of [stored_message "m1" "delivered"]) =
  (server_of [stored_message "m1" "read"],
   Raise (HTTPException 500 "Internal server error")).
Proof. reflexivity. Qed.

(** On a socket server that takes such a room the same request is
    answered with the success. *)
Example lenient_socket_takes_the_room :
  App.process_webhook_payload lenient_socket (JStr t1)
    [("type", JStr "status"); ("meta_msg_id", JStr "m1");
     ("status", JStr "read"); ("wa_id", JObj [("id", JStr "c1")])]
    (server_of [stored_message "m1" "delivered"]) =
  (App.mkServer [stored_message "m1" "read"]
     [App.mkEmit "status_update"
        (JObj [("meta_msg_id", JStr "m1"); ("new_status", JStr "read")])
        (JObj [("id", JStr "c1")])],
   Ret (JObj [("status", JStr "success"); ("event", JStr "status_updated")])).
Proof. reflexivity. Qed.

(** X10: a status request of the webhook for an identifier that is a
    string, with scalar fields, that is legal under
    VALID_STATUS_TRANSITIONS is applied: the stored status of the message
    becomes the requested one, one [status_update] event is emitted to the
    room of the [wa_id] of the payload, or to the room "global" when the
    payload has none, and the answer is the success. *)
Theorem webhook_legal_transition_is_applied
    (emit_fails : json -> bool)
    (now : json) (payload : dict) (s : App.server) (mid new : json) (cur : dict) :
  App.event_type_of payload = Ret "status" ->
  lookup "meta_msg_id" payload = Some mid ->
  lookup "status" payload = Some new ->
  is_string mid = true ->
  plain payload = true ->
  find_one "meta_msg_id" mid (App.processed_messages s) = Some cur ->
  legal_transition (dict_get_default "status" (JStr "sent") cur) new = true ->
  App.process_webhook_payload emit_fails now payload s =
  (App.mkServer
     (fst (update_one "meta_msg_id" mid [("status", new)]
             (App.processed_messages s)))
     (App.emitted s ++
      [App.mkEmit "status_update"
         (JObj [("meta_msg_id", mid); ("new_status", new)])
         (dict_get_default "wa_id" (JStr "global") payload)]),
   Ret (JObj [("status", JStr "success"); ("event", JStr "status_updated")])) /\
  status_of mid
    (fst (update_one "meta_msg_id" mid [("status", new)]
            (App.processed_messages s))) = Some new.
Proof.
  intros T M N _ P F L. unfold legal_transition in L.
  destruct (plain_fields payload P) as (Pw & _).
  destruct (App.transitions_get (dict_get_default "status" (JStr "sent") cur))
    as [next|e] eqn:G; [|discriminate].
  split.
  - unfold App.process_webhook_payload.
    rewrite (AppFacts.webhook_status_body emit_fails now payload s mid new T M N).
    rewrite (db_update_legal mid new _ cur next F G L).
    rewrite AppFacts.sio_emit_scalar; [reflexivity|].
    cbn [App.room]. now apply plain_default.
  - rewrite status_of_update. now rewrite F.
Qed.

Lemma webhook_legal_transition_is_applied_witness :
  status_of (JStr "m1")
    (fst (update_one "meta_msg_id" (JStr "m1") [("status", JStr "read")]
            (App.processed_messages
               (server_of [stored_message "m1" "delivered"]))))
  = Some (JStr "read").
Proof.
  apply (webhook_legal_transition_is_applied strict_socket (JStr t1)
           (status_event "m1" "read")
           (server_of [stored_message "m1" "delivered"])
           (JStr "m1") (JStr "read") (stored_message "m1" "delivered"));
    reflexivity.
Defined.

(** X11: through [db_update_message_status] a status only moves forward:
    whenever the call reports a modification, the message was stored, the
    new status is delivered or read and lies strictly after the old one in
    sent < delivered < read (a message without status counting as sent),
    and it is the stored status afterwards. *)
Theorem status_update_moves_forward
    (mid new : json) (msgs msgs' : collection) (n : nat) :
  App.db_update_message_status mid new msgs = (msgs', Ret (S n)) ->
  exists cur,
    current_status mid msgs = Some cur /\
    rank cur < rank new /\
    (new = JStr "delivered" \/ new = JStr "read") /\
    status_of mid msgs' = Some new.
Proof.
  intros H. unfold current_status.
  destruct (db_update_cases mid new msgs)
    as [[_ E]|[(e & E & _)|(cur & next & F & T & I & E)]];
    rewrite E in H; try discriminate.
  injection H as <- _.
  rewrite F. eexists. split; [reflexivity|].
  destruct (legal_goes_forward _ _ _ T I) as [R D].
  repeat split; [exact R | exact D |].
  rewrite status_of_update. now rewrite F.
Qed.

Lemma status_update_moves_forward_witness :
  exists cur,
    current_status (JStr "m1") [stored_message "m1" "sent"] = Some cur /\
    rank cur < rank (JStr "read") /\
    (JStr "read" = JStr "delivered" \/ JStr "read" = JStr "read") /\
    status_of (JStr "m1")
      [[("wa_id", JStr "c1"); ("text", JStr "hello"); ("meta_msg_id", JStr "m1");
        ("direction", JStr "inbound"); ("status", JStr "read");
        ("timestamp", JStr "2025-01-01T00:00:00+00:00")]]
    = Some (JStr "read").
Proof.
  apply (status_update_moves_forward (JStr "m1") (JStr "read")
           [stored_message "m1" "sent"] _ 0).
  reflexivity.
Defined.

(** X12: a message of the webhook with scalar fields whose identifier, a
    string, is not stored is stored as inbound, whatever direction the
    payload names, with the status of the payload or delivered when it has
    none; one [new_message] event is emitted to the room of its [wa_id]. *)
Theorem webhook_message_is_stored_inbound
    (emit_fails : json -> bool)
    (now : json) (payload : dict) (s : App.server) (wa_id text mid : json) :
  App.event_type_of payload = Ret "message" ->
  lookup "wa_id" payload = Some wa_id ->
  lookup "text" payload = Some text ->
  lookup "meta_msg_id" payload = Some mid ->
  is_string mid = true ->
  plain payload = true ->
  find_one "meta_msg_id" mid (App.processed_messages s) = None ->
  App.process_webhook_payload emit_fails now payload s =
  (App.mkServer
     (App.processed_messages s ++
      [[("wa_id", wa_id); ("text", text); ("meta_msg_id", mid);
        ("direction", JStr "inbound");
        ("status", dict_get_default "status" (JStr "delivered") payload);
        ("timestamp", now)]])
     (App.emitted s ++
      [App.mkEmit "new_message"
         (JObj [("wa_id", wa_id);
                ("message",
                 JObj [("text", text);
                       ("status",
                        dict_get_default "status" (JStr "delivered") payload);
                       ("direction", JStr "inbound")])])
         wa_id]),
   Ret (JObj [("status", JStr "success"); ("event", JStr "message_received")])).
Proof.
  intros T W X M _ P F.
  destruct (plain_fields payload P) as (Pw & _).
  unfold App.process_webhook_payload, App.webhook_body. rewrite T.
  cbn [String.eqb Ascii.eqb Bool.eqb].
  destruct (webhook_message_cases emit_fails now payload s wa_id text mid W X M)
    as [[N _]|[_ ->]]; [congruence|].
  rewrite AppFacts.sio_emit_scalar; [reflexivity|].
  cbn [App.room]. unfold dict_get in Pw. now rewrite W in Pw.
Qed.

Lemma webhook_message_is_stored_inbound_witness :
  App.process_webhook_payload strict_socket (JStr t1)
    [("type", JStr " Message "); ("wa_id", JStr "c1"); ("text", JStr "hello");
     ("meta_msg_id", JStr "m1"); ("direction", JStr "outbound")]
    (server_of []) =
  (App.mkServer
     [[("wa_id", JStr "c1"); ("text", JStr "hello"); ("meta_msg_id", JStr "m1");
       ("direction", JStr "inbound"); ("status", JStr "delivered");
       ("timestamp", JStr t1)]]
     [App.mkEmit "new_message"
        (JObj [("wa_id", JStr "c1");
               ("message",
                JObj [("text", JStr "hello"); ("status", JStr "delivered");
                      ("direction", JStr "inbound")])])
        (JStr "c1")],
   Ret (JObj [("status", JStr "success"); ("event", JStr "message_received")])).
Proof.
  apply (webhook_message_is_stored_inbound strict_socket (JStr t1)
           [("type", JStr " Message "); ("wa_id", JStr "c1");
            ("text", JStr "hello"); ("meta_msg_id", JStr "m1");
            ("direction", JStr "outbound")]
           (server_of []) (JStr "c1") (JStr "hello") (JStr "m1"));
    reflexivity.
Defined.

(** X13: a webhook payload whose type, lowered and stripped of the white
    space of Python (that beyond ASCII included), is neither message nor
    status (a missing type included) is answered 400 "Invalid event type";
    a type that is not a string is answered 500; a message payload without
    one of its required keys is answered 500.  Nothing is stored or
    emitted. *)
Theorem webhook_rejects_malformed_payloads
    (emit_fails : json -> bool) (now : json) (payload : dict) (s : App.server) :
  (forall t, App.event_type_of payload = Ret t ->
     t <> "message" -> t <> "status" ->
     App.process_webhook_payload emit_fails now payload s =
     (s, Raise (HTTPException 400 "Invalid event type"))) /\
  (lookup "type" payload = None ->
   App.process_webhook_payload emit_fails now payload s =
   (s, Raise (HTTPException 400 "Invalid event type"))) /\
  (forall e, App.event_type_of payload = Raise e ->
     App.process_webhook_payload emit_fails now payload s =
     (s, Raise (HTTPException 500 "Internal server error"))) /\
  (App.event_type_of payload = Ret "message" ->
   lookup "wa_id" payload = None \/ lookup "text" payload = None \/
   lookup "meta_msg_id" payload = None ->
   App.process_webhook_payload emit_fails now payload s =
   (s, Raise (HTTPException 500 "Internal server error"))).
Proof.
  assert (forall t, App.event_type_of payload = Ret t ->
            t <> "message" -> t <> "status" ->
            App.process_webhook_payload emit_fails now payload s =
            (s, Raise (HTTPException 400 "Invalid event type"))) as A.
  { intros t T N1 N2. unfold App.process_webhook_payload, App.webhook_body.
    rewrite T. apply String.eqb_neq in N1, N2. now rewrite N1, N2. }
  split; [exact A|]. split; [|split].
  - intros L. apply (A ""); try discriminate.
    unfold App.event_type_of, dict_get_default. now rewrite L.
  - intros e T. unfold App.process_webhook_payload, App.webhook_body.
    rewrite T. unfold App.event_type_of in T.
    destruct (dict_get_default "type" (JStr "") payload); try discriminate;
      now injection T as <-.
  - intros T H. unfold App.process_webhook_payload, App.webhook_body.
    rewrite T. cbn [String.eqb Ascii.eqb Bool.eqb].
    unfold App.webhook_message, dict_getitem.
    destruct H as [H|[H|H]].
    + now rewrite H.
    + rewrite H. now destruct (lookup "wa_id" payload).
    + rewrite H. destruct (lookup "wa_id" payload); [|reflexivity].
      now destruct (lookup "text" payload).
Qed.

Lemma webhook_rejects_malformed_payloads_witness :
  App.process_webhook_payload strict_socket (JStr t1)
    [("meta_msg_id", JStr "m1")]
    (server_of [stored_message "m1" "sent"]) =
  (server_of [stored_message "m1" "sent"],
   Raise (HTTPException 400 "Invalid event type")).
Proof.
  destruct (webhook_rejects_malformed_payloads strict_socket (JStr t1)
              [("meta_msg_id", JStr "m1")]
              (server_of [stored_message "m1" "sent"])) as (_ & H & _).
  apply H. reflexivity.
Defined.

(** The white space that is stripped is that of Python: a type that ends
    with a no-break space (U+00A0) is the type without it. *)
Example type_is_stripped_of_unicode_space :
  App.event_type_of [("type", JStr (String.append "Message"
                                      (String (ascii_of_nat 194)
                                         (String (ascii_of_nat 160)
                                            EmptyString))))] =
  Ret "message".
Proof. reflexivity. Qed.

(** X14: POST /messages stores every message as outbound and sent,
    whatever direction and status the body carries: for an identifier that
    is not stored the document is appended with these two values and one
    [new_message] event is emitted to the room of its [wa_id]; for an
    identifier that is stored the answer is the 500 "Database insert
    error" and nothing changes. *)
Theorem create_message_is_outbound_sent
    (emit_fails : json -> bool)
    (now : json) (m : Endpoints.MessageCreate) (s : App.server) :
  Endpoints.create_message emit_fails now m s =
  match find_one "meta_msg_id" (JStr (Endpoints.mc_meta_msg_id m))
          (App.processed_messages s) with
  | Some _ => (s, Raise (HTTPException 500 "Database insert error"))
  | None =>
      (App.mkServer
         (App.processed_messages s ++
          [[("wa_id", JStr (Endpoints.mc_wa_id m));
            ("text", JStr (Endpoints.mc_text m));
            ("direction", JStr "outbound");
            ("status", JStr "sent");
            ("meta_msg_id", JStr (Endpoints.mc_meta_msg_id m));
            ("timestamp", now)]])
         (App.emitted s ++
          [App.mkEmit "new_message"
             (JObj [("wa_id", JStr (Endpoints.mc_wa_id m));
                    ("message",
                     JObj [("text", JStr (Endpoints.mc_text m));
                           ("status", JStr "sent");
                           ("direction", JStr "outbound")])])
             (JStr (Endpoints.mc_wa_id m))]),
       Ret (JObj [("status", JStr "success")]))
  end.
Proof.
  unfold Endpoints.create_message, Endpoints.create_message_body.
  cbv zeta.
  match goal with
  | |- context [App.db_insert_message now ?md ?msgs] =>
      destruct (db_insert_message_cases now md msgs
                  (JStr (Endpoints.mc_meta_msg_id m)) eq_refl)
        as [[F ->]|[F ->]]
  end.
  - destruct (find_one _ _ _); [|congruence].
    cbn [App.is_http_exception]. now rewrite AppFacts.server_eta.
  - rewrite F. reflexivity.
Qed.

(** X15: PUT /messages/status and the status branch of the webhook make
    the same change to the messages, whatever the request; the endpoint
    raises what [db_update_message_status] raises and [MessageNotFound]
    when nothing was modified; and when the status is applied to a message
    that has a [wa_id], one [status_update] event is emitted to the room
    of that [wa_id] and the answer is the success; only a stored [wa_id]
    that is a list or a dict for which the socket server raises gives the
    500 answer instead, with the status written. *)
Theorem put_status_agrees_with_webhook
    (emit_fails : json -> bool)
    (now : json) (u : Endpoints.MessageStatusUpdate) (s : App.server) :
  let payload := [("type", JStr "status");
                  ("meta_msg_id", JStr (Endpoints.su_meta_msg_id u));
                  ("status", JStr (Endpoints.su_new_status u))] in
  App.processed_messages
    (fst (Endpoints.update_message_status_endpoint emit_fails u s)) =
  App.processed_messages
    (fst (App.process_webhook_payload emit_fails now payload s)) /\
  (forall e,
     snd (App.process_webhook_payload emit_fails now payload s) = Raise e ->
     Endpoints.update_message_status_endpoint emit_fails u s = (s, Raise e)) /\
  (forall v cur wa_id,
     snd (App.process_webhook_payload emit_fails now payload s) = Ret v ->
     find_one "meta_msg_id" (JStr (Endpoints.su_meta_msg_id u))
       (App.processed_messages s) = Some cur ->
     lookup "wa_id" cur = Some wa_id ->
     Endpoints.update_message_status_endpoint emit_fails u s =
     match App.sio_emit emit_fails
             (App.mkEmit "status_update"
                (JObj [("meta_msg_id", JStr (Endpoints.su_meta_msg_id u));
                       ("new_status", JStr (Endpoints.su_new_status u))])
                wa_id)
             (App.emitted s) with
     | Ret sent =>
         (App.mkServer
            (App.processed_messages
               (fst (App.process_webhook_payload emit_fails now payload s)))
            sent,
          Ret (JObj [("status", JStr "success")]))
     | Raise _ =>
         (App.mkServer
            (App.processed_messages
               (fst (App.process_webhook_payload emit_fails now payload s)))
            (App.emitted s),
          Raise (HTTPException 500 "Internal server error"))
     end) /\
  (forall v cur wa_id,
     snd (App.process_webhook_payload emit_fails now payload s) = Ret v ->
     find_one "meta_msg_id" (JStr (Endpoints.su_meta_msg_id u))
       (App.processed_messages s) = Some cur ->
     lookup "wa_id" cur = Some wa_id ->
     storable wa_id = true ->
     Endpoints.update_message_status_endpoint emit_fails u s =
     (App.mkServer
        (App.processed_messages
           (fst (App.process_webhook_payload emit_fails now payload s)))
        (App.emitted s ++
         [App.mkEmit "status_update"
            (JObj [("meta_msg_id", JStr (Endpoints.su_meta_msg_id u));
                   ("new_status", JStr (Endpoints.su_new_status u))])
            wa_id]),
      Ret (JObj [("status", JStr "success")]))).
Proof.
  cbv zeta.
  set (mid := JStr (Endpoints.su_meta_msg_id u)).
  set (new := JStr (Endpoints.su_new_status u)).
  assert (App.process_webhook_payload emit_fails now
            [("type", JStr "status"); ("meta_msg_id", mid); ("status", new)] s =
          (let (msgs, res) :=
             App.db_update_message_status mid new (App.processed_messages s) in
           match res with
           | Raise e =>
               if App.is_http_exception e
               then (App.mkServer msgs (App.emitted s), Raise e)
               else (App.mkServer msgs (App.emitted s),
                     Raise (HTTPException 500 "Internal server error"))
           | Ret (S _) =>
               (App.mkServer msgs
                  (App.emitted s ++
                   [App.mkEmit "status_update"
                      (JObj [("meta_msg_id", mid); ("new_status", new)])
                      (JStr "global")]),
                Ret (JObj [("status", JStr "success");
                           ("event", JStr "status_updated")]))
           | Ret O => (App.mkServer msgs (App.emitted s), Raise MessageNotFound)
           end)) as PW.
  { unfold App.process_webhook_payload.
    rewrite (AppFacts.webhook_status_body emit_fails now _ s mid new);
      try reflexivity.
    destruct (App.db_update_message_status mid new (App.processed_messages s))
      as [msgs [[|k]|e]]; reflexivity. }
  rewrite PW. clear PW.
  unfold Endpoints.update_message_status_endpoint,
         Endpoints.update_message_status_body.
  fold mid. fold new.
  destruct (db_update_cases mid new (App.processed_messages s))
    as [[F ->]|[(e & -> & F)|(cur & next & F & T & I & ->)]].
  - cbn [fst snd App.is_http_exception App.processed_messages].
    rewrite AppFacts.server_eta.
    repeat split; try reflexivity; try discriminate.
    now intros e [= <-].
  - cbn [fst snd].
    destruct (App.is_http_exception e);
      cbn [fst snd App.processed_messages]; rewrite AppFacts.server_eta;
      (repeat split; try discriminate; now intros e0 [= <-]).
  - cbn [fst snd App.processed_messages App.is_http_exception].
    pose proof (update_one_find "meta_msg_id" mid [("status", new)]
                  (App.processed_messages s) (keeps_status new)) as U.
    rewrite F in U. cbn [option_map] in U. rewrite U.
    cbn [py_getitem]. unfold dict_getitem. cbn [apply_set fold_left fst snd].
    rewrite lookup_dict_set_other by discriminate.
    split; [|split; [|split]].
    + destruct (lookup "wa_id" cur) as [w|]; [|reflexivity].
      destruct (AppFacts.sio_emit_cases emit_fails
                  (App.mkEmit "status_update"
                     (JObj [("meta_msg_id", mid); ("new_status", new)]) w)
                  (App.emitted s)) as [-> | ->]; reflexivity.
    + discriminate.
    + intros v cur0 wa_id _ F0 W. rewrite F in F0. injection F0 as <-.
      rewrite W.
      destruct (AppFacts.sio_emit_cases emit_fails
                  (App.mkEmit "status_update"
                     (JObj [("meta_msg_id", mid); ("new_status", new)]) wa_id)
                  (App.emitted s)) as [-> | ->]; reflexivity.
    + intros v cur0 wa_id _ F0 W Sw. rewrite F in F0. injection F0 as <-.
      rewrite W. now rewrite AppFacts.sio_emit_scalar.
Qed.

Lemma put_status_agrees_with_webhook_witness :
  Endpoints.update_message_status_endpoint strict_socket
    (Endpoints.mkMessageStatusUpdate "m1" "read")
    (server_of [stored_message "m1" "delivered"]) =
  (App.mkServer
     (App.processed_messages
        (fst (App.process_webhook_payload strict_socket (JStr t1)
                [("type", JStr "status"); ("meta_msg_id", JStr "m1");
                 ("status", JStr "read")]
                (server_of [stored_message "m1" "delivered"]))))
     [App.mkEmit "status_update"
        (JObj [("meta_msg_id", JStr "m1"); ("new_status", JStr "read")])
        (JStr "c1")],
   Ret (JObj [("status", JStr "success")])).
Proof.
  destruct (put_status_agrees_with_webhook strict_socket (JStr t1)
              (Endpoints.mkMessageStatusUpdate "m1" "read")
              (server_of [stored_message "m1" "delivered"]))
    as (_ & _ & _ & H).
  apply (H (JObj [("status", JStr "success"); ("event", JStr "status_updated")])
           (stored_message "m1" "delivered") (JStr "c1"));
    reflexivity.
Defined.

(* ================================================================== *)
(** ** models.py, [serialize], the CORS origins and sequences of updates *)



(** X17: [serialize] leaves no [ObjectId] and no [datetime] at any depth
    of its result, changes nothing in a value that holds none, and is
    therefore idempotent. *)
Theorem serialize_is_json_safe (value : Endpoints.bson) :
  Endpoints.json_safe (Endpoints.serialize value) = true /\
  (Endpoints.json_safe value = true -> Endpoints.serialize value = value) /\
  Endpoints.serialize (Endpoints.serialize value) = Endpoints.serialize value.
Proof.
  assert (forall v, Endpoints.json_safe (Endpoints.serialize v) = true) as A.
  { induction v using Endpoints.bson_nested_ind; try reflexivity.
    - simpl. induction H as [|x l Hx _ IH]; [reflexivity|].
      simpl in *. now rewrite Hx, IH.
    - simpl. induction H as [|[k x] l Hx _ IH]; [reflexivity|].
      simpl in *. now rewrite Hx, IH. }
  assert (forall v, Endpoints.json_safe v = true -> Endpoints.serialize v = v) as B.
  { induction v using Endpoints.bson_nested_ind; try reflexivity;
      try discriminate.
    - simpl. intros S0. f_equal.
      induction H as [|x l Hx _ IH]; [reflexivity|].
      simpl in S0. apply andb_prop in S0 as [S1 S2].
      now rewrite (Hx S1), (IH S2).
    - simpl. intros S0. f_equal.
      induction H as [|[k x] l Hx _ IH]; [reflexivity|].
      simpl in S0, Hx. apply andb_prop in S0 as [S1 S2].
      now rewrite (Hx S1), (IH S2). }
  split; [apply A|]. split; [apply B|]. apply B, A.
Qed.

Lemma serialize_is_json_safe_witness :
  Endpoints.serialize
    (Endpoints.BObj [("_id", Endpoints.BStr "65a1");
                     ("tags", Endpoints.BArr [Endpoints.BNum 1])]) =
  Endpoints.BObj [("_id", Endpoints.BStr "65a1");
                  ("tags", Endpoints.BArr [Endpoints.BNum 1])].
Proof.
  apply (proj1 (proj2 (serialize_is_json_safe
           (Endpoints.BObj [("_id", Endpoints.BStr "65a1");
                            ("tags", Endpoints.BArr [Endpoints.BNum 1])])))).
  reflexivity.
Defined.

Lemma split_comma_not_nil (s : string) : Endpoints.split_comma s <> [].
Proof.
  induction s as [|c s IH]; simpl; [discriminate|].
  destruct (Ascii.eqb c ","); [discriminate|].
  destruct (Endpoints.split_comma s); discriminate.
Qed.

Lemma split_comma_single_empty (s : string) :
  Endpoints.split_comma s = [EmptyString] -> s = EmptyString.
Proof.
  destruct s as [|c s]; [reflexivity|]. simpl.
  destruct (Ascii.eqb c ",").
  - intros [= H]. now apply split_comma_not_nil in H.
  - destruct (Endpoints.split_comma s); discriminate.
Qed.

Lemma join_split_comma (s : string) :
  Endpoints.join_comma (Endpoints.split_comma s) = s.
Proof.
  induction s as [|c s IH]; [reflexivity|]. simpl.
  pose proof (split_comma_not_nil s) as N.
  destruct (Ascii.eqb c ",") eqn:E.
  - apply Ascii.eqb_eq in E. subst c.
    destruct (Endpoints.split_comma s) as [|piece rest]; [congruence|].
    cbn [Endpoints.join_comma]. cbn [Endpoints.join_comma] in IH.
    simpl. now rewrite IH.
  - destruct (Endpoints.split_comma s) as [|piece rest]; [congruence|].
    destruct rest as [|piece' rest].
    + cbn [Endpoints.join_comma] in *. now rewrite IH.
    + cbn [Endpoints.join_comma] in *. simpl. now rewrite IH.
Qed.

(** X18: the list of CORS origins is never empty and never the single
    empty origin: an unset or empty CORS_ORIGINS gives the two local
    defaults, and any other value gives its comma-separated pieces as they
    are, nothing trimmed and nothing dropped (joining them with commas
    gives the value back). *)
Theorem cors_origins_are_never_empty (env : option string) :
  Endpoints.cors_origins env <> [] /\
  Endpoints.cors_origins env <> [EmptyString] /\
  (env = None \/ env = Some EmptyString ->
   Endpoints.cors_origins env =
   ["http://localhost:3000"; "http://127.0.0.1:3000"]) /\
  (forall v, env = Some v -> v <> EmptyString ->
     Endpoints.cors_origins env = Endpoints.split_comma v /\
     Endpoints.join_comma (Endpoints.cors_origins env) = v).
Proof.
  unfold Endpoints.cors_origins.
  set (v0 := match env with Some v => v | None => EmptyString end).
  pose proof (split_comma_not_nil v0) as N.
  pose proof (split_comma_single_empty v0) as S0.
  pose proof (join_split_comma v0) as J.
  split; [|split; [|split]].
  - destruct (Endpoints.split_comma v0) as [|[|c p] [|q r]];
      try discriminate; congruence.
  - destruct (Endpoints.split_comma v0) as [|[|c p] [|q r]];
      try discriminate; congruence.
  - intros [->| ->]; reflexivity.
  - intros v -> NE. subst v0.
    destruct (Endpoints.split_comma v) as [|[|c p] [|q r]] eqn:E;
      try congruence; try (split; [reflexivity | exact J]).
    exfalso. now apply NE, S0.
Qed.

Lemma cors_origins_are_never_empty_witness :
  Endpoints.cors_origins (Some "https://a.example, https://b.example,") =
  Endpoints.split_comma "https://a.example, https://b.example," /\
  Endpoints.join_comma
    (Endpoints.cors_origins (Some "https://a.example, https://b.example,")) =
  "https://a.example, https://b.example,".
Proof.
  destruct (cors_origins_are_never_empty
              (Some "https://a.example, https://b.example,"))
    as (_ & _ & _ & H).
  apply H; [reflexivity | discriminate].
Defined.

(** The pieces are kept as they are written: blanks stay and a trailing
    comma gives an empty origin. *)
Example cors_origins_are_not_trimmed :
  Endpoints.cors_origins (Some "https://a.example, https://b.example,") =
  ["https://a.example"; " https://b.example"; ""].
Proof. reflexivity. Qed.

(** No status request, whatever message it names, takes the stored status
    of a message back: the number of steps that are left to it in
    sent < delivered < read does not grow. *)
Lemma status_never_goes_back (mid m new : json) (msgs : collection) :
  match current_status mid (fst (App.db_update_message_status m new msgs)) with
  | Some cur => 2 - rank cur
  | None => 0
  end <=
  match current_status mid msgs with
  | Some cur => 2 - rank cur
  | None => 0
  end.
Proof.
  destruct (db_update_cases m new msgs)
    as [[_ E]|[(e & E & _)|(cur & next & F & T & I & E)]];
    rewrite E; cbn [fst]; try lia.
  unfold current_status.
  destruct (update_one_find_any "meta_msg_id" mid m [("status", new)] msgs
              (keeps_status new)) as [->|(d & Fd & Fm & ->)]; [lia|].
  rewrite Fd. rewrite F in Fm. injection Fm as <-.
  destruct (legal_goes_forward _ _ _ T I) as [R _].
  unfold dict_get_default at 1. cbn [apply_set fold_left fst snd].
  rewrite lookup_dict_set_same. lia.
Qed.

Lemma update_all_bound (mid : json) (requests : list (json * json))
    (msgs : collection) :
  modifications mid (snd (update_all requests msgs)) <=
  match current_status mid msgs with
  | Some cur => 2 - rank cur
  | None => 0
  end.
Proof.
  revert msgs. induction requests as [|[m new] rest IH]; intros msgs.
  - cbn. lia.
  - cbn [update_all].
    pose proof (status_never_goes_back mid m new msgs) as K.
    destruct (App.db_update_message_status m new msgs) as [msgs1 answer] eqn:E.
    specialize (IH msgs1).
    destruct (update_all rest msgs1) as [msgs2 answers].
    cbn [fst snd] in *. unfold modifications in *. cbn [filter fst snd].
    destruct (json_eqb m mid) eqn:Q; cbn [andb]; [|lia].
    apply PyFacts.json_eqb_eq in Q. subst m.
    destruct answer as [[|n]|e]; try lia.
    destruct (db_update_modified mid new msgs msgs1 n E)
      as (cur & C & R & S1).
    rewrite C.
    assert (current_status mid msgs1 = Some new) as C1.
    { unfold current_status, status_of in *.
      destruct (find_one "meta_msg_id" mid msgs1); [|discriminate].
      unfold dict_get_default. now rewrite S1. }
    rewrite C1 in IH. cbn [List.length].
    assert (rank new <= 2) by (unfold rank; destruct new; try lia;
      destruct (String.eqb s "sent"); try lia;
      destruct (String.eqb s "delivered"); lia).
    lia.
Qed.

(** X19: over any sequence of status requests that name their messages by
    strings, handled by [db_update_message_status], the status of one
    message is modified at most twice; it is never modified when the
    message is not stored at the start or is stored as read. *)
Theorem status_changes_at_most_twice
    (mid : json) (requests : list (json * json)) (msgs : collection) :
  forallb (fun request => is_string (fst request)) requests = true ->
  modifications mid (snd (update_all requests msgs)) <= 2 /\
  (find_one "meta_msg_id" mid msgs = None ->
   modifications mid (snd (update_all requests msgs)) = 0) /\
  (status_of mid msgs = Some (JStr "read") ->
   modifications mid (snd (update_all requests msgs)) = 0).
Proof.
  intros _.
  pose proof (update_all_bound mid requests msgs) as B.
  unfold current_status, status_of in *.
  destruct (find_one "meta_msg_id" mid msgs) as [d|].
  - split; [lia|]. split; [discriminate|].
    intros L. unfold dict_get_default in B. rewrite L in B. cbn in B. lia.
  - split; [lia|]. split; [intros _; lia | discriminate].
Qed.

Lemma status_changes_at_most_twice_witness :
  modifications (JStr "m1")
    (snd (update_all
            [(JStr "m1", JStr "delivered"); (JStr "m1", JStr "sent");
             (JStr "m1", JStr "read")]
            [stored_message "m1" "read"])) = 0.
Proof.
  apply (status_changes_at_most_twice (JStr "m1")
           [(JStr "m1", JStr "delivered"); (JStr "m1", JStr "sent");
            (JStr "m1", JStr "read")]
           [stored_message "m1" "read"]).
  - reflexivity.
  - reflexivity.
Defined.

(** Two modifications are possible: sent, delivered, read. *)
Example status_can_change_twice :
  modifications (JStr "m1")
    (snd (update_all
            [(JStr "m1", JStr "delivered"); (JStr "m1", JStr "delivered");
             (JStr "m1", JStr "read"); (JStr "m1", JStr "sent")]
            [stored_message "m1" "sent"])) = 2.
Proof. reflexivity. Qed.

(* ================================================================== *)
(** ** More of the batch importer *)



(** X21: a payload that is no dict, or a dict whose type is neither
    message nor status and that has no truthy [metaData] or [meta_data],
    is not recognised, silently: the normalizer returns [None] without a
    warning, and the file is skipped under its base name, which is all
    that happens to the run. *)
Theorem payload_without_envelope_is_skipped
    (fromtimestamp_iso : json -> option string)
    (name now : string) (raw : json) (r : run) :
  isinstance_dict raw = false \/
  (exists d, raw = JObj d /\
     in_strs (dict_get "type" d) ["message"; "status"] = false /\
     truthy (dict_get "metaData" d) = false /\
     truthy (dict_get "meta_data" d) = false) ->
  normalize_webhook_payload fromtimestamp_iso now raw = (Ret JNull, []) /\
  process_file fromtimestamp_iso (mkFile name (Some raw) now) r =
  Ret (incr_skipped
         (print (SkipUnknownStructure (basename (mkFile name (Some raw) now)))
            r)).
Proof.
  intros H.
  assert (normalize_webhook_payload fromtimestamp_iso now raw = (Ret JNull, []))
    as N.
  { unfold normalize_webhook_payload.
    destruct H as [H|(d & -> & T & A & B)].
    - now rewrite H.
    - cbn [isinstance_dict negb py_get]. rewrite T.
      unfold envelope_of. cbn [py_get bind]. rewrite A. cbn [bind].
      unfold py_or. rewrite B. reflexivity. }
  split; [exact N|].
  unfold process_file. cbn [loaded clock]. now rewrite N.
Qed.

Lemma payload_without_envelope_is_skipped_witness :
  normalize_webhook_payload epoch_iso t1
    (JObj [("type", JStr "Message"); ("meta_msg_id", JStr "m1")]) =
  (Ret JNull, []) /\
  process_file epoch_iso
    (mkFile "payloads/a.json"
       (Some (JObj [("type", JStr "Message"); ("meta_msg_id", JStr "m1")])) t1)
    empty_run =
  Ret (incr_skipped (print (SkipUnknownStructure "a.json") empty_run)).
Proof.
  apply (payload_without_envelope_is_skipped epoch_iso "payloads/a.json" t1
           (JObj [("type", JStr "Message"); ("meta_msg_id", JStr "m1")])
           empty_run).
  right. eexists. repeat split.
Defined.

(** X22: of two statuses that arrive before their message the later one
    wins: it replaces the earlier one in the pending buffer and it is the
    one that the message takes when it arrives, after which nothing waits
    for the identifier.  (The identifier is a string, the stored fields of
    the three events are scalars, and at most one entry waits for the
    identifier at the start.) *)
Theorem last_buffered_status_wins
    (f1 f2 f3 now1 now2 now3 : string) (ps1 ps2 pm : dict) (r : run)
    (mid st1 st2 : json) :
  is_status_event mid st1 ps1 ->
  is_status_event mid st2 ps2 ->
  is_message_event mid pm ->
  is_string mid = true ->
  plain ps1 = true ->
  plain ps2 = true ->
  plain pm = true ->
  find_one "meta_msg_id" mid (messages_col r) = None ->
  count_documents "meta_msg_id" mid (pending_col r) <= 1 ->
  pending_of mid
    (pending_col (ingest f2 now2 (JObj ps2) (ingest f1 now1 (JObj ps1) r))) =
  Some st2 /\
  status_of mid
    (messages_col
       (ingest f3 now3 (JObj pm)
          (ingest f2 now2 (JObj ps2) (ingest f1 now1 (JObj ps1) r)))) =
  Some st2 /\
  find_one "meta_msg_id" mid
    (pending_col
       (ingest f3 now3 (JObj pm)
          (ingest f2 now2 (JObj ps2) (ingest f1 now1 (JObj ps1) r)))) = None.
Proof.
  intros E1 E2 Em Sid _ _ _ F C.
  assert (messages_col (ingest f1 now1 (JObj ps1) r) = messages_col r) as M1.
  { rewrite (ingest_status_messages _ _ _ _ _ _ E1).
    now rewrite update_one_none. }
  assert (count_documents "meta_msg_id" mid
            (pending_col (ingest f1 now1 (JObj ps1) r)) <= 1) as C1.
  { apply ingest_keeps_pending_unique; [|exact C].
    now apply (status_event_named ps1 mid st1). }
  set (r1 := ingest f1 now1 (JObj ps1) r) in *.
  assert (find_one "meta_msg_id" mid (messages_col r1) = None) as F1
    by now rewrite M1.
  pose proof (buffered_status_waits f2 now2 ps2 r1 mid st2 E2 (or_intror F1))
    as P2.
  assert (count_documents "meta_msg_id" mid
            (pending_col (ingest f2 now2 (JObj ps2) r1)) <= 1) as C2.
  { apply ingest_keeps_pending_unique; [|exact C1].
    now apply (status_event_named ps2 mid st2). }
  set (r2 := ingest f2 now2 (JObj ps2) r1) in *.
  destruct (ingest_message_applies f3 now3 pm r2 mid st2 Em P2) as (S3 & P3 & _).
  repeat split; [exact P2 | exact S3 |].
  rewrite P3. now apply delete_one_find.
Qed.

Lemma last_buffered_status_wins_witness :
  status_of (JStr "m1")
    (messages_col
       (ingest "c.json" t3 (JObj (message_event "m1" "sent"))
          (ingest "b.json" t2 (JObj (status_event "m1" "read"))
             (ingest "a.json" t1 (JObj (status_event "m1" "delivered"))
                empty_run)))) = Some (JStr "read").
Proof.
  apply (last_buffered_status_wins "a.json" "b.json" "c.json" t1 t2 t3
           (status_event "m1" "delivered") (status_event "m1" "read")
           (message_event "m1" "sent") empty_run
           (JStr "m1") (JStr "delivered") (JStr "read")).
  - repeat split.
  - repeat split.
  - repeat split.
  - reflexivity.
  - reflexivity.
  - reflexivity.
  - reflexivity.
  - reflexivity.
  - vm_compute. lia.
Defined.

(* ================================================================== *)
(** ** What the error counter counts *)

Module ErrorFacts.
Import Py Mongo Processor Observe Invariants.
Import PyFacts MongoFacts ProcessorFacts NormalizerFacts CollectionFacts.
Import BatchFacts NormalizerShape.

#[local] Arguments json_eqb : simpl never.

(** The files of a batch that could not be read. *)
Lemma unreadable_cons (f : file) (files : list file) :
  List.length (filter (fun g => match loaded g with
                                | None => true
                                | Some _ => false
                                end) (f :: files)) =
  (match loaded f with None => 1 | Some _ => 0 end) +
  List.length (filter (fun g => match loaded g with
                                | None => true
                                | Some _ => false
                                end) files).
Proof. cbn [filter]. now destruct (loaded f). Qed.

(** A canonical event meets no exception when every pending entry holds a
    status. *)
Lemma ingest_no_error (f now : string) (p : dict) (r : run) :
  in_strs (dict_get "type" p) ["message"; "status"] = true ->
  pending_well_formed (pending_col r) ->
  errors (ingest f now (JObj p) r) = errors r.
Proof.
  intros T W. unfold ingest, process_payload. cbn [py_getitem].
  unfold dict_getitem.
  assert (exists ty, lookup "type" p = Some ty /\
            (is_str "message" ty = true \/ is_str "status" ty = true))
    as (ty & L & I).
  { unfold dict_get in T. destruct (lookup "type" p) as [ty|];
      [|discriminate T].
    exists ty. split; [reflexivity|].
    cbn [in_strs existsb] in T. rewrite orb_false_r in T.
    now apply orb_prop in T. }
  rewrite L.
  destruct (is_str "message" ty) eqn:M.
  - unfold process_message.
    destruct (negb (truthy (dict_get "meta_msg_id" p))); [reflexivity|].
    destruct (find_one "meta_msg_id" (dict_get "meta_msg_id" p) (messages_col r))
      eqn:F.
    + destruct (apply_pending_well_formed (dict_get "meta_msg_id" p)
                  (incr_skipped
                     (print (SkipDuplicate (dict_get "meta_msg_id" p)) r)) W)
        as (r' & -> & _ & _ & _ & E).
      exact E.
    + rewrite insert_one_unique_fresh by exact F.
      destruct (apply_pending_well_formed (dict_get "meta_msg_id" p)
                  (incr_processed
                     (print (Inserted (dict_get "meta_msg_id" p))
                        (with_messages
                           (messages_col r ++
                            [message_doc now p (dict_get "meta_msg_id" p)]) r)))
                  W)
        as (r' & -> & _ & _ & _ & E).
      exact E.
  - destruct I as [I|I]; [discriminate|]. rewrite I.
    unfold process_status.
    destruct (negb (truthy (dict_get "meta_msg_id" p))); [reflexivity|].
    destruct (update_one _ _ _ _) as [msgs result].
    now destruct (Nat.ltb 0 (modified_count result)).
Qed.

Section Loop.

Variable fromtimestamp_iso : json -> option string.

Lemma process_file_errors (f : file) (r r' : run) :
  pending_well_formed (pending_col r) ->
  process_file fromtimestamp_iso f r = Ret r' ->
  errors r' = (match loaded f with None => 1 | Some _ => 0 end) + errors r.
Proof.
  intros W. unfold process_file.
  destruct (loaded f) as [raw|]; [|now intros [= <-]].
  pose proof (normalize_shape fromtimestamp_iso (clock f) raw) as Sh.
  destruct (normalize_webhook_payload fromtimestamp_iso (clock f) raw) as [res w].
  cbn [fst] in Sh.
  destruct (print_all_store w r) as (_ & B & _ & _ & E).
  set (r0 := fold_left (fun acc l => print l acc) w r) in *.
  destruct res as [v|e]; [|discriminate].
  destruct (Sh v eq_refl) as [->|(p & -> & T)].
  - cbn [truthy negb]. intros [= <-]. exact E.
  - destruct (negb (truthy (JObj p))); intros [= <-]; [exact E|].
    rewrite ingest_no_error; [exact E | exact T | now rewrite B].
Qed.

Lemma process_files_errors (files : list file) (r r' : run) :
  pending_well_formed (pending_col r) ->
  process_files fromtimestamp_iso files r = Ret r' ->
  errors r' =
  List.length (filter (fun g => match loaded g with
                                | None => true
                                | Some _ => false
                                end) files) + errors r.
Proof.
  revert r. induction files as [|f files IH]; intros r W.
  - now intros [= <-].
  - cbn [process_files].
    destruct (process_file_step fromtimestamp_iso f r)
      as (r1 & R1 & _ & _ & _ & W1).
    rewrite R1. cbn [bind]. intros R2.
    destruct (W1 W) as [W1' _].
    rewrite (IH r1 W1' R2), (process_file_errors f r r1 W R1), unreadable_cons.
    lia.
Qed.

End Loop.

End ErrorFacts.

Import ErrorFacts.

(** X23: when every pending entry holds a status and the events of the
    files name their messages by strings and hold scalars in the fields
    that reach the store, the errors of the summary are exactly the files
    that could not be read: no such payload, recognised or not, makes the
    reconciliation fail. *)
Theorem errors_are_the_unreadable_files
    (fromtimestamp_iso : json -> option string)
    (messages pending : collection) (files : list file) :
  pending_well_formed pending ->
  forallb (plain_file fromtimestamp_iso) files = true ->
  exists r,
    process_path fromtimestamp_iso messages pending files = Ret r /\
    errors r =
    List.length (filter (fun f => match loaded f with
                                  | None => true
                                  | Some _ => false
                                  end) files).
Proof.
  intros W _. unfold process_path.
  destruct (process_files_returns fromtimestamp_iso files
              (mkRun messages pending 0 0 0 [])) as [r R].
  rewrite R. cbn [bind]. eexists. split; [reflexivity|].
  cbn [print errors].
  rewrite (process_files_errors fromtimestamp_iso files
             (mkRun messages pending 0 0 0 []) r W R).
  cbn [errors]. lia.
Qed.

Lemma errors_are_the_unreadable_files_witness :
  exists r,
    process_path epoch_iso [stored_message "m1" "sent"]
      [pending_entry "m1" "read"]
      [mkFile "a.json" None t1;
       mkFile "b.json" (Some empty_entry_envelope) t2;
       mkFile "c.json" (Some (JObj (message_event "m1" "sent"))) t3] = Ret r /\
    errors r =
    List.length (filter (fun f => match loaded f with
                                  | None => true
                                  | Some _ => false
                                  end)
                   [mkFile "a.json" None t1;
                    mkFile "b.json" (Some empty_entry_envelope) t2;
                    mkFile "c.json" (Some (JObj (message_event "m1" "sent"))) t3]).
Proof.
  apply (errors_are_the_unreadable_files epoch_iso
           [stored_message "m1" "sent"] [pending_entry "m1" "read"]).
  - repeat constructor. discriminate.
  - reflexivity.
Defined.

(* ================================================================== *)
(** ** The pages of a chat *)

Lemma serialize_leaves_nothing (v : Endpoints.bson) :
  Endpoints.json_safe (Endpoints.serialize v) = true.
Proof.
  induction v using Endpoints.bson_nested_ind; try reflexivity.
  - simpl. induction H as [|x l Hx _ IH]; [reflexivity|].
    simpl in *. now rewrite Hx, IH.
  - simpl. induction H as [|[k x] l Hx _ IH]; [reflexivity|].
    simpl in *. now rewrite Hx, IH.
Qed.

Lemma in_firstn_list {A : Type} (n : nat) (l : list A) (x : A) :
  In x (firstn n l) -> In x l.
Proof.
  revert l. induction n as [|n IH]; intros [|y l]; simpl; try tauto.
  intros [->|H]; [now left | right; now apply IH].
Qed.

Lemma in_skipn_list {A : Type} (n : nat) (l : list A) (x : A) :
  In x (skipn n l) -> In x l.
Proof.
  revert l. induction n as [|n IH]; intros [|y l]; simpl; try tauto.
  intros H. right. now apply IH.
Qed.

Lemma firstn_skipn_app {A : Type} (k m : nat) (l : list A) :
  firstn k l ++ firstn m (skipn k l) = firstn (k + m) l.
Proof.
  revert l. induction k as [|k IH]; intros l; [reflexivity|].
  destruct l as [|x l]; simpl.
  - now rewrite firstn_nil.
  - now rewrite IH.
Qed.

(** X24: the pages of a chat are the consecutive slices of its messages
    in the order of the sort: a page holds at most [limit] documents, none
    of them with an [ObjectId] or a [datetime] left in it; the pages 1 to
    n, one after the other, are the first n * limit messages of the chat;
    a page that starts behind the last message is empty; and when the sort
    only reorders, every document of a page is the serialization of a
    stored document that the filter on [wa_id] matches. *)
Theorem pages_are_consecutive_slices
    (sort_timestamp_desc : list Endpoints.bdoc -> list Endpoints.bdoc)
    (wa_id : string) (limit : nat) (docs : list Endpoints.bdoc) :
  (forall page,
     1 <= page ->
     List.length
       (Endpoints.db_get_messages_by_wa_id sort_timestamp_desc wa_id page limit
          docs) <= limit /\
     Forall (fun v => Endpoints.json_safe v = true)
       (Endpoints.db_get_messages_by_wa_id sort_timestamp_desc wa_id page limit
          docs)) /\
  (forall n,
     List.concat
       (map (fun page =>
               Endpoints.db_get_messages_by_wa_id sort_timestamp_desc wa_id page
                 limit docs)
            (seq 1 n)) =
     map (fun d => Endpoints.serialize (Endpoints.BObj d))
       (firstn (n * limit)
          (sort_timestamp_desc (filter (Endpoints.wa_id_is wa_id) docs)))) /\
  (forall page,
     1 <= page ->
     List.length (sort_timestamp_desc (filter (Endpoints.wa_id_is wa_id) docs))
       <= (page - 1) * limit ->
     Endpoints.db_get_messages_by_wa_id sort_timestamp_desc wa_id page limit docs
       = []) /\
  ((forall l d, In d (sort_timestamp_desc l) -> In d l) ->
   forall page v,
     1 <= page ->
     In v (Endpoints.db_get_messages_by_wa_id sort_timestamp_desc wa_id page
             limit docs) ->
     exists d, In d docs /\ Endpoints.wa_id_is wa_id d = true /\
               v = Endpoints.serialize (Endpoints.BObj d)).
Proof.
  unfold Endpoints.db_get_messages_by_wa_id.
  set (chat := sort_timestamp_desc (filter (Endpoints.wa_id_is wa_id) docs)).
  split; [|split; [|split]].
  - intros page _. split.
    + rewrite length_map. apply firstn_le_length.
    + apply Forall_map. apply Forall_forall. intros d _.
      apply serialize_leaves_nothing.
  - induction n as [|n IH]; [reflexivity|].
    rewrite seq_S, map_app, List.concat_app, IH. cbn [map List.concat].
    rewrite app_nil_r, <- map_app. f_equal.
    replace (1 + n - 1) with n by lia.
    rewrite firstn_skipn_app. f_equal. lia.
  - intros page P H.
    rewrite skipn_all2 by exact H. now rewrite firstn_nil.
  - intros S0 page v _ I.
    apply in_map_iff in I as (d & <- & I).
    apply in_firstn_list in I. apply in_skipn_list in I.
    apply S0 in I. apply filter_In in I as [I W].
    exists d. auto.
Qed.

Lemma pages_are_consecutive_slices_witness :
  Endpoints.db_get_messages_by_wa_id (fun l => l) "c1" 3 2
    [[("wa_id", Endpoints.BStr "c1"); ("text", Endpoints.BStr "one")];
     [("wa_id", Endpoints.BStr "c2"); ("text", Endpoints.BStr "two")];
     [("wa_id", Endpoints.BStr "c1");
      ("timestamp", Endpoints.BDatetime "2025-01-01T00:00:00")]] = [].
Proof.
  destruct (pages_are_consecutive_slices (fun l => l) "c1" 2
              [[("wa_id", Endpoints.BStr "c1"); ("text", Endpoints.BStr "one")];
               [("wa_id", Endpoints.BStr "c2"); ("text", Endpoints.BStr "two")];
               [("wa_id", Endpoints.BStr "c1");
                ("timestamp", Endpoints.BDatetime "2025-01-01T00:00:00")]])
    as (_ & _ & H & _).
  apply H; [lia | vm_compute; lia].
Defined.

(* ================================================================== *)
(** ** The two ingestion paths side by side *)

(** X25: whenever [db_update_message_status] of main.py returns for a
    status request that names its message by a string (the message is not
    stored, or the transition is legal), the batch importer leaves the
    same messages for the same status event: the two paths store
    differently only where main.py refuses. *)
Theorem batch_agrees_where_webhook_accepts
    (f now : string) (p : dict) (r : run) (mid new : json)
    (msgs' : collection) (n : nat) :
  is_status_event mid new p ->
  is_string mid = true ->
  App.db_update_message_status mid new (messages_col r) = (msgs', Ret n) ->
  messages_col (ingest f now (JObj p) r) = msgs'.
Proof.
  intros E _ H. rewrite (ingest_status_messages _ _ _ _ _ _ E).
  destruct (db_update_cases mid new (messages_col r))
    as [[F Q]|[(e & Q & _)|(cur & next & F & T & I & Q)]];
    rewrite Q in H; try discriminate; injection H as <- _.
  - now rewrite update_one_none.
  - reflexivity.
Qed.

Lemma batch_agrees_where_webhook_accepts_witness :
  messages_col
    (ingest "a.json" t1 (JObj (status_event "m1" "read")) delivered_run) =
  [[("wa_id", JStr "c1"); ("text", JStr "hello"); ("meta_msg_id", JStr "m1");
    ("direction", JStr "inbound"); ("status", JStr "read");
    ("timestamp", JStr "2025-01-01T00:00:00+00:00")]].
Proof.
  apply (batch_agrees_where_webhook_accepts "a.json" t1
           (status_event "m1" "read") delivered_run (JStr "m1") (JStr "read")
           _ 1).
  - repeat split.
  - reflexivity.
  - reflexivity.
Defined.
